(** * compare-coverage: format detection, the five parsers and the comparator

    A shallow embedding of [src/parsers/*.ts] (format detection, the LCOV,
    Istanbul, Cobertura, Clover and JaCoCo parsers) and of [src/compare.ts]
    (the baseline-vs-current comparison).

    JavaScript numbers are IEEE 754 binary64 values: they are modelled by
    Rocq's primitive floats, so that [covered / total * 100], the deltas and
    every comparison are the very operations the program runs.  A JavaScript
    string is the sequence of its UTF-16 code units; it is modelled by
    [string], one character per code unit, which covers the strings whose
    code units are below 256.  On that range white space and case folding
    are JavaScript's own: [trim] strips the code units 9 to 13, 32 and 160
    (the no-break space), [toLowerCase] folds A-Z and the capital letters
    192 to 222.  What the external libraries return (JSON.parse,
    fast-xml-parser, lcov-parse) is an input of the model, typed as the
    TypeScript interfaces of the source type it; what the source would do
    with a value outside those types (a TypeError on a missing member) is
    outside the model. *)

From Stdlib Require Import ZArith List String Ascii Bool Lia Floats.
From Stdlib Require Import Sorting.Permutation Sorting.Sorted.
Import ListNotations.
Open Scope string_scope.
Open Scope list_scope.

(** ** The JavaScript primitives the source relies on *)

Module JS.

Definition number := float.
Bind Scope float_scope with number.

(** The double nearest to the integer [z] (ties to even): the Number value of
    an array length, of a Set size or of a run of digits. *)
Definition of_Z (z : Z) : number := SF2Prim (binary_normalize prec emax z 0 false).
Definition of_nat (n : nat) : number := of_Z (Z.of_nat n).

Definition isNaN (x : number) : bool := negb (PrimFloat.eqb x x).

(** ToBoolean on a number: NaN, +0 and -0 are falsy. *)
Definition truthy (x : number) : bool :=
  negb (isNaN x) && negb (PrimFloat.eqb x 0%float).

(** [x || d] on numbers. *)
Definition num_or (x d : number) : number := if truthy x then x else d.

(** [o || d] on an optional string: undefined and the empty string are falsy. *)
Definition str_or (o : option string) (d : string) : string :=
  match o with
  | Some (String c s) => String c s
  | _ => d
  end.

(** ToString of an optional string: [undefined] prints as "undefined". *)
Definition ToString (o : option string) : string :=
  match o with
  | Some s => s
  | None => "undefined"
  end.

(** WhiteSpace and LineTerminator of ECMAScript among the code units below
    256: TAB, LF, VT, FF, CR, SP and NBSP. *)
Definition is_space (c : ascii) : bool :=
  let n := nat_of_ascii c in
  Nat.eqb n 32 || (Nat.leb 9 n && Nat.leb n 13) || Nat.eqb n 160.

Definition is_digit (c : ascii) : bool :=
  let n := nat_of_ascii c in
  Nat.leb 48 n && Nat.leb n 57.

Definition digit_val (c : ascii) : Z := Z.of_nat (nat_of_ascii c) - 48.

Fixpoint trimStart (s : string) : string :=
  match s with
  | String c s' => if is_space c then trimStart s' else s
  | EmptyString => EmptyString
  end.

Fixpoint rev_string (acc s : string) : string :=
  match s with
  | EmptyString => acc
  | String c s' => rev_string (String c acc) s'
  end.

Definition trimEnd (s : string) : string :=
  rev_string "" (trimStart (rev_string "" s)).

Definition trim (s : string) : string := trimEnd (trimStart s).

(** The lower-case mapping of a code unit below 256: A-Z, and the capital
    letters 192 to 222 but for the multiplication sign 215. *)
Definition lower (c : ascii) : ascii :=
  let n := nat_of_ascii c in
  if (Nat.leb 65 n && Nat.leb n 90)
     || (Nat.leb 192 n && Nat.leb n 222 && negb (Nat.eqb n 215))
  then ascii_of_nat (n + 32) else c.

Fixpoint toLowerCase (s : string) : string :=
  match s with
  | EmptyString => EmptyString
  | String c s' => String (lower c) (toLowerCase s')
  end.

Definition startsWith (s p : string) : bool := String.prefix p s.

Definition endsWith (s p : string) : bool :=
  String.prefix (rev_string "" p) (rev_string "" s).

Fixpoint includes (s p : string) : bool :=
  String.prefix p s ||
  match s with
  | EmptyString => false
  | String _ s' => includes s' p
  end.

(** The longest prefix of decimal digits, and what follows it. *)
Fixpoint span_digits (s : string) : list ascii * string :=
  match s with
  | String c s' =>
      if is_digit c then let '(ds, r) := span_digits s' in (c :: ds, r) else ([], s)
  | EmptyString => ([], EmptyString)
  end.

Definition digits_val (ds : list ascii) : Z :=
  fold_left (fun acc c => 10 * acc + digit_val c)%Z ds 0%Z.

Definition split_sign (s : string) : bool * string :=
  match s with
  | String "-" s' => (true, s')
  | String "+" s' => (false, s')
  | _ => (false, s)
  end.

Definition signed (neg : bool) (x : number) : number :=
  if neg then PrimFloat.opp x else x.

(** [parseInt(s, 10)]: leading white space, a sign, the longest run of
    digits; NaN when there is no digit. *)
Definition parseInt (s : string) : number :=
  let '(neg, r) := split_sign (trimStart s) in
  match span_digits r with
  | ([], _) => nan
  | (ds, _) => signed neg (of_Z (digits_val ds))
  end.

(** The double nearest to [m * 10^k], for [0 <= m]. *)
Definition of_decimal (m k : Z) : number :=
  match m with
  | Zpos p =>
      match k with
      | Zneg k' =>
          let '(q, e, l) :=
            SFdiv_core_binary prec emax (Zpos p) 0 (Z.pow_pos 10 k') 0 in
          SF2Prim (binary_round_aux prec emax false q e l)
      | _ => of_Z (m * 10 ^ k)
      end
  | _ => 0%float
  end.

(** The value of an exponent part [e[+-]digits], 0 when there is none. *)
Definition exponent_part (s : string) : Z :=
  match s with
  | String c r =>
      if Ascii.eqb c "e" || Ascii.eqb c "E" then
        let '(neg, r') := split_sign r in
        match span_digits r' with
        | ([], _) => 0%Z
        | (ds, _) => if neg then (- digits_val ds)%Z else digits_val ds
        end
      else 0%Z
  | EmptyString => 0%Z
  end.

(** [parseFloat(s)]: the value of the longest prefix of the trimmed string
    that is a StrDecimalLiteral; NaN when there is none. *)
Definition parseFloat (s : string) : number :=
  let '(neg, r) := split_sign (trimStart s) in
  if String.prefix "Infinity" r then signed neg infinity else
  let '(ip, r1) := span_digits r in
  let '(fp, r2) :=
    match r1 with
    | String "." r1' =>
        let '(fp, r2) := span_digits r1' in
        match ip, fp with
        | [], [] => ([], r1)
        | _, _ => (fp, r2)
        end
    | _ => ([], r1)
    end in
  match ip ++ fp with
  | [] => nan
  | ds => signed neg (of_decimal (digits_val ds)
                        (exponent_part r2 - Z.of_nat (List.length fp)))
  end.

(** [X | X[]] as fast-xml-parser delivers repeated elements, and the
    [Array.isArray(x) ? x : [x]] the parsers apply to it. *)
Inductive one_or_many (A : Type) : Type :=
| One (a : A)
| Many (l : list A).
Arguments One {A} a.
Arguments Many {A} l.

Definition to_array {A : Type} (x : one_or_many A) : list A :=
  match x with
  | One a => [a]
  | Many l => l
  end.

(** A plain object used as a dictionary, [Record<string, V>]: its own
    properties in [Object.keys] order. *)
Definition Object_ (V : Type) : Type := list (string * V).

Definition Object_keys {V : Type} (o : Object_ V) : list string := map fst o.
Definition Object_values {V : Type} (o : Object_ V) : list V := map snd o.

(** [o[k]]: [None] stands for [undefined]. *)
Fixpoint Object_get {V : Type} (o : Object_ V) (k : string) : option V :=
  match o with
  | [] => None
  | (k', v) :: o' => if String.eqb k' k then Some v else Object_get o' k
  end.

(** [o[k] = v]: an existing key keeps its place. *)
Fixpoint Object_set {V : Type} (o : Object_ V) (k : string) (v : V) : Object_ V :=
  match o with
  | [] => [(k, v)]
  | (k', v') :: o' =>
      if String.eqb k' k then (k', v) :: o' else (k', v') :: Object_set o' k v
  end.

(** [o || {}]. *)
Definition obj_or {V : Type} (o : option (Object_ V)) : Object_ V :=
  match o with
  | Some x => x
  | None => []
  end.

(** [new Map(entries)] over string keys: a later entry with a key already
    there replaces its value, the key keeps its place. *)
Definition Map_of {V : Type} (entries : list (string * V)) : Object_ V :=
  fold_left (fun m '(k, v) => Object_set m k v) entries [].

(** [new Set(keys)]: the keys in first-insertion order, each once. *)
Definition Set_of (keys : list string) : list string :=
  fold_left (fun s k => if existsb (String.eqb k) s then s else s ++ [k]) keys [].

(** [Array.prototype.sort(compareFn)], which is stable: each element goes
    behind the elements already placed that [compareFn] does not put after
    it.  For a consistent [compareFn] this is the one order a conforming
    engine may return. *)
Fixpoint sort_insert {A : Type} (compareFn : A -> A -> number) (x : A) (l : list A)
  : list A :=
  match l with
  | [] => [x]
  | y :: l' =>
      if PrimFloat.ltb 0%float (compareFn y x) then x :: y :: l'
      else y :: sort_insert compareFn x l'
  end.

Definition Array_sort {A : Type} (compareFn : A -> A -> number) (l : list A) : list A :=
  fold_left (fun sorted x => sort_insert compareFn x sorted) l [].

Unset Elimination Schemes.
(** A value [JSON.parse] returns; an object by its properties in
    [Object.keys] order. *)
Inductive json : Type :=
| JNull
| JBool (b : bool)
| JNumber (n : number)
| JString (s : string)
| JArray (l : list json)
| JObject (o : list (string * json)).
Set Elimination Schemes.

(** A thrown [Error] (a rejected promise for the async parsers) carries its
    message. *)
Inductive result (A : Type) : Type :=
| Ok (a : A)
| Err (message : string).
Arguments Ok {A} a.
Arguments Err {A} message.

End JS.
Import JS.
Open Scope float_scope.

(** ** src/types.ts *)

Module CoverageMetric.
Record t := { total : number; covered : number; percentage : number }.
End CoverageMetric.

Module CoverageSummary.
Record t := {
  statements : CoverageMetric.t;
  branches : CoverageMetric.t;
  functions : CoverageMetric.t;
  lines : CoverageMetric.t }.
End CoverageSummary.

Module FileCoverage.
Record t := {
  path : string;
  statements : CoverageMetric.t;
  branches : CoverageMetric.t;
  functions : CoverageMetric.t;
  lines : CoverageMetric.t }.
End FileCoverage.

Inductive CoverageFormat := lcov | istanbul | cobertura | clover | jacoco.

Module NormalizedCoverage.
Record t := {
  format : CoverageFormat;
  summary : CoverageSummary.t;
  files : list FileCoverage.t }.
End NormalizedCoverage.

Inductive ComparisonStatus := improved | regressed | unchanged.

Inductive MetricName := Statements | Branches | Functions | Lines.

Module MetricComparison.
Record t := {
  metric : MetricName;
  baseline : CoverageMetric.t;
  current : CoverageMetric.t;
  delta : number;
  status : ComparisonStatus }.
End MetricComparison.

Module FileComparison.
Record t := {
  path : string;
  linesDelta : number;
  status : ComparisonStatus }.
End FileComparison.

Module CoverageComparison.
Record t := {
  metrics : list MetricComparison.t;
  files : list FileComparison.t;
  overallStatus : ComparisonStatus;
  overallDelta : number }.
End CoverageComparison.

(** [CoverageFormat | 'auto']. *)
Inductive FormatOrAuto := Auto | Explicit (format : CoverageFormat).

Module ActionInputs.
Record t := {
  path : string;
  baselineAlias : string;
  apiUrl : string;
  apiKey : string;
  format : FormatOrAuto;
  threshold : number;
  uploadResults : bool;
  alias : string;
  repository : string;
  failOnRegression : bool;
  summary : bool;
  comment : bool;
  commentHeader : string }.
End ActionInputs.

(** [file[metric]] for a metric name. *)
Definition file_metric (m : MetricName) (f : FileCoverage.t) : CoverageMetric.t :=
  match m with
  | Statements => FileCoverage.statements f
  | Branches => FileCoverage.branches f
  | Functions => FileCoverage.functions f
  | Lines => FileCoverage.lines f
  end.

(** The loops of the parsers: [acc += g(x)] and [if (p(x)) acc++], from 0. *)
Definition sum_by {A : Type} (g : A -> number) (l : list A) : number :=
  fold_left (fun acc x => acc + g x) l 0.

Definition count_by {A : Type} (p : A -> bool) (l : list A) : number :=
  fold_left (fun acc x => if p x then acc + 1 else acc) l 0.

(** The value every parser writes for a metric that has no data. *)
Definition empty_metric : CoverageMetric.t :=
  {| CoverageMetric.total := 0; CoverageMetric.covered := 0;
     CoverageMetric.percentage := 100 |}.

(** ** src/parsers/lcov.ts *)

Module LcovParser.

(** [{ found, hit }] of an lcov-parse record (the [details] are not read). *)
Module Counts.
Record t := { found : number; hit : number }.
End Counts.

Module LcovFile.
Record t := {
  file : string;
  lines : Counts.t;
  functions : Counts.t;
  branches : Counts.t }.
End LcovFile.

Definition calculateMetric (covered total : number) : CoverageMetric.t :=
  {| CoverageMetric.total := total;
     CoverageMetric.covered := covered;
     CoverageMetric.percentage := if 0 <? total then covered / total * 100 else 100 |}.

Definition calculateSummary (data : list LcovFile.t) : CoverageSummary.t :=
  let totalLines := sum_by (fun file => Counts.found (LcovFile.lines file)) data in
  let coveredLines := sum_by (fun file => Counts.hit (LcovFile.lines file)) data in
  let totalBranches := sum_by (fun file => Counts.found (LcovFile.branches file)) data in
  let coveredBranches := sum_by (fun file => Counts.hit (LcovFile.branches file)) data in
  let totalFunctions := sum_by (fun file => Counts.found (LcovFile.functions file)) data in
  let coveredFunctions := sum_by (fun file => Counts.hit (LcovFile.functions file)) data in
  {| CoverageSummary.statements := calculateMetric coveredLines totalLines;
     CoverageSummary.branches := calculateMetric coveredBranches totalBranches;
     CoverageSummary.functions := calculateMetric coveredFunctions totalFunctions;
     CoverageSummary.lines := calculateMetric coveredLines totalLines |}.

Definition file_coverage (file : LcovFile.t) : FileCoverage.t :=
  {| FileCoverage.path := LcovFile.file file;
     FileCoverage.statements :=
       calculateMetric (Counts.hit (LcovFile.lines file)) (Counts.found (LcovFile.lines file));
     FileCoverage.branches :=
       calculateMetric (Counts.hit (LcovFile.branches file)) (Counts.found (LcovFile.branches file));
     FileCoverage.functions :=
       calculateMetric (Counts.hit (LcovFile.functions file)) (Counts.found (LcovFile.functions file));
     FileCoverage.lines :=
       calculateMetric (Counts.hit (LcovFile.lines file)) (Counts.found (LcovFile.lines file)) |}.

(** The callback [parse] hands to [lcovParse.source]: [err] is a string or
    null, [data] the records or undefined.  (lcov-parse itself passes either
    an error and no data, or null and at least one record.) *)
Definition on_source (err : option string) (data : option (list LcovFile.t))
  : result NormalizedCoverage.t :=
  match err with
  | Some (String c e) => Err ("Failed to parse LCOV: " ++ String c e)
  | _ =>
      match data with
      | None | Some [] => Err "LCOV file contains no coverage data"
      | Some data =>
          Ok {| NormalizedCoverage.format := lcov;
                NormalizedCoverage.summary := calculateSummary data;
                NormalizedCoverage.files := map file_coverage data |}
      end
  end.

Section Parse.
(** [lcovParse.source] of the lcov-parse package, by what it passes to its
    callback. *)
Variable lcovParse_source : string -> option string * option (list LcovFile.t).

Definition parse (content : string) : result NormalizedCoverage.t :=
  let '(err, data) := lcovParse_source content in on_source err data.
End Parse.

End LcovParser.

(** ** src/parsers/istanbul.ts *)

Module IstanbulParser.

(** Line and column numbers are integers. *)
Module Position.
Record t := { line : Z; column : Z }.
End Position.

Module IstanbulLocation.
Record t := { start : Position.t; end_ : Position.t }.
End IstanbulLocation.

Module IstanbulFunction.
Record t := { name : string; decl : IstanbulLocation.t; loc : IstanbulLocation.t }.
End IstanbulFunction.

Module IstanbulBranch.
Record t := {
  type : string;
  loc : IstanbulLocation.t;
  locations : list IstanbulLocation.t }.
End IstanbulBranch.

(** Every field the parser guards with [||] may be missing. *)
Module IstanbulFileCoverage.
Record t := {
  path : option string;
  statementMap : option (Object_ IstanbulLocation.t);
  fnMap : option (Object_ IstanbulFunction.t);
  branchMap : option (Object_ IstanbulBranch.t);
  s : option (Object_ number);
  f : option (Object_ number);
  b : option (Object_ (list number)) }.
End IstanbulFileCoverage.

Definition IstanbulCoverage := Object_ IstanbulFileCoverage.t.

Definition hit_filter (hits : list number) : list number :=
  filter (fun hit => 0 <? hit) hits.

Definition calculateStatements (file : IstanbulFileCoverage.t) : CoverageMetric.t :=
  let total :=
    of_nat (List.length (Object_keys (obj_or (IstanbulFileCoverage.statementMap file)))) in
  let covered :=
    of_nat (List.length (hit_filter (Object_values (obj_or (IstanbulFileCoverage.s file))))) in
  {| CoverageMetric.total := total;
     CoverageMetric.covered := covered;
     CoverageMetric.percentage := if 0 <? total then covered / total * 100 else 100 |}.

Definition calculateBranches (file : IstanbulFileCoverage.t) : CoverageMetric.t :=
  let total :=
    sum_by (fun branch => of_nat (List.length (IstanbulBranch.locations branch)))
      (Object_values (obj_or (IstanbulFileCoverage.branchMap file))) in
  let covered :=
    sum_by (fun hits => of_nat (List.length (hit_filter hits)))
      (Object_values (obj_or (IstanbulFileCoverage.b file))) in
  {| CoverageMetric.total := total;
     CoverageMetric.covered := covered;
     CoverageMetric.percentage := if 0 <? total then covered / total * 100 else 100 |}.

Definition calculateFunctions (file : IstanbulFileCoverage.t) : CoverageMetric.t :=
  let total :=
    of_nat (List.length (Object_keys (obj_or (IstanbulFileCoverage.fnMap file)))) in
  let covered :=
    of_nat (List.length (hit_filter (Object_values (obj_or (IstanbulFileCoverage.f file))))) in
  {| CoverageMetric.total := total;
     CoverageMetric.covered := covered;
     CoverageMetric.percentage := if 0 <? total then covered / total * 100 else 100 |}.

(** [Set<number>] of line numbers, in insertion order. *)
Definition Set_add (x : Z) (s : list Z) : list Z :=
  if existsb (Z.eqb x) s then s else s ++ [x].

(** The line numbers [start, start + 1, ..., end] the inner loop visits
    (line numbers are integers). *)
Definition line_range (loc : IstanbulLocation.t) : list Z :=
  let first := Position.line (IstanbulLocation.start loc) in
  let last := Position.line (IstanbulLocation.end_ loc) in
  map (fun i => first + Z.of_nat i)%Z (seq 0 (Z.to_nat (last - first + 1))).

(** [file.s && file.s[key] > 0]. *)
Definition statement_hit (file : IstanbulFileCoverage.t) (key : string) : bool :=
  match IstanbulFileCoverage.s file with
  | Some s =>
      match Object_get s key with
      | Some hit => 0 <? hit
      | None => false
      end
  | None => false
  end.

Definition calculateLines (file : IstanbulFileCoverage.t) : CoverageMetric.t :=
  let '(lineSet, coveredLines) :=
    fold_left
      (fun sets '(key, loc) =>
         fold_left
           (fun '(lineSet, coveredLines) line =>
              (Set_add line lineSet,
               if statement_hit file key then Set_add line coveredLines else coveredLines))
           (line_range loc) sets)
      (obj_or (IstanbulFileCoverage.statementMap file)) ([], []) in
  let size := of_nat (List.length lineSet) in
  {| CoverageMetric.total := size;
     CoverageMetric.covered := of_nat (List.length coveredLines);
     CoverageMetric.percentage :=
       if 0 <? size then of_nat (List.length coveredLines) / size * 100 else 100 |}.

Definition sumMetrics (files : list FileCoverage.t)
    (metricFn : FileCoverage.t -> CoverageMetric.t) : CoverageMetric.t :=
  let total := sum_by (fun file => CoverageMetric.total (metricFn file)) files in
  let covered := sum_by (fun file => CoverageMetric.covered (metricFn file)) files in
  {| CoverageMetric.total := total;
     CoverageMetric.covered := covered;
     CoverageMetric.percentage := if 0 <? total then covered / total * 100 else 100 |}.

Definition calculateSummary (files : list FileCoverage.t) : CoverageSummary.t :=
  {| CoverageSummary.statements := sumMetrics files FileCoverage.statements;
     CoverageSummary.branches := sumMetrics files FileCoverage.branches;
     CoverageSummary.functions := sumMetrics files FileCoverage.functions;
     CoverageSummary.lines := sumMetrics files FileCoverage.lines |}.

Definition file_coverage (entry : string * IstanbulFileCoverage.t) : FileCoverage.t :=
  let '(filePath, file) := entry in
  {| FileCoverage.path := str_or (IstanbulFileCoverage.path file) filePath;
     FileCoverage.statements := calculateStatements file;
     FileCoverage.branches := calculateBranches file;
     FileCoverage.functions := calculateFunctions file;
     FileCoverage.lines := calculateLines file |}.

Section Parse.
(** [JSON.parse], its value typed as the source declares it
    ([let data: IstanbulCoverage]); [Err] carries the SyntaxError's message. *)
Variable JSON_parse : string -> result IstanbulCoverage.

Definition parse (content : string) : result NormalizedCoverage.t :=
  match JSON_parse content with
  | Err message => Err ("Failed to parse Istanbul JSON: " ++ message)
  | Ok data =>
      let filePaths := Object_keys data in
      if Nat.eqb (List.length filePaths) 0 then Err "Istanbul coverage file contains no data"
      else
        (* filePaths.map(filePath => ... data[filePath] ...): the entries of data *)
        let files := map file_coverage data in
        Ok {| NormalizedCoverage.format := istanbul;
              NormalizedCoverage.summary := calculateSummary files;
              NormalizedCoverage.files := files |}
  end.
End Parse.

End IstanbulParser.

(** ** src/parsers/cobertura.ts

    The attributes are strings ([parseAttributeValue: false]); those read
    through [parseInt] or [parseFloat] may be absent.  A wrapper element such
    as [methods: { method }] is modelled by its content.  An element is
    [None] when the document lacks it and also when it is empty, without
    attribute, child and text: fast-xml-parser delivers such an element as
    the empty string, which the guards of the source ([!data.coverage],
    [if (cls.lines)]) take for a missing one.  The same holds of the Clover
    and JaCoCo documents below. *)

Module CoberturaParser.

Module CoberturaLine.
Record t := {
  number : option string;
  hits : option string;
  branch : option string;
  condition_coverage : option string }.
End CoberturaLine.

Module CoberturaMethod.
Record t := {
  name : string;
  signature : string;
  line_rate : option string;
  branch_rate : option string;
  lines : option (one_or_many CoberturaLine.t) }.
End CoberturaMethod.

Module CoberturaClass.
Record t := {
  name : string;
  filename : string;
  line_rate : option string;
  branch_rate : option string;
  methods : option (one_or_many CoberturaMethod.t);
  lines : option (one_or_many CoberturaLine.t) }.
End CoberturaClass.

Module CoberturaPackage.
Record t := {
  name : string;
  line_rate : option string;
  branch_rate : option string;
  classes : option (one_or_many CoberturaClass.t) }.
End CoberturaPackage.

Module Coverage.
Record t := {
  line_rate : option string;
  branch_rate : option string;
  lines_covered : option string;
  lines_valid : option string;
  branches_covered : option string;
  branches_valid : option string;
  packages : option (one_or_many CoberturaPackage.t) }.
End Coverage.

Module CoberturaXml.
Record t := { coverage : option Coverage.t }.
End CoberturaXml.

Definition calculateMetric (covered total : number) : CoverageMetric.t :=
  {| CoverageMetric.total := total;
     CoverageMetric.covered := covered;
     CoverageMetric.percentage := if 0 <? total then covered / total * 100 else 100 |}.

Definition aggregateMetric (files : list FileCoverage.t) (metric : MetricName)
  : CoverageMetric.t :=
  let total := sum_by (fun file => CoverageMetric.total (file_metric metric file)) files in
  let covered := sum_by (fun file => CoverageMetric.covered (file_metric metric file)) files in
  {| CoverageMetric.total := total;
     CoverageMetric.covered := covered;
     CoverageMetric.percentage := if 0 <? total then covered / total * 100 else 100 |}.

(** The regular expression [/\((\d+)\/(\d+)\)/] tried at the head of [s]. *)
Definition match_here (s : string) : option (list ascii * list ascii) :=
  match s with
  | String "(" r =>
      match span_digits r with
      | (c :: ds, String "/" r') =>
          match span_digits r' with
          | (c' :: ds', String ")" _) => Some (c :: ds, c' :: ds')
          | _ => None
          end
      | _ => None
      end
  | _ => None
  end.

(** [s.match(/\((\d+)\/(\d+)\)/)]: the leftmost match, its two groups. *)
Fixpoint condition_match (s : string) : option (list ascii * list ascii) :=
  match match_here s with
  | Some groups => Some groups
  | None =>
      match s with
      | String _ s' => condition_match s'
      | EmptyString => None
      end
  end.

(** What one [line] adds to [(totalBranches, coveredBranches)]. *)
Definition line_branches (line : CoberturaLine.t) : option (number * number) :=
  match CoberturaLine.branch line, CoberturaLine.condition_coverage line with
  | Some "true", Some (String c s) =>
      match condition_match (String c s) with
      | Some (g1, g2) => Some (of_Z (digits_val g2), of_Z (digits_val g1))
      | None => None
      end
  | _, _ => None
  end.

Definition method_covered (method : CoberturaMethod.t) : bool :=
  0 <? num_or (parseFloat (ToString (CoberturaMethod.line_rate method))) 0.

Definition line_covered (line : CoberturaLine.t) : bool :=
  0 <? num_or (parseInt (ToString (CoberturaLine.hits line))) 0.

Definition parseClass (cls : CoberturaClass.t) : FileCoverage.t :=
  let methods :=
    match CoberturaClass.methods cls with
    | Some m => to_array m
    | None => []
    end in
  let totalFunctions := count_by (fun _ => true) methods in
  let coveredFunctions := count_by method_covered methods in
  let lines :=
    match CoberturaClass.lines cls with
    | Some l => to_array l
    | None => []
    end in
  let totalLines := count_by (fun _ => true) lines in
  let coveredLines := count_by line_covered lines in
  let totalBranches :=
    fold_left (fun acc line =>
                 match line_branches line with
                 | Some (branchTotal, _) => acc + branchTotal
                 | None => acc
                 end) lines 0 in
  let coveredBranches :=
    fold_left (fun acc line =>
                 match line_branches line with
                 | Some (_, branchCovered) => acc + branchCovered
                 | None => acc
                 end) lines 0 in
  {| FileCoverage.path := CoberturaClass.filename cls;
     FileCoverage.statements := calculateMetric coveredLines totalLines;
     FileCoverage.branches := calculateMetric coveredBranches totalBranches;
     FileCoverage.functions := calculateMetric coveredFunctions totalFunctions;
     FileCoverage.lines := calculateMetric coveredLines totalLines |}.

Definition calculateSummary (coverage : Coverage.t) (files : list FileCoverage.t)
  : CoverageSummary.t :=
  let linesCovered := parseInt (str_or (Coverage.lines_covered coverage) "0") in
  let linesValid := parseInt (str_or (Coverage.lines_valid coverage) "0") in
  let branchesCovered := parseInt (str_or (Coverage.branches_covered coverage) "0") in
  let branchesValid := parseInt (str_or (Coverage.branches_valid coverage) "0") in
  if 0 <? linesValid then
    let lineRate := num_or (parseFloat (ToString (Coverage.line_rate coverage))) 0 in
    let branchRate := num_or (parseFloat (ToString (Coverage.branch_rate coverage))) 0 in
    {| CoverageSummary.statements :=
         {| CoverageMetric.total := linesValid;
            CoverageMetric.covered := linesCovered;
            CoverageMetric.percentage := lineRate * 100 |};
       CoverageSummary.branches :=
         {| CoverageMetric.total := branchesValid;
            CoverageMetric.covered := branchesCovered;
            CoverageMetric.percentage := branchRate * 100 |};
       CoverageSummary.functions := aggregateMetric files Functions;
       CoverageSummary.lines :=
         {| CoverageMetric.total := linesValid;
            CoverageMetric.covered := linesCovered;
            CoverageMetric.percentage := lineRate * 100 |} |}
  else
    {| CoverageSummary.statements := aggregateMetric files Statements;
       CoverageSummary.branches := aggregateMetric files Branches;
       CoverageSummary.functions := aggregateMetric files Functions;
       CoverageSummary.lines := aggregateMetric files Lines |}.

(** The classes of every package, in document order. *)
Definition classes_of (coverage : Coverage.t) : list CoberturaClass.t :=
  match Coverage.packages coverage with
  | Some packages =>
      flat_map (fun pkg =>
                  match CoberturaPackage.classes pkg with
                  | Some classes => to_array classes
                  | None => []
                  end) (to_array packages)
  | None => []
  end.

Definition parse_data (data : CoberturaXml.t) : result NormalizedCoverage.t :=
  match CoberturaXml.coverage data with
  | None => Err "Invalid Cobertura format: missing coverage element"
  | Some coverage =>
      let files := map parseClass (classes_of coverage) in
      Ok {| NormalizedCoverage.format := cobertura;
            NormalizedCoverage.summary := calculateSummary coverage files;
            NormalizedCoverage.files := files |}
  end.

Section Parse.
(** [this.parser.parse] of fast-xml-parser, its value typed as the source
    declares it; [Err] carries the message of what it throws. *)
Variable XMLParser_parse : string -> result CoberturaXml.t.

Definition parse (content : string) : result NormalizedCoverage.t :=
  match XMLParser_parse content with
  | Err message => Err ("Failed to parse Cobertura XML: " ++ message)
  | Ok data => parse_data data
  end.
End Parse.

End CoberturaParser.

(** ** src/parsers/clover.ts *)

Module CloverParser.

Module CloverMetrics.
Record t := {
  statements : option string;
  coveredstatements : option string;
  conditionals : option string;
  coveredconditionals : option string;
  methods : option string;
  coveredmethods : option string }.
End CloverMetrics.

Module CloverLine.
Record t := {
  num : option string;
  count : option string;
  type : string;
  truecount : option string;
  falsecount : option string }.
End CloverLine.

Module CloverFile.
Record t := {
  name : string;
  path : option string;
  metrics : option CloverMetrics.t;
  line : option (one_or_many CloverLine.t) }.
End CloverFile.

Module CloverPackage.
Record t := {
  name : string;
  metrics : option CloverMetrics.t;
  file : option (one_or_many CloverFile.t) }.
End CloverPackage.

Module CloverProject.
Record t := {
  metrics : option CloverMetrics.t;
  package : option (one_or_many CloverPackage.t);
  file : option (one_or_many CloverFile.t) }.
End CloverProject.

Module CloverCoverage.
Record t := { project : option CloverProject.t }.
End CloverCoverage.

Module CloverXml.
Record t := {
  coverage : option CloverCoverage.t;
  project : option CloverProject.t }.
End CloverXml.

Definition calculateMetric (covered total : number) : CoverageMetric.t :=
  {| CoverageMetric.total := total;
     CoverageMetric.covered := covered;
     CoverageMetric.percentage := if 0 <? total then covered / total * 100 else 100 |}.

Definition parseMetrics (metrics : CloverMetrics.t) : CoverageSummary.t :=
  let statements := parseInt (str_or (CloverMetrics.statements metrics) "0") in
  let coveredStatements := parseInt (str_or (CloverMetrics.coveredstatements metrics) "0") in
  let conditionals := parseInt (str_or (CloverMetrics.conditionals metrics) "0") in
  let coveredConditionals :=
    parseInt (str_or (CloverMetrics.coveredconditionals metrics) "0") in
  let methods := parseInt (str_or (CloverMetrics.methods metrics) "0") in
  let coveredMethods := parseInt (str_or (CloverMetrics.coveredmethods metrics) "0") in
  {| CoverageSummary.statements := calculateMetric coveredStatements statements;
     CoverageSummary.branches := calculateMetric coveredConditionals conditionals;
     CoverageSummary.functions := calculateMetric coveredMethods methods;
     CoverageSummary.lines := calculateMetric coveredStatements statements |}.

Definition aggregate (files : list FileCoverage.t) (metric : MetricName)
  : CoverageMetric.t :=
  let total := sum_by (fun file => CoverageMetric.total (file_metric metric file)) files in
  let covered := sum_by (fun file => CoverageMetric.covered (file_metric metric file)) files in
  {| CoverageMetric.total := total;
     CoverageMetric.covered := covered;
     CoverageMetric.percentage := if 0 <? total then covered / total * 100 else 100 |}.

Definition aggregateSummary (files : list FileCoverage.t) : CoverageSummary.t :=
  {| CoverageSummary.statements := aggregate files Statements;
     CoverageSummary.branches := aggregate files Branches;
     CoverageSummary.functions := aggregate files Functions;
     CoverageSummary.lines := aggregate files Lines |}.

(** [parseInt(line['@_count'], 10) || 0]. *)
Definition line_count (line : CloverLine.t) : number :=
  num_or (parseInt (ToString (CloverLine.count line))) 0.

Definition is_type (ty : string) (line : CloverLine.t) : bool :=
  String.eqb (CloverLine.type line) ty.

(** The [cond] case: one step for the true arm, one for the false arm. *)
Definition cond_covered (acc : number) (line : CloverLine.t) : number :=
  let trueCount := parseInt (str_or (CloverLine.truecount line) "0") in
  let falseCount := parseInt (str_or (CloverLine.falsecount line) "0") in
  let acc := if 0 <? trueCount then acc + 1 else acc in
  if 0 <? falseCount then acc + 1 else acc.

Definition parseFile (file : CloverFile.t) : FileCoverage.t :=
  let filePath := str_or (CloverFile.path file) (CloverFile.name file) in
  match CloverFile.metrics file with
  | Some metrics =>
      let m := parseMetrics metrics in
      {| FileCoverage.path := filePath;
         FileCoverage.statements := CoverageSummary.statements m;
         FileCoverage.branches := CoverageSummary.branches m;
         FileCoverage.functions := CoverageSummary.functions m;
         FileCoverage.lines := CoverageSummary.lines m |}
  | None =>
      let lines :=
        match CloverFile.line file with
        | Some l => to_array l
        | None => []
        end in
      let totalStatements := count_by (is_type "stmt") lines in
      let coveredStatements :=
        count_by (fun line => is_type "stmt" line && (0 <? line_count line)) lines in
      let totalBranches :=
        fold_left (fun acc line => if is_type "cond" line then acc + 2 else acc) lines 0 in
      let coveredBranches :=
        fold_left (fun acc line => if is_type "cond" line then cond_covered acc line else acc)
          lines 0 in
      let totalMethods := count_by (is_type "method") lines in
      let coveredMethods :=
        count_by (fun line => is_type "method" line && (0 <? line_count line)) lines in
      {| FileCoverage.path := filePath;
         FileCoverage.statements := calculateMetric coveredStatements totalStatements;
         FileCoverage.branches := calculateMetric coveredBranches totalBranches;
         FileCoverage.functions := calculateMetric coveredMethods totalMethods;
         FileCoverage.lines := calculateMetric coveredStatements totalStatements |}
  end.

Definition opt_array {A : Type} (x : option (one_or_many A)) : list A :=
  match x with
  | Some l => to_array l
  | None => []
  end.

Definition parse_data (data : CloverXml.t) : result NormalizedCoverage.t :=
  let project :=
    match CloverXml.coverage data with
    | Some c =>
        match CloverCoverage.project c with
        | Some p => Some p
        | None => CloverXml.project data
        end
    | None => CloverXml.project data
    end in
  match project with
  | None => Err "Invalid Clover format: missing project element"
  | Some project =>
      let files :=
        map parseFile (opt_array (CloverProject.file project)) ++
        flat_map (fun pkg => map parseFile (opt_array (CloverPackage.file pkg)))
          (opt_array (CloverProject.package project)) in
      let summary :=
        match CloverProject.metrics project with
        | Some metrics => parseMetrics metrics
        | None => aggregateSummary files
        end in
      Ok {| NormalizedCoverage.format := clover;
            NormalizedCoverage.summary := summary;
            NormalizedCoverage.files := files |}
  end.

Section Parse.
Variable XMLParser_parse : string -> result CloverXml.t.

Definition parse (content : string) : result NormalizedCoverage.t :=
  match XMLParser_parse content with
  | Err message => Err ("Failed to parse Clover XML: " ++ message)
  | Ok data => parse_data data
  end.
End Parse.

End CloverParser.

(** ** src/parsers/jacoco.ts *)

Module JacocoParser.

Module JacocoCounter.
Record t := {
  type : string;
  missed : option string;
  covered : option string }.
End JacocoCounter.

Module JacocoLine.
Record t := {
  nr : option string;
  mi : option string;
  ci : option string;
  mb : option string;
  cb : option string }.
End JacocoLine.

Module JacocoSourceFile.
Record t := {
  name : string;
  line : option (one_or_many JacocoLine.t);
  counter : option (one_or_many JacocoCounter.t) }.
End JacocoSourceFile.

Module JacocoPackage.
Record t := {
  name : string;
  sourcefile : option (one_or_many JacocoSourceFile.t);
  counter : option (one_or_many JacocoCounter.t) }.
End JacocoPackage.

Module Report.
Record t := {
  name : string;
  package : option (one_or_many JacocoPackage.t);
  counter : option (one_or_many JacocoCounter.t) }.
End Report.

Module JacocoXml.
Record t := { report : option Report.t }.
End JacocoXml.

Definition calculateMetric (covered total : number) : CoverageMetric.t :=
  {| CoverageMetric.total := total;
     CoverageMetric.covered := covered;
     CoverageMetric.percentage := if 0 <? total then covered / total * 100 else 100 |}.

(** [parseInt(x, 10) || 0]. *)
Definition int_or_0 (x : option string) : number :=
  num_or (parseInt (ToString x)) 0.

Definition counter_metric (counter : JacocoCounter.t) : CoverageMetric.t :=
  let missed := int_or_0 (JacocoCounter.missed counter) in
  let covered := int_or_0 (JacocoCounter.covered counter) in
  let total := missed + covered in
  {| CoverageMetric.total := total;
     CoverageMetric.covered := covered;
     CoverageMetric.percentage := if 0 <? total then covered / total * 100 else 100 |}.

(** [metrics[key] || { total: 0, covered: 0, percentage: 100 }]. *)
Definition metric_or_empty (metrics : Object_ CoverageMetric.t) (key : string)
  : CoverageMetric.t :=
  match Object_get metrics key with
  | Some m => m
  | None => empty_metric
  end.

Definition parseCounters (counters : one_or_many JacocoCounter.t) : CoverageSummary.t :=
  let counterArray := to_array counters in
  let metrics :=
    fold_left (fun metrics counter =>
                 Object_set metrics (JacocoCounter.type counter) (counter_metric counter))
      counterArray [] in
  {| CoverageSummary.statements := metric_or_empty metrics "INSTRUCTION";
     CoverageSummary.branches := metric_or_empty metrics "BRANCH";
     CoverageSummary.functions := metric_or_empty metrics "METHOD";
     CoverageSummary.lines := metric_or_empty metrics "LINE" |}.

Definition aggregate (files : list FileCoverage.t) (metric : MetricName)
  : CoverageMetric.t :=
  let total := sum_by (fun file => CoverageMetric.total (file_metric metric file)) files in
  let covered := sum_by (fun file => CoverageMetric.covered (file_metric metric file)) files in
  {| CoverageMetric.total := total;
     CoverageMetric.covered := covered;
     CoverageMetric.percentage := if 0 <? total then covered / total * 100 else 100 |}.

Definition aggregateSummary (files : list FileCoverage.t) : CoverageSummary.t :=
  {| CoverageSummary.statements := aggregate files Statements;
     CoverageSummary.branches := aggregate files Branches;
     CoverageSummary.functions := aggregate files Functions;
     CoverageSummary.lines := aggregate files Lines |}.

Definition parseSourceFile (srcFile : JacocoSourceFile.t) (filePath : string)
  : FileCoverage.t :=
  match JacocoSourceFile.counter srcFile with
  | Some counter =>
      let coverage := parseCounters counter in
      {| FileCoverage.path := filePath;
         FileCoverage.statements := CoverageSummary.statements coverage;
         FileCoverage.branches := CoverageSummary.branches coverage;
         FileCoverage.functions := CoverageSummary.functions coverage;
         FileCoverage.lines := CoverageSummary.lines coverage |}
  | None =>
      let lines :=
        match JacocoSourceFile.line srcFile with
        | Some l => to_array l
        | None => []
        end in
      let totalInstructions :=
        sum_by (fun line => int_or_0 (JacocoLine.mi line) + int_or_0 (JacocoLine.ci line)) lines in
      let coveredInstructions := sum_by (fun line => int_or_0 (JacocoLine.ci line)) lines in
      let totalBranches :=
        sum_by (fun line => int_or_0 (JacocoLine.mb line) + int_or_0 (JacocoLine.cb line)) lines in
      let coveredBranches := sum_by (fun line => int_or_0 (JacocoLine.cb line)) lines in
      let totalLines := count_by (fun _ => true) lines in
      let coveredLines := count_by (fun line => 0 <? int_or_0 (JacocoLine.ci line)) lines in
      {| FileCoverage.path := filePath;
         FileCoverage.statements := calculateMetric coveredInstructions totalInstructions;
         FileCoverage.branches := calculateMetric coveredBranches totalBranches;
         FileCoverage.functions := empty_metric;
         FileCoverage.lines := calculateMetric coveredLines totalLines |}
  end.

(** Every source file of every package, with its synthesized path
    (the [replace(/\//g, '/')] of the source changes nothing). *)
Definition source_files (report : Report.t) : list FileCoverage.t :=
  match Report.package report with
  | Some packages =>
      flat_map (fun pkg =>
                  match JacocoPackage.sourcefile pkg with
                  | Some sourceFiles =>
                      map (fun srcFile =>
                             parseSourceFile srcFile
                               (JacocoPackage.name pkg ++ "/" ++ JacocoSourceFile.name srcFile))
                        (to_array sourceFiles)
                  | None => []
                  end) (to_array packages)
  | None => []
  end.

Definition parse_data (data : JacocoXml.t) : result NormalizedCoverage.t :=
  match JacocoXml.report data with
  | None => Err "Invalid JaCoCo format: missing report element"
  | Some report =>
      let files := source_files report in
      let summary :=
        match Report.counter report with
        | Some counter => parseCounters counter
        | None => aggregateSummary files
        end in
      Ok {| NormalizedCoverage.format := jacoco;
            NormalizedCoverage.summary := summary;
            NormalizedCoverage.files := files |}
  end.

Section Parse.
Variable XMLParser_parse : string -> result JacocoXml.t.

Definition parse (content : string) : result NormalizedCoverage.t :=
  match XMLParser_parse content with
  | Err message => Err ("Failed to parse JaCoCo XML: " ++ message)
  | Ok data => parse_data data
  end.
End Parse.

End JacocoParser.

(** ** src/parsers/index.ts: format detection *)

Module Detect.

(** [parsed[Object.keys(parsed)[0]]] when [parsed] has a key.  ([Object.keys]
    of [null] throws, which the [catch] of the source swallows: no value.) *)
Definition first_value (parsed : json) : option json :=
  match parsed with
  | JObject ((_, v) :: _) => Some v
  | JArray (v :: _) => Some v
  | JString (String c _) => Some (JString (String c ""))
  | _ => None
  end.

(** ToBoolean of a JSON value. *)
Definition json_truthy (v : json) : bool :=
  match v with
  | JNull => false
  | JBool b => b
  | JNumber n => truthy n
  | JString "" => false
  | _ => true
  end.

(** [typeof v === 'object']. *)
Definition typeof_object (v : json) : bool :=
  match v with
  | JNull | JArray _ | JObject _ => true
  | _ => false
  end.

(** [key in v], for [v] an object or an array and [key] not an index. *)
Definition key_in (key : string) (v : json) : bool :=
  match v with
  | JObject o => existsb (String.eqb key) (map fst o)
  | _ => false
  end.

Definition noFormat : string :=
  "Unable to detect coverage format. Please specify the format explicitly using the format input.".

Section DetectFormat.
(** [JSON.parse]: [Err] when it throws. *)
Variable JSON_parse : string -> result json.

(** The [.json] block: [Some istanbul] when it returns, [None] when control
    leaves it (also through the [catch]). *)
Definition json_block (content : string) : option CoverageFormat :=
  match JSON_parse content with
  | Ok parsed =>
      match first_value parsed with
      | Some firstValue =>
          if json_truthy firstValue && typeof_object firstValue &&
             (key_in "statementMap" firstValue || key_in "s" firstValue)
          then Some istanbul else None
      | None => None
      end
  | Err _ => None
  end.

(** The XML block. *)
Definition xml_block (content : string) : option CoverageFormat :=
  if includes content "<coverage" && includes content "line-rate" then Some cobertura
  else if (includes content "<coverage" && includes content "clover")
          || includes content "<project" then Some clover
  else if includes content "<report" && includes content "<counter" then Some jacoco
  else None.

Definition detectFormat (content filename : string) : result CoverageFormat :=
  let ext := toLowerCase filename in
  if endsWith ext ".info" || endsWith ext ".lcov" then Ok lcov
  else
    match (if endsWith ext ".json" then json_block content else None) with
    | Some fmt => Ok fmt
    | None =>
        match (if includes content "<?xml" || startsWith (trim content) "<"
               then xml_block content else None) with
        | Some fmt => Ok fmt
        | None =>
            if includes content "SF:" && (includes content "LF:" || includes content "DA:")
            then Ok lcov
            else Err noFormat
        end
    end.

End DetectFormat.

End Detect.

(** ** src/compare.ts *)

Module Compare.

Definition compareMetric (metric : MetricName) (baseline current : CoverageMetric.t)
    (threshold : number) : MetricComparison.t :=
  let delta := CoverageMetric.percentage current - CoverageMetric.percentage baseline in
  let status :=
    if 0 <? delta then improved
    else if delta <? - threshold then regressed
    else unchanged in
  {| MetricComparison.metric := metric;
     MetricComparison.baseline := baseline;
     MetricComparison.current := current;
     MetricComparison.delta := delta;
     MetricComparison.status := status |}.

(** The literal [0.1] of the source: the double nearest to one tenth. *)
Definition noise_floor : number := 0x1.999999999999ap-4.

(** The body of the loop over [allPaths]. *)
Definition compare_path (baselineFiles currentFiles : Object_ FileCoverage.t)
    (threshold : number) (comparisons : list FileComparison.t) (filePath : string)
  : list FileComparison.t :=
  match Object_get baselineFiles filePath, Object_get currentFiles filePath with
  | Some baselineFile, Some currentFile =>
      let linesDelta :=
        CoverageMetric.percentage (FileCoverage.lines currentFile)
        - CoverageMetric.percentage (FileCoverage.lines baselineFile) in
      if noise_floor <? abs linesDelta then
        let status :=
          if 0 <? linesDelta then improved
          else if linesDelta <? - threshold then regressed
          else unchanged in
        comparisons ++
          [ {| FileComparison.path := filePath;
               FileComparison.linesDelta := linesDelta;
               FileComparison.status := status |} ]
      else comparisons
  | _, _ => comparisons
  end.

Definition by_delta (a b : FileComparison.t) : number :=
  FileComparison.linesDelta a - FileComparison.linesDelta b.

Definition compareFiles (current baseline : NormalizedCoverage.t) (threshold : number)
  : list FileComparison.t :=
  let baselineFiles :=
    Map_of (map (fun f => (FileCoverage.path f, f)) (NormalizedCoverage.files baseline)) in
  let currentFiles :=
    Map_of (map (fun f => (FileCoverage.path f, f)) (NormalizedCoverage.files current)) in
  let allPaths := Set_of (Object_keys baselineFiles ++ Object_keys currentFiles) in
  let comparisons :=
    fold_left (compare_path baselineFiles currentFiles threshold) allPaths [] in
  Array_sort by_delta comparisons.

Definition calculateOverallDelta (metrics : list MetricComparison.t) : number :=
  if Nat.eqb (List.length metrics) 0 then 0
  else sum_by MetricComparison.delta metrics / of_nat (List.length metrics).

Definition status_eqb (a b : ComparisonStatus) : bool :=
  match a, b with
  | improved, improved | regressed, regressed | unchanged, unchanged => true
  | _, _ => false
  end.

Definition determineOverallStatus (metrics : list MetricComparison.t) (threshold : number)
  : ComparisonStatus :=
  let hasRegression :=
    existsb (fun m => status_eqb (MetricComparison.status m) regressed) metrics in
  if hasRegression then regressed
  else
    let hasImprovement :=
      existsb (fun m => status_eqb (MetricComparison.status m) improved) metrics in
    if hasImprovement then improved else unchanged.

Definition compareCoverage (current baseline : NormalizedCoverage.t) (threshold : number)
  : CoverageComparison.t :=
  let metrics :=
    [ compareMetric Statements
        (CoverageSummary.statements (NormalizedCoverage.summary baseline))
        (CoverageSummary.statements (NormalizedCoverage.summary current)) threshold;
      compareMetric Branches
        (CoverageSummary.branches (NormalizedCoverage.summary baseline))
        (CoverageSummary.branches (NormalizedCoverage.summary current)) threshold;
      compareMetric Functions
        (CoverageSummary.functions (NormalizedCoverage.summary baseline))
        (CoverageSummary.functions (NormalizedCoverage.summary current)) threshold;
      compareMetric Lines
        (CoverageSummary.lines (NormalizedCoverage.summary baseline))
        (CoverageSummary.lines (NormalizedCoverage.summary current)) threshold ] in
  {| CoverageComparison.metrics := metrics;
     CoverageComparison.files := compareFiles current baseline threshold;
     CoverageComparison.overallStatus := determineOverallStatus metrics threshold;
     CoverageComparison.overallDelta := calculateOverallDelta metrics |}.

Definition shouldFail (comparison : CoverageComparison.t) (inputs : ActionInputs.t) : bool :=
  if negb (ActionInputs.failOnRegression inputs) then false
  else status_eqb (CoverageComparison.overallStatus comparison) regressed.

End Compare.

(** ** src/parsers/index.ts: the registry and [parseCoverage]; the [detect]
    method of each parser class *)

Module Registry.

(** The interface [CoverageParser]. *)
Record CoverageParser := {
  parse : string -> result NormalizedCoverage.t;
  detect : string -> string -> bool }.

(** The guard the three XML parsers share: a file name that does not end in
    [.xml] needs XML-looking content. *)
Definition not_xml (content filename : string) : bool :=
  negb (endsWith (toLowerCase filename) ".xml") &&
  (negb (includes content "<?xml") && negb (startsWith (trim content) "<")).

Section Parsers.
Variable lcovParse_source : string -> option string * option (list LcovParser.LcovFile.t).
Variable JSON_parse : string -> result json.
Variable JSON_parse_istanbul : string -> result IstanbulParser.IstanbulCoverage.
Variable XMLParser_parse_cobertura : string -> result CoberturaParser.CoberturaXml.t.
Variable XMLParser_parse_clover : string -> result CloverParser.CloverXml.t.
Variable XMLParser_parse_jacoco : string -> result JacocoParser.JacocoXml.t.

Definition lcovParser : CoverageParser :=
  {| parse := LcovParser.parse lcovParse_source;
     detect := fun content filename =>
       let ext := toLowerCase filename in
       if endsWith ext ".info" || endsWith ext ".lcov" then true
       else includes content "SF:" && (includes content "LF:" || includes content "DA:") |}.

Definition istanbulParser : CoverageParser :=
  {| parse := IstanbulParser.parse JSON_parse_istanbul;
     detect := fun content filename =>
       if negb (endsWith (toLowerCase filename) ".json") then false
       else
         match JSON_parse content with
         | Ok parsed =>
             match Detect.first_value parsed with
             | Some firstValue =>
                 Detect.json_truthy firstValue && Detect.typeof_object firstValue &&
                 (Detect.key_in "statementMap" firstValue || Detect.key_in "s" firstValue)
             | None => false
             end
         | Err _ => false
         end |}.

Definition coberturaParser : CoverageParser :=
  {| parse := CoberturaParser.parse XMLParser_parse_cobertura;
     detect := fun content filename =>
       if not_xml content filename then false
       else includes content "<coverage" && includes content "line-rate" |}.

Definition cloverParser : CoverageParser :=
  {| parse := CloverParser.parse XMLParser_parse_clover;
     detect := fun content filename =>
       if not_xml content filename then false
       else (includes content "<coverage" && includes content "clover")
            || includes content "<project" |}.

Definition jacocoParser : CoverageParser :=
  {| parse := JacocoParser.parse XMLParser_parse_jacoco;
     detect := fun content filename =>
       if not_xml content filename then false
       else includes content "<report" && includes content "<counter" |}.

(** The registry [parsers]. *)
Definition parsers (format : CoverageFormat) : CoverageParser :=
  match format with
  | lcov => lcovParser
  | istanbul => istanbulParser
  | cobertura => coberturaParser
  | clover => cloverParser
  | jacoco => jacocoParser
  end.

(** [parseCoverage]: the registry has a parser for every format, so the
    "Unknown coverage format" throw is never reached.  [Err] carries the
    message of an error the source throws itself; the library results being
    typed, a TypeError of the engine on an ill-shaped one (JSON [null], a
    [packages] element without [package], a JaCoCo package without name)
    has no counterpart here, so this function describes the snapshots
    returned, not every failure. *)
Definition parseCoverage (content filename : string) (format : FormatOrAuto)
  : result NormalizedCoverage.t :=
  match (match format with
         | Auto => Detect.detectFormat JSON_parse content filename
         | Explicit f => Ok f
         end) with
  | Ok detectedFormat => parse (parsers detectedFormat) content
  | Err message => Err message
  end.

End Parsers.

End Registry.

(** ** src/parse.ts: the coverage file of a path *)

Module Parse.

Definition COMMON_COVERAGE_FILES : list string :=
  [ "lcov.info"; "coverage.lcov"; "coverage-final.json"; "coverage.json";
    "cobertura.xml"; "cobertura-coverage.xml"; "coverage.xml"; "clover.xml";
    "jacoco.xml"; "jacocoTestReport.xml" ].

Section FileSystem.
(** [fs.existsSync], [fs.statSync(p).isFile()], [fs.statSync(p).isDirectory()],
    [path.join] and [path.resolve]. *)
Variable existsSync : string -> bool.
Variable isFile : string -> bool.
Variable isDirectory : string -> bool.
Variable path_join : string -> string -> string.
Variable path_resolve : string -> string.

Fixpoint find_in (dirPath : string) (filenames : list string) : option string :=
  match filenames with
  | [] => None
  | filename :: rest =>
      let filePath := path_join dirPath filename in
      if existsSync filePath && isFile filePath then Some filePath
      else find_in dirPath rest
  end.

Definition findCoverageFile (dirPath : string) : option string :=
  find_in dirPath COMMON_COVERAGE_FILES.

Definition resolveCoveragePath (inputPath : string) : result string :=
  let resolvedPath := path_resolve inputPath in
  if negb (existsSync resolvedPath) then Err ("Path does not exist: " ++ resolvedPath)
  else if isFile resolvedPath then Ok resolvedPath
  else if isDirectory resolvedPath then
    match findCoverageFile resolvedPath with
    | Some coverageFile => Ok coverageFile
    | None =>
        Err ("No coverage file found in directory: " ++ resolvedPath ++ String "010" ""
             ++ "Looked for: " ++ String.concat ", " COMMON_COVERAGE_FILES ++ String "010" ""
             ++ "Please specify the full path to your coverage file.")
    end
  else Err ("Path is not a file or directory: " ++ resolvedPath).

End FileSystem.

End Parse.

(** ** src/download.ts: the coverage file of a downloaded baseline *)

Module Download.

Definition COMMON_COVERAGE_FILES : list string :=
  [ "lcov.info"; "coverage.lcov"; "coverage-final.json"; "coverage.json";
    "cobertura.xml"; "cobertura-coverage.xml"; "coverage.xml"; "clover.xml";
    "jacoco.xml"; "jacocoTestReport.xml" ].

Section FileSystem.
Variable existsSync : string -> bool.
Variable isFile : string -> bool.
Variable isDirectory : string -> bool.
Variable path_join : string -> string -> string.

(** The same loop as in src/parse.ts, over the list of this module. *)
Definition findCoverageFile (dirPath : string) : option string :=
  Parse.find_in existsSync isFile path_join dirPath COMMON_COVERAGE_FILES.

(** [null] is [None]. *)
Definition resolveCoveragePath (inputPath : string) : option string :=
  if negb (existsSync inputPath) then None
  else if isFile inputPath then Some inputPath
  else if isDirectory inputPath then findCoverageFile inputPath
  else None.

End FileSystem.

End Download.

(** ** src/inputs.ts *)

Module Inputs.

Definition validFormats : list string :=
  ["auto"; "lcov"; "istanbul"; "cobertura"; "clover"; "jacoco"].

(** [formatInput as CoverageFormat | 'auto'], once [validFormats] has it. *)
Definition as_format (formatInput : string) : FormatOrAuto :=
  if String.eqb formatInput "lcov" then Explicit lcov
  else if String.eqb formatInput "istanbul" then Explicit istanbul
  else if String.eqb formatInput "cobertura" then Explicit cobertura
  else if String.eqb formatInput "clover" then Explicit clover
  else if String.eqb formatInput "jacoco" then Explicit jacoco
  else Auto.

(** [input.toLowerCase() !== 'false']. *)
Definition not_false (input : string) : bool :=
  negb (String.eqb (toLowerCase input) "false").

Section GetInputs.
(** [core.getInput(name)]: the trimmed value of the input, empty when it is
    not supplied; and the repository of [deriveContext()]. *)
Variable getInput : string -> string.
Variable context_repository : string.

(** [core.getInput(name, { required: true })]: the value, or what it throws
    when the input is not supplied. *)
Variable getInput_required : string -> result string.

(** [core.getInput(name) || d]. *)
Definition getInput_or (name d : string) : string :=
  str_or (Some (getInput name)) d.

Definition getInputs : result ActionInputs.t :=
  match getInput_required "path" with
  | Err e => Err e
  | Ok path =>
  match getInput_required "baseline-alias" with
  | Err e => Err e
  | Ok baselineAlias =>
  match getInput_required "api-url" with
  | Err e => Err e
  | Ok apiUrl =>
  match getInput_required "api-key" with
  | Err e => Err e
  | Ok apiKey =>
      let formatInput := getInput_or "format" "auto" in
      if negb (existsb (String.eqb formatInput) validFormats) then
        Err ("Invalid format: " ++ formatInput ++ ". Must be one of: "
             ++ String.concat ", " validFormats)
      else
        let thresholdInput := getInput_or "threshold" "0" in
        let threshold := parseFloat thresholdInput in
        if isNaN threshold || (threshold <? 0) || (100 <? threshold) then
          Err ("Invalid threshold: " ++ thresholdInput
               ++ ". Must be a number between 0 and 100.")
        else
          Ok {| ActionInputs.path := path;
                ActionInputs.baselineAlias := baselineAlias;
                ActionInputs.apiUrl := apiUrl;
                ActionInputs.apiKey := apiKey;
                ActionInputs.format := as_format formatInput;
                ActionInputs.threshold := threshold;
                ActionInputs.uploadResults := not_false (getInput_or "upload-results" "true");
                ActionInputs.alias := getInput_or "alias" "preview";
                ActionInputs.repository := getInput_or "repository" context_repository;
                ActionInputs.failOnRegression :=
                  not_false (getInput_or "fail-on-regression" "true");
                ActionInputs.summary := not_false (getInput_or "summary" "true");
                ActionInputs.comment := not_false (getInput_or "comment" "true");
                ActionInputs.commentHeader :=
                  getInput_or "comment-header" "## Coverage Report" |}
  end end end end.

End GetInputs.

End Inputs.

(** ** src/comment.ts and src/index.ts: what is computed from a comparison *)

Module Report.

(** [s.slice(-n)]: the last [n] characters (all of [s] when it is shorter). *)
Definition slice_last (n : nat) (s : string) : string :=
  String.substring (String.length s - n) n s.

Definition shortenPath (filePath : string) : string :=
  if Nat.leb (String.length filePath) 50 then filePath
  else "..." ++ slice_last 47 filePath.

(** The [result] output of [run]. *)
Inductive Result := pass | fail | improved_.

Definition result_of (comparison : CoverageComparison.t) : Result :=
  match CoverageComparison.overallStatus comparison with
  | regressed => fail
  | improved => improved_
  | unchanged => pass
  end.

Definition metric_name_eqb (a b : MetricName) : bool :=
  match a, b with
  | Statements, Statements | Branches, Branches
  | Functions, Functions | Lines, Lines => true
  | _, _ => false
  end.

(** [comparison.metrics.find((m) => m.metric === name)?.delta ?? 0]. *)
Definition delta_output (comparison : CoverageComparison.t) (name : MetricName) : number :=
  match find (fun m => metric_name_eqb (MetricComparison.metric m) name)
          (CoverageComparison.metrics comparison) with
  | Some m => MetricComparison.delta m
  | None => 0
  end.

(** The steps of [run] between the comparison and the exit that can throw,
    each by its outcome: [Err] when it throws.  (The [core.info] lines and
    the pure code between them do not throw.) *)
Module Steps.
Record t := {
  writeReport : result unit;
  uploadResults : result unit;
  setOutput : result unit;
  generateSummary : result unit;
  postPRComment : result unit }.
End Steps.

(** [if (enabled) await step]. *)
Definition when (enabled : bool) (step : result unit) : result unit :=
  if enabled then step else Ok tt.

(** The code [run] exits with once the comparison is made: 1 from the
    [catch] as soon as a step throws, else [shouldFail ? 1 : 0].  (Before
    the comparison, an error of [getInputs], [parseLocalCoverage] or
    [downloadBaseline] exits with 1 as well.) *)
Definition exit_code (comparison : CoverageComparison.t) (inputs : ActionInputs.t)
    (steps : Steps.t) : Z :=
  match Steps.writeReport steps with
  | Err _ => 1%Z
  | Ok _ =>
  match when (ActionInputs.uploadResults inputs) (Steps.uploadResults steps) with
  | Err _ => 1%Z
  | Ok _ =>
  match Steps.setOutput steps with
  | Err _ => 1%Z
  | Ok _ =>
  match when (ActionInputs.summary inputs) (Steps.generateSummary steps) with
  | Err _ => 1%Z
  | Ok _ =>
  match when (ActionInputs.comment inputs) (Steps.postPRComment steps) with
  | Err _ => 1%Z
  | Ok _ => if Compare.shouldFail comparison inputs then 1%Z else 0%Z
  end end end end end.

End Report.

(** * The vocabulary of the statements

    Predicates, specification-side definitions and sample inputs that the
    theorems below are stated with. *)

(** A finite non-zero or infinite value of sign [s]. *)
Definition signed_nonzero (s : bool) (f : spec_float) : Prop :=
  match f with
  | S754_finite s' _ _ => s' = s
  | S754_infinity s' => s' = s
  | _ => False
  end.

Section ComparatorTerms.
Import Compare.

(** A metric over 100 units with percentage [p]. *)
Definition metric_of (p : number) : CoverageMetric.t :=
  {| CoverageMetric.total := 100; CoverageMetric.covered := p;
     CoverageMetric.percentage := p |}.

(** The four comparisons of [compareCoverage], in their fixed order. *)
Definition four_metrics (current baseline : NormalizedCoverage.t) (threshold : number)
  : list MetricComparison.t :=
  [ compareMetric Statements
      (CoverageSummary.statements (NormalizedCoverage.summary baseline))
      (CoverageSummary.statements (NormalizedCoverage.summary current)) threshold;
    compareMetric Branches
      (CoverageSummary.branches (NormalizedCoverage.summary baseline))
      (CoverageSummary.branches (NormalizedCoverage.summary current)) threshold;
    compareMetric Functions
      (CoverageSummary.functions (NormalizedCoverage.summary baseline))
      (CoverageSummary.functions (NormalizedCoverage.summary current)) threshold;
    compareMetric Lines
      (CoverageSummary.lines (NormalizedCoverage.summary baseline))
      (CoverageSummary.lines (NormalizedCoverage.summary current)) threshold ].

End ComparatorTerms.

Section CompareFilesTerms.
Import Compare.

(** [new Map(files.map(f => [f.path, f])).get(p)]: the last file of the list
    that carries the path [p]. *)
Definition last_with_path (p : string) (files : list FileCoverage.t)
  : option FileCoverage.t :=
  find (fun f => String.eqb (FileCoverage.path f) p) (rev files).

(** [currentFile.lines.percentage - baselineFile.lines.percentage]. *)
Definition lines_delta (currentFile baselineFile : FileCoverage.t) : number :=
  CoverageMetric.percentage (FileCoverage.lines currentFile)
  - CoverageMetric.percentage (FileCoverage.lines baselineFile).

(** Ascending by [linesDelta]: no entry is above a later one. *)
Definition sorted_by_delta (l : list FileComparison.t) : Prop :=
  StronglySorted
    (fun a b => (FileComparison.linesDelta a <=? FileComparison.linesDelta b) = true) l.

(** What the decimals 0.1 and 0.11 denote: the doubles nearest to one tenth
    and to eleven hundredths, that is the correctly rounded quotients of 1
    by 10 and of 11 by 100. *)
Definition one_tenth : number := 1 / 10.

Definition eleven_hundredths : number := 11 / 100.

(** The path [p] is in both maps and its delta is, in absolute value, above
    one tenth. *)
Definition included (B C : Object_ FileCoverage.t) (p : string) : bool :=
  match Object_get B p, Object_get C p with
  | Some bf, Some cf => one_tenth <? abs (lines_delta cf bf)
  | _, _ => false
  end.

End CompareFilesTerms.

(** The error kinds of the specification, by the message the source throws. *)
Inductive ErrorKind := UnrecognizedFormat | InvalidFormat | EmptyCoverageData | MalformedInput.

Definition error_kind (message : string) : option ErrorKind :=
  if String.eqb message Detect.noFormat then Some UnrecognizedFormat
  else if String.eqb message "LCOV file contains no coverage data"
          || String.eqb message "Istanbul coverage file contains no data"
       then Some EmptyCoverageData
  else if String.prefix "Invalid " message then Some InvalidFormat
  else if String.prefix "Failed to parse " message then Some MalformedInput
  else None.

Section JaCoCoTerms.
Import JacocoParser.

Definition sample_source_file : JacocoSourceFile.t :=
  {| JacocoSourceFile.name := "Calculator.java";
     JacocoSourceFile.line :=
       Some (Many [ {| JacocoLine.nr := Some "3"; JacocoLine.mi := Some "0";
                       JacocoLine.ci := Some "4"; JacocoLine.mb := Some "1";
                       JacocoLine.cb := Some "1" |};
                    {| JacocoLine.nr := Some "7"; JacocoLine.mi := Some "2";
                       JacocoLine.ci := Some "0"; JacocoLine.mb := Some "0";
                       JacocoLine.cb := Some "0" |} ]);
     JacocoSourceFile.counter := None |}.

End JaCoCoTerms.

Section IstanbulTerms.
Import IstanbulParser.

(** The entries of [statementMap] and of [s], none when the map is missing. *)
Definition statement_entries (file : IstanbulFileCoverage.t)
  : Object_ IstanbulLocation.t := obj_or (IstanbulFileCoverage.statementMap file).

Definition hit_entries (file : IstanbulFileCoverage.t) : Object_ number :=
  obj_or (IstanbulFileCoverage.s file).

Definition sample_location (first last : Z) : IstanbulLocation.t :=
  {| IstanbulLocation.start := {| Position.line := first; Position.column := 0 |};
     IstanbulLocation.end_ := {| Position.line := last; Position.column := 10 |} |}.

(** One file record: three statements, two of them hit; [s] lists its keys
    in another order than [statementMap]. *)
Definition sample_file : IstanbulFileCoverage.t :=
  {| IstanbulFileCoverage.path := Some "/repo/src/a.ts";
     IstanbulFileCoverage.statementMap :=
       Some [("0", sample_location 1 1); ("1", sample_location 2 4);
             ("2", sample_location 5 5)];
     IstanbulFileCoverage.fnMap := None;
     IstanbulFileCoverage.branchMap := None;
     IstanbulFileCoverage.s := Some [("2", 7); ("0", 1); ("1", 0)];
     IstanbulFileCoverage.f := None;
     IstanbulFileCoverage.b := None |}.

End IstanbulTerms.

(** The invariant of a Metric: [percentage = covered / total * 100] when
    [total > 0], and [percentage = 100] when [total = 0]. *)
Definition metric_inv (m : CoverageMetric.t) : Prop :=
  ((0 <? CoverageMetric.total m) = true ->
   CoverageMetric.percentage m =
     CoverageMetric.covered m / CoverageMetric.total m * 100) /\
  ((CoverageMetric.total m =? 0) = true -> CoverageMetric.percentage m = 100).

Definition summary_inv (s : CoverageSummary.t) : Prop :=
  metric_inv (CoverageSummary.statements s) /\ metric_inv (CoverageSummary.branches s) /\
  metric_inv (CoverageSummary.functions s) /\ metric_inv (CoverageSummary.lines s).

Definition file_inv (f : FileCoverage.t) : Prop :=
  metric_inv (FileCoverage.statements f) /\ metric_inv (FileCoverage.branches f) /\
  metric_inv (FileCoverage.functions f) /\ metric_inv (FileCoverage.lines f).

Definition coverage_inv (c : NormalizedCoverage.t) : Prop :=
  summary_inv (NormalizedCoverage.summary c) /\ Forall file_inv (NormalizedCoverage.files c).

(** What the root [coverage] element of a Cobertura report states. *)
Definition root_metric (valid covered rate : option string) : CoverageMetric.t :=
  {| CoverageMetric.total := parseInt (str_or valid "0");
     CoverageMetric.covered := parseInt (str_or covered "0");
     CoverageMetric.percentage := num_or (parseFloat (ToString rate)) 0 * 100 |}.

Definition root_lines (coverage : CoberturaParser.Coverage.t) : CoverageMetric.t :=
  root_metric (CoberturaParser.Coverage.lines_valid coverage)
    (CoberturaParser.Coverage.lines_covered coverage)
    (CoberturaParser.Coverage.line_rate coverage).

Definition root_branches (coverage : CoberturaParser.Coverage.t) : CoverageMetric.t :=
  root_metric (CoberturaParser.Coverage.branches_valid coverage)
    (CoberturaParser.Coverage.branches_covered coverage)
    (CoberturaParser.Coverage.branch_rate coverage).


(** [lines-valid] of the root, as [calculateSummary] reads it. *)
Definition root_lines_valid (coverage : CoberturaParser.Coverage.t) : number :=
  parseInt (str_or (CoberturaParser.Coverage.lines_valid coverage) "0").


Section CoberturaTerms.
Import CoberturaParser.

Definition root_of (valid covered bvalid bcovered rate brate : option string)
    (packages : option (one_or_many CoberturaPackage.t)) : Coverage.t :=
  {| Coverage.line_rate := rate; Coverage.branch_rate := brate;
     Coverage.lines_covered := covered; Coverage.lines_valid := valid;
     Coverage.branches_covered := bcovered; Coverage.branches_valid := bvalid;
     Coverage.packages := packages |}.

Definition sample_line (hits : string) (cond : option string) : CoberturaLine.t :=
  {| CoberturaLine.number := Some "1"; CoberturaLine.hits := Some hits;
     CoberturaLine.branch := match cond with Some _ => Some "true" | None => None end;
     CoberturaLine.condition_coverage := cond |}.

Definition sample_class : CoberturaClass.t :=
  {| CoberturaClass.name := "Calc"; CoberturaClass.filename := "src/calc.py";
     CoberturaClass.line_rate := Some "0.5"; CoberturaClass.branch_rate := Some "0.5";
     CoberturaClass.methods := None;
     CoberturaClass.lines :=
       Some (Many [sample_line "3" (Some "50% (1/2)"); sample_line "0" None]) |}.

Definition sample_packages : option (one_or_many CoberturaPackage.t) :=
  Some (One {| CoberturaPackage.name := "src"; CoberturaPackage.line_rate := None;
               CoberturaPackage.branch_rate := None;
               CoberturaPackage.classes := Some (One sample_class) |}).


(** A root that states its lines only, over a class with a branch. *)
Definition lines_only_report : Coverage.t :=
  root_of (Some "2") (Some "1") None None (Some "0.5") None sample_packages.

End CoberturaTerms.

(** A Cobertura report as coverage.py writes it: rates rounded to four
    digits, and no branch measured. *)
Definition rounded_report : CoberturaParser.CoberturaXml.t :=
  {| CoberturaParser.CoberturaXml.coverage :=
       Some (root_of (Some "3") (Some "1") (Some "0") (Some "0")
               (Some "0.3333") (Some "0") None) |}.

Section DetectionTerms.
Variable JSON_parse : string -> result json.

Definition has_key (key : string) (o : list (string * json)) : bool :=
  existsb (String.eqb key) (map fst o).

(** Rule 2: the content parses as JSON, and the first value of what it
    parses to (the first member of an object, the first element of an
    array) is a mapping with the key [statementMap] or the key [s]. *)
Definition istanbul_shaped (content : string) : bool :=
  match JSON_parse content with
  | Ok (JObject ((_, JObject o) :: _)) | Ok (JArray (JObject o :: _)) =>
      has_key "statementMap" o || has_key "s" o
  | _ => false
  end.

(** White space, by its code units: TAB, LF, VT, FF, CR, SP, NBSP. *)
Definition blank (c : ascii) : bool :=
  existsb (Nat.eqb (nat_of_ascii c)) [9; 10; 11; 12; 13; 32; 160]%nat.

Fixpoint skip_blanks (s : string) : string :=
  match s with
  | String c s' => if blank c then skip_blanks s' else s
  | EmptyString => EmptyString
  end.

(** After the leading white space the content starts with [<]. *)
Definition opens_a_tag (content : string) : bool :=
  match skip_blanks content with
  | String c _ => Ascii.eqb c "<"
  | EmptyString => false
  end.

(** The test that guards the XML rules: the content has [<?xml] somewhere,
    or after trimming starts with [<]. *)
Definition xml_looking (content : string) : bool :=
  includes content "<?xml" || opens_a_tag content.

(** The guard in the words of the specification: the content begins with
    [<?xml], or after trimming starts with [<]. *)
Definition begins_as_xml (content : string) : bool :=
  String.prefix "<?xml" content || opens_a_tag content.

(** The rules in priority order, a condition and the format it selects,
    over a guard for the XML rules. *)
Definition rules_with (looks_xml : bool) (content filename : string)
  : list (bool * CoverageFormat) :=
  let ext := toLowerCase filename in
  [ (endsWith ext ".info" || endsWith ext ".lcov", lcov);
    (endsWith ext ".json" && istanbul_shaped content, istanbul);
    (looks_xml && (includes content "<coverage" && includes content "line-rate"), cobertura);
    (looks_xml &&
       ((includes content "<coverage" && includes content "clover")
        || includes content "<project"), clover);
    (looks_xml && (includes content "<report" && includes content "<counter"), jacoco);
    (includes content "SF:" && (includes content "LF:" || includes content "DA:"), lcov) ].

Definition detection_rules (content filename : string) : list (bool * CoverageFormat) :=
  rules_with (xml_looking content) content filename.

(** The rules as the specification states rule 3. *)
Definition stated_rules (content filename : string) : list (bool * CoverageFormat) :=
  rules_with (begins_as_xml content) content filename.

(** First match wins. *)
Fixpoint first_match (rules : list (bool * CoverageFormat)) : option CoverageFormat :=
  match rules with
  | [] => None
  | (true, fmt) :: _ => Some fmt
  | (false, _) :: rules' => first_match rules'
  end.

End DetectionTerms.

(** Sample inputs of the scenarios: files by their lines percentage, and two
    LCOV records, one fully covered and one with 1 line of 2 hit. *)
Definition file_at (path : string) (lines_percentage : number) : FileCoverage.t :=
  {| FileCoverage.path := path;
     FileCoverage.statements := metric_of lines_percentage;
     FileCoverage.branches := empty_metric;
     FileCoverage.functions := empty_metric;
     FileCoverage.lines := metric_of lines_percentage |}.

Definition coverage_of (files : list FileCoverage.t) : NormalizedCoverage.t :=
  {| NormalizedCoverage.format := lcov;
     NormalizedCoverage.summary :=
       {| CoverageSummary.statements := empty_metric;
          CoverageSummary.branches := empty_metric;
          CoverageSummary.functions := empty_metric;
          CoverageSummary.lines := empty_metric |};
     NormalizedCoverage.files := files |}.

Definition baseline_files : list FileCoverage.t :=
  [file_at "a.ts" 0; file_at "b.ts" 0; file_at "c.ts" 90; file_at "gone.ts" 10].

Definition current_files : list FileCoverage.t :=
  [file_at "new.ts" 100; file_at "a.ts" one_tenth;
   file_at "b.ts" eleven_hundredths; file_at "c.ts" 50].

Definition lcov_record (file : string) (found hit : number) : LcovParser.LcovFile.t :=
  {| LcovParser.LcovFile.file := file;
     LcovParser.LcovFile.lines :=
       {| LcovParser.Counts.found := found; LcovParser.Counts.hit := hit |};
     LcovParser.LcovFile.functions :=
       {| LcovParser.Counts.found := 1; LcovParser.Counts.hit := 1 |};
     LcovParser.LcovFile.branches :=
       {| LcovParser.Counts.found := 0; LcovParser.Counts.hit := 0 |} |}.

(** A stand-in for [JSON.parse] on one Istanbul report, and one that always
    throws. *)
Definition istanbul_json : json :=
  JObject [("/repo/src/a.ts",
            JObject [("path", JString "/repo/src/a.ts"); ("statementMap", JObject []);
                     ("s", JObject [])])].

Definition parse_istanbul_json (content : string) : result json := Ok istanbul_json.

Definition parse_fails (content : string) : result json := Err "Unexpected token".

(** A record whose [s] has a key that [statementMap] lacks. *)
Definition stray_hit_file : IstanbulParser.IstanbulFileCoverage.t :=
  {| IstanbulParser.IstanbulFileCoverage.path := None;
     IstanbulParser.IstanbulFileCoverage.statementMap := Some [("0", sample_location 1 1)];
     IstanbulParser.IstanbulFileCoverage.fnMap := None;
     IstanbulParser.IstanbulFileCoverage.branchMap := None;
     IstanbulParser.IstanbulFileCoverage.s := Some [("0", 1); ("9", 1)];
     IstanbulParser.IstanbulFileCoverage.f := None;
     IstanbulParser.IstanbulFileCoverage.b := None |}.

(** [summary[metric]] for a metric name. *)
Definition summary_metric (m : MetricName) (s : CoverageSummary.t) : CoverageMetric.t :=
  match m with
  | Statements => CoverageSummary.statements s
  | Branches => CoverageSummary.branches s
  | Functions => CoverageSummary.functions s
  | Lines => CoverageSummary.lines s
  end.

(** Every step of [run] that the inputs enable returns. *)
Definition returns (outcome : result unit) : bool :=
  match outcome with
  | Ok _ => true
  | Err _ => false
  end.

Definition steps_return (inputs : ActionInputs.t) (steps : Report.Steps.t) : bool :=
  returns (Report.Steps.writeReport steps) &&
  (negb (ActionInputs.uploadResults inputs) || returns (Report.Steps.uploadResults steps)) &&
  returns (Report.Steps.setOutput steps) &&
  (negb (ActionInputs.summary inputs) || returns (Report.Steps.generateSummary steps)) &&
  (negb (ActionInputs.comment inputs) || returns (Report.Steps.postPRComment steps)).

(** A file comparison without its status. *)
Definition path_and_delta (fc : FileComparison.t) : string * number :=
  (FileComparison.path fc, FileComparison.linesDelta fc).

(** The totals and the covered counts of the summary are the sums, from 0
    and in list order, of those of the files. *)
Definition summed_from_files (c : NormalizedCoverage.t) : Prop :=
  forall m,
    CoverageMetric.total (summary_metric m (NormalizedCoverage.summary c)) =
      sum_by (fun f => CoverageMetric.total (file_metric m f)) (NormalizedCoverage.files c) /\
    CoverageMetric.covered (summary_metric m (NormalizedCoverage.summary c)) =
      sum_by (fun f => CoverageMetric.covered (file_metric m f)) (NormalizedCoverage.files c).

(** The statements metric is the lines metric, in the summary and in every
    file. *)
Definition lines_as_statements (c : NormalizedCoverage.t) : Prop :=
  CoverageSummary.statements (NormalizedCoverage.summary c) =
    CoverageSummary.lines (NormalizedCoverage.summary c) /\
  Forall (fun f => FileCoverage.statements f = FileCoverage.lines f)
    (NormalizedCoverage.files c).

(** A stand-in for a library call: it returns [r] whatever it is given. *)
Definition always {A : Type} (r : A) (content : string) : A := r.

(** What lcov-parse passes to its callback for an input in which it finds
    no record, the empty input among them: an error and no data. *)
Definition no_record_found : option string * option (list LcovParser.LcovFile.t) :=
  (Some "Failed to parse string", None).

Section IstanbulLineTerms.
Import IstanbulParser.

(** The line [n] lies in the span of the location. *)
Definition in_span (loc : IstanbulLocation.t) (n : Z) : Prop :=
  (Position.line (IstanbulLocation.start loc) <= n
   <= Position.line (IstanbulLocation.end_ loc))%Z.

(** Some statement of the file spans the line [n]; some statement with a
    positive hit count does. *)
Definition statement_line (file : IstanbulFileCoverage.t) (n : Z) : Prop :=
  exists key loc, In (key, loc) (statement_entries file) /\ in_span loc n.

Definition hit_line (file : IstanbulFileCoverage.t) (n : Z) : Prop :=
  exists key loc,
    In (key, loc) (statement_entries file) /\ statement_hit file key = true /\
    in_span loc n.

End IstanbulLineTerms.

(** The last counter of the list that has the type [key]. *)
Definition last_of_type (key : string) (counters : list JacocoParser.JacocoCounter.t)
  : option JacocoParser.JacocoCounter.t :=
  find (fun c => String.eqb (JacocoParser.JacocoCounter.type c) key) (rev counters).

(** The metric [parseCounters] gives the type [key]. *)
Definition metric_of_type (key : string) (counters : list JacocoParser.JacocoCounter.t)
  : CoverageMetric.t :=
  match last_of_type key counters with
  | Some c => JacocoParser.counter_metric c
  | None => empty_metric
  end.

(** A snapshot without files whose four metrics are empty. *)
Definition empty_summary : CoverageSummary.t :=
  {| CoverageSummary.statements := empty_metric;
     CoverageSummary.branches := empty_metric;
     CoverageSummary.functions := empty_metric;
     CoverageSummary.lines := empty_metric |}.

Definition empty_snapshot (format : CoverageFormat) : NormalizedCoverage.t :=
  {| NormalizedCoverage.format := format;
     NormalizedCoverage.summary := empty_summary;
     NormalizedCoverage.files := [] |}.

(** The files a Clover project lists, its own first and then those of its
    packages. *)
Definition clover_files (project : CloverParser.CloverProject.t)
  : list CloverParser.CloverFile.t :=
  CloverParser.opt_array (CloverParser.CloverProject.file project) ++
  flat_map (fun pkg => CloverParser.opt_array (CloverParser.CloverPackage.file pkg))
    (CloverParser.opt_array (CloverParser.CloverProject.package project)).

(** [data.coverage?.project || data.project]: the project element of a
    Clover document, under [coverage] or at the top. *)
Definition clover_root (data : CloverParser.CloverXml.t)
  : option CloverParser.CloverProject.t :=
  match CloverParser.CloverXml.coverage data with
  | Some coverage =>
      match CloverParser.CloverCoverage.project coverage with
      | Some project => Some project
      | None => CloverParser.CloverXml.project data
      end
  | None => CloverParser.CloverXml.project data
  end.

(** Reports that hold nothing but a root element with an attribute the
    parsers do not read, say [<coverage version='7'/>],
    [<coverage><project timestamp='1'/></coverage>] and
    [<report name='empty'/>]. *)
Definition bare_cobertura : CoberturaParser.CoberturaXml.t :=
  {| CoberturaParser.CoberturaXml.coverage :=
       Some (root_of None None None None None None None) |}.

Definition bare_clover_project : CloverParser.CloverProject.t :=
  {| CloverParser.CloverProject.metrics := None;
     CloverParser.CloverProject.package := None;
     CloverParser.CloverProject.file := None |}.

Definition bare_jacoco_report : JacocoParser.Report.t :=
  {| JacocoParser.Report.name := "empty";
     JacocoParser.Report.package := None;
     JacocoParser.Report.counter := None |}.

(** The name of a format as the [format] input spells it. *)
Definition format_name (format : FormatOrAuto) : string :=
  match format with
  | Auto => "auto"
  | Explicit lcov => "lcov"
  | Explicit istanbul => "istanbul"
  | Explicit cobertura => "cobertura"
  | Explicit clover => "clover"
  | Explicit jacoco => "jacoco"
  end.

(** The test of [findCoverageFile] on one file name of a directory. *)
Definition is_coverage_file (existsSync isFile : string -> bool)
    (path_join : string -> string -> string) (dirPath filename : string) : bool :=
  existsSync (path_join dirPath filename) && isFile (path_join dirPath filename).

(** A file system with one directory that holds one report, and the inputs
    of one run. *)
Definition sample_existsSync (p : string) : bool :=
  String.eqb p "/w/coverage" || String.eqb p "/w/coverage/coverage.xml".

Definition sample_isFile (p : string) : bool := String.eqb p "/w/coverage/coverage.xml".

Definition sample_isDirectory (p : string) : bool := String.eqb p "/w/coverage".

Definition sample_join (dirPath filename : string) : string := dirPath ++ "/" ++ filename.

Definition sample_resolve (p : string) : string := "/w/" ++ p.

Definition sample_getInput (name : string) : string :=
  if String.eqb name "threshold" then "2.5"
  else if String.eqb name "format" then "clover"
  else "".

Definition sample_required (name : string) : result string := Ok name.



(** * Facts about binary64 arithmetic

    Order facts are read off [SFcompare]; the sign of a difference needs the
    rounding of [SFsub] and the canonical form of the operands. *)

Ltac sf_cases :=
  repeat match goal with
  | x : spec_float |- _ => destruct x as [[|]|[|]| |[|] ? ?]
  end; simpl in *; try congruence.

Ltac sf_cmp :=
  repeat match goal with
  | |- context [Z.compare ?a ?b] => destruct (Z.compare_spec a b)
  | H : context [Z.compare ?a ?b] |- _ => destruct (Z.compare_spec a b)
  | |- context [Pos.compare_cont Eq ?a ?b] =>
      change (Pos.compare_cont Eq a b) with (Pos.compare a b)
  | H : context [Pos.compare_cont Eq ?a ?b] |- _ =>
      change (Pos.compare_cont Eq a b) with (Pos.compare a b) in H
  | |- context [Pos.compare ?a ?b] => destruct (Pos.compare_spec a b)
  | H : context [Pos.compare ?a ?b] |- _ => destruct (Pos.compare_spec a b)
  end; simpl in *; try congruence; try lia.

Section SpecOrder.

Lemma SFltb_leb_trans (d x y : spec_float) :
  SFltb d x = true -> SFleb x y = true -> SFltb d y = true.
Proof. unfold SFltb, SFleb. sf_cases; intros; sf_cmp. Qed.

Lemma SFleb_trans (x y z : spec_float) :
  SFleb x y = true -> SFleb y z = true -> SFleb x z = true.
Proof. unfold SFleb. sf_cases; intros; sf_cmp. Qed.

Lemma SFleb_opp (a b : spec_float) :
  SFleb a b = true -> SFleb (SFopp b) (SFopp a) = true.
Proof. unfold SFleb. sf_cases; intros; sf_cmp. Qed.

Lemma SFltb_leb (x y : spec_float) : SFltb x y = true -> SFleb x y = true.
Proof. unfold SFltb, SFleb. destruct (SFcompare x y) as [[| |]|]; congruence. Qed.

Lemma SFeqb_refl (x : spec_float) : x <> S754_nan -> SFeqb x x = true.
Proof.
  unfold SFeqb. destruct x as [[|]|[|]| |[|] m e]; simpl; try congruence; intros _;
    rewrite Z.compare_refl; change (Pos.compare_cont Eq m m) with (Pos.compare m m);
    rewrite Pos.compare_refl; reflexivity.
Qed.

Lemma SFleb_total (x y : spec_float) :
  SFeqb x x = true -> SFeqb y y = true -> SFltb y x = false -> SFleb x y = true.
Proof. unfold SFeqb, SFltb, SFleb. sf_cases; intros; sf_cmp. Qed.

End SpecOrder.

Lemma ltb_opp_mono (d t1 t2 : float) :
  (t1 <=? t2) = true -> (d <? - t2) = true -> (d <? - t1) = true.
Proof.
  rewrite leb_spec, !ltb_spec, !opp_spec. intros H1 H2.
  eapply SFltb_leb_trans; [exact H2|]. now apply SFleb_opp.
Qed.

Lemma ltb_opp_nonneg (d t : float) :
  (0 <=? t) = true -> (d <? - t) = true -> (0 <? d) = false.
Proof.
  rewrite leb_spec, !ltb_spec, opp_spec.
  change (Prim2SF 0) with (S754_zero false).
  unfold SFltb, SFleb.
  destruct (Prim2SF d) as [[|]|[|]| |[|] ? ?], (Prim2SF t) as [[|]|[|]| |[|] ? ?];
    simpl; congruence.
Qed.

Lemma eqb_zero_not_pos (t : float) : (t =? 0) = true -> (0 <? t) = false.
Proof.
  rewrite eqb_spec, ltb_spec. change (Prim2SF 0) with (S754_zero false).
  unfold SFeqb, SFltb. destruct (Prim2SF t) as [[|]|[|]| |[|] ? ?]; simpl; congruence.
Qed.

Lemma float_neq (x y : float) : isNaN y = false -> (x =? y) = false -> x <> y.
Proof. intros Hn H E. rewrite E in H. unfold isNaN in Hn. rewrite H in Hn. discriminate. Qed.

Lemma leb_trans (x y z : float) :
  (x <=? y) = true -> (y <=? z) = true -> (x <=? z) = true.
Proof. rewrite !leb_spec. apply SFleb_trans. Qed.

Lemma ltb_leb (x y : float) : (x <? y) = true -> (x <=? y) = true.
Proof. rewrite ltb_spec, leb_spec. apply SFltb_leb. Qed.

Lemma leb_total (x y : float) :
  isNaN x = false -> isNaN y = false -> (y <? x) = false -> (x <=? y) = true.
Proof.
  unfold isNaN. rewrite !eqb_spec, ltb_spec, leb_spec. intros Hx Hy.
  apply negb_false_iff in Hx, Hy. now apply SFleb_total.
Qed.

Lemma abs_gt_not_nan (c x : float) : (c <? abs x) = true -> isNaN x = false.
Proof.
  unfold isNaN. rewrite ltb_spec, abs_spec, eqb_spec. intros H.
  apply negb_false_iff, SFeqb_refl. intros E. rewrite E in H.
  unfold SFltb in H. destruct (Prim2SF c); discriminate.
Qed.

Section SubSign.
Local Open Scope Z_scope.

Lemma digits2_pos_bounds (p : positive) :
  2 ^ (Z.pos (digits2_pos p) - 1) <= Z.pos p < 2 ^ Z.pos (digits2_pos p).
Proof.
  induction p as [p IH|p IH|]; simpl digits2_pos.
  - rewrite Pos2Z.inj_succ.
    replace (Z.succ (Z.pos (digits2_pos p)) - 1)
      with (Z.succ (Z.pos (digits2_pos p) - 1)) by lia.
    rewrite !Z.pow_succ_r by lia. lia.
  - rewrite Pos2Z.inj_succ.
    replace (Z.succ (Z.pos (digits2_pos p)) - 1)
      with (Z.succ (Z.pos (digits2_pos p) - 1)) by lia.
    rewrite !Z.pow_succ_r by lia. lia.
  - simpl. lia.
Qed.

Lemma shr_1_m (r : shr_record) : 0 <= shr_m r -> shr_m (shr_1 r) = shr_m r / 2.
Proof.
  destruct r as [m r s]. destruct m as [|[p|p|]|p]; cbn [shr_m shr_1]; intros H; try lia.
  - reflexivity.
  - apply Z.div_unique with 1; lia.
  - apply Z.div_unique with 0; lia.
  - reflexivity.
Qed.

Lemma shr_m_iter (p : positive) (r : shr_record) :
  0 <= shr_m r -> shr_m (iter_pos shr_1 p r) = shr_m r / 2 ^ Z.pos p.
Proof.
  revert r. induction p as [p IH|p IH|]; intros r Hr; simpl iter_pos.
  - assert (H1 : 0 <= shr_m (shr_1 r))
      by (rewrite shr_1_m by assumption; apply Z.div_pos; lia).
    assert (H2 : 0 <= shr_m (iter_pos shr_1 p (shr_1 r)))
      by (rewrite IH by assumption; apply Z.div_pos; lia).
    rewrite IH, IH, shr_1_m by assumption.
    rewrite !Z.div_div by lia. f_equal.
    replace (Z.pos p~1) with (1 + Z.pos p + Z.pos p) by lia.
    rewrite !Z.pow_add_r by lia. change (2 ^ 1) with 2. ring.
  - assert (H2 : 0 <= shr_m (iter_pos shr_1 p r))
      by (rewrite IH by assumption; apply Z.div_pos; lia).
    rewrite IH, IH by assumption.
    rewrite !Z.div_div by lia. f_equal.
    replace (Z.pos p~0) with (Z.pos p + Z.pos p) by lia.
    rewrite !Z.pow_add_r by lia. ring.
  - rewrite shr_1_m by assumption. reflexivity.
Qed.

(** Rounding a positive mantissa at an exponent no smaller than [emin] never
    shifts every bit out. *)
Lemma shr_fexp_pos (m e : Z) (l : location) :
  0 < m -> emin <= e ->
  0 < shr_m (fst (shr_fexp prec emax m e l)) /\ emin <= snd (shr_fexp prec emax m e l).
Proof.
  intros Hm He. unfold shr_fexp, shr.
  assert (Hr : shr_m (shr_record_of_loc m l) = m) by (destruct l as [|[| |]]; reflexivity).
  destruct m as [|p|p]; try lia. cbn [Zdigits2].
  pose proof (digits2_pos_bounds p) as [Hlo _].
  remember (fexp prec emax (Z.pos (digits2_pos p) + e) - e) as n eqn:Hn.
  unfold fexp, SpecFloat.emin, prec, emax in Hn.
  destruct n as [|q|q]; cbn [fst snd]; rewrite ?Hr; try (split; lia).
  rewrite shr_m_iter by (rewrite Hr; lia). rewrite Hr. split; [|lia].
  assert (Hq : Z.pos q <= Z.pos (digits2_pos p) - 1)
    by (unfold SpecFloat.emin, prec, emax in He; lia).
  apply Z.div_str_pos. split; [apply Z.pow_pos_nonneg; lia|].
  apply Z.le_trans with (2 ^ (Z.pos (digits2_pos p) - 1)); [|exact Hlo].
  apply Z.pow_le_mono_r; lia.
Qed.

Lemma round_nearest_even_ge (m : Z) (l : location) : m <= round_nearest_even m l.
Proof. destruct l as [|[| |]]; simpl; try lia. destruct (Z.even m); lia. Qed.

Lemma binary_round_aux_signed (s : bool) (m e : Z) (l : location) :
  0 < m -> emin <= e -> signed_nonzero s (binary_round_aux prec emax s m e l).
Proof.
  intros Hm He. unfold binary_round_aux.
  destruct (shr_fexp_pos m e l Hm He) as [H1 H2].
  destruct (shr_fexp prec emax m e l) as [mrs1 e1]. cbn [fst snd] in H1, H2.
  pose proof (round_nearest_even_ge (shr_m mrs1) (loc_of_shr_record mrs1)) as H3.
  destruct (shr_fexp_pos (round_nearest_even (shr_m mrs1) (loc_of_shr_record mrs1))
              e1 loc_Exact) as [H4 H5]; try lia.
  destruct (shr_fexp prec emax _ e1 loc_Exact) as [mrs2 e2]. cbn [fst snd] in H4, H5.
  destruct (shr_m mrs2); try lia.
  destruct (e2 <=? emax - prec); reflexivity.
Qed.

Lemma shr_fexp_nonneg (m e : Z) (l : location) :
  0 <= m -> 0 <= shr_m (fst (shr_fexp prec emax m e l)).
Proof.
  intros Hm. unfold shr_fexp, shr.
  assert (Hr : shr_m (shr_record_of_loc m l) = m) by (destruct l as [|[| |]]; reflexivity).
  destruct (fexp prec emax (Zdigits2 m + e) - e) as [|q|q]; cbn [fst]; rewrite ?Hr; try lia.
  rewrite shr_m_iter by (rewrite Hr; lia). rewrite Hr. apply Z.div_pos; lia.
Qed.

Lemma binary_round_aux_not_nan (s : bool) (m e : Z) (l : location) :
  0 <= m -> binary_round_aux prec emax s m e l <> S754_nan.
Proof.
  intros Hm. unfold binary_round_aux.
  pose proof (shr_fexp_nonneg m e l Hm) as H1.
  destruct (shr_fexp prec emax m e l) as [mrs1 e1]. cbn [fst] in H1.
  pose proof (round_nearest_even_ge (shr_m mrs1) (loc_of_shr_record mrs1)) as H3.
  pose proof (shr_fexp_nonneg (round_nearest_even (shr_m mrs1) (loc_of_shr_record mrs1))
                e1 loc_Exact) as H4.
  destruct (shr_fexp prec emax _ e1 loc_Exact) as [mrs2 e2]. cbn [fst] in H4.
  destruct (shr_m mrs2); try lia; [discriminate|].
  destruct (e2 <=? emax - prec); discriminate.
Qed.

Lemma shl_align_fst (m : positive) (e e' : Z) :
  e' <= e -> Z.pos (fst (shl_align m e e')) = Z.pos m * 2 ^ (e - e').
Proof.
  intros H. unfold shl_align. destruct (e' - e) as [|d|d] eqn:Hd; cbn [fst]; try lia.
  - replace (e - e') with 0 by lia. lia.
  - change (Pos.iter xO m d) with (shift_pos d m). rewrite shift_pos_correct.
    replace (e - e') with (Z.pos d) by lia.
    rewrite Z.pow_pos_fold. ring.
Qed.

Lemma shl_align_snd (m : positive) (e e' : Z) : snd (shl_align m e e') = Z.min e e'.
Proof. unfold shl_align. destruct (e' - e) as [|d|d] eqn:Hd; cbn [snd]; lia. Qed.

Lemma binary_round_signed (s : bool) (m : positive) (e : Z) :
  emin <= e -> signed_nonzero s (binary_round prec emax s m e).
Proof.
  intros He. unfold binary_round.
  pose proof (shl_align_snd m e (fexp prec emax (Z.pos (digits2_pos m) + e))) as Hs.
  destruct (shl_align m e _) as [mz ez]. cbn [snd] in Hs.
  apply binary_round_aux_signed; [lia|]. unfold fexp in Hs. lia.
Qed.

Lemma canonical_bounds (m : positive) (e : Z) :
  canonical_mantissa prec emax m e = true ->
  emin <= e /\ Z.pos (digits2_pos m) <= prec /\ (emin < e -> Z.pos (digits2_pos m) = prec).
Proof.
  unfold canonical_mantissa, fexp, SpecFloat.emin, prec, emax.
  intros H. apply Z.eqb_eq in H. lia.
Qed.

Lemma aligned_lt (mx my : positive) (ex ey : Z) :
  canonical_mantissa prec emax mx ex = true ->
  canonical_mantissa prec emax my ey = true ->
  ex < ey -> Z.pos mx < Z.pos my * 2 ^ (ey - ex).
Proof.
  intros Hx Hy Hlt.
  apply canonical_bounds in Hx. apply canonical_bounds in Hy.
  destruct Hx as (Hx1 & Hx2 & _), Hy as (_ & _ & Hy3).
  pose proof (digits2_pos_bounds mx) as [_ Hhi].
  pose proof (digits2_pos_bounds my) as [Hlo _].
  rewrite Hy3 in Hlo by lia.
  assert (H1 : 2 ^ Z.pos (digits2_pos mx) <= 2 ^ prec) by (apply Z.pow_le_mono_r; lia).
  assert (H2 : 2 ^ 1 <= 2 ^ (ey - ex)) by (apply Z.pow_le_mono_r; lia).
  change (2 ^ 1) with 2 in H2.
  assert (H3 : 2 ^ prec = 2 * 2 ^ (prec - 1)) by reflexivity.
  nia.
Qed.

(** On canonical operands the order of the aligned mantissas is the
    lexicographic order [SFcompare] uses. *)
Lemma aligned_compare (mx my : positive) (ex ey : Z) :
  canonical_mantissa prec emax mx ex = true ->
  canonical_mantissa prec emax my ey = true ->
  (Z.pos (fst (shl_align mx ex (Z.min ex ey)))
     ?= Z.pos (fst (shl_align my ey (Z.min ex ey)))) =
  match ex ?= ey with
  | Lt => Lt
  | Gt => Gt
  | Eq => Pos.compare_cont Eq mx my
  end.
Proof.
  intros Hx Hy. rewrite !shl_align_fst by lia.
  destruct (Z.compare_spec ex ey) as [He|He|He].
  - subst ey. rewrite Z.min_id, Z.sub_diag, !Z.mul_1_r. reflexivity.
  - rewrite Z.min_l by lia. rewrite Z.sub_diag, Z.mul_1_r.
    apply Z.compare_lt_iff. now apply aligned_lt.
  - rewrite Z.min_r by lia. rewrite Z.sub_diag, Z.mul_1_r.
    apply Z.compare_gt_iff. now apply aligned_lt.
Qed.

Lemma binary_normalize_pos (D e : Z) :
  emin <= e ->
  SFltb (S754_zero false) (binary_normalize prec emax D e false) = (0 <? D).
Proof.
  intros He. destruct D as [|p|p]; cbn [binary_normalize].
  - reflexivity.
  - pose proof (binary_round_signed false p e He) as H.
    destruct (binary_round prec emax false p e) as [?|?| |? ? ?]; cbn in H;
      try contradiction; subst; reflexivity.
  - pose proof (binary_round_signed true p e He) as H.
    destruct (binary_round prec emax true p e) as [?|?| |? ? ?]; cbn in H;
      try contradiction; subst; reflexivity.
Qed.

Lemma SFsub_pos_finite (sa sb : bool) (ma mb : positive) (ea eb : Z) :
  bounded prec emax ma ea = true -> bounded prec emax mb eb = true ->
  SFltb (S754_zero false) (SFsub prec emax (S754_finite sa ma ea) (S754_finite sb mb eb)) =
  SFltb (S754_finite sb mb eb) (S754_finite sa ma ea).
Proof.
  intros Ha Hb. unfold bounded in Ha, Hb.
  apply andb_true_iff in Ha, Hb. destruct Ha as [Ha _], Hb as [Hb _].
  pose proof (canonical_bounds _ _ Ha) as (Hea & _).
  pose proof (canonical_bounds _ _ Hb) as (Heb & _).
  cbn [SFsub]. rewrite binary_normalize_pos by lia.
  pose proof (aligned_compare ma mb ea eb Ha Hb) as Hc.
  set (X := Z.pos (fst (shl_align ma ea (Z.min ea eb)))) in *.
  set (Y := Z.pos (fst (shl_align mb eb (Z.min ea eb)))) in *.
  assert (HX : 0 < X) by (unfold X; lia).
  assert (HY : 0 < Y) by (unfold Y; lia).
  unfold SFltb. cbn [SFcompare].
  destruct sa, sb; cbn [cond_Zopp].
  - change (Pos.compare_cont Eq mb ma) with (Pos.compare mb ma).
    change (Pos.compare_cont Eq ma mb) with (Pos.compare ma mb) in Hc.
    rewrite (Z.compare_antisym ea eb), (Pos.compare_antisym ma mb).
    destruct (Z.ltb_spec 0 (- X - - Y)); destruct (Z.compare_spec X Y) as [H'|H'|H'];
      try lia;
      destruct (ea ?= eb); cbn in Hc |- *; try discriminate;
      destruct (Pos.compare ma mb); cbn in Hc |- *; try discriminate; reflexivity.
  - apply Z.ltb_ge. lia.
  - apply Z.ltb_lt. lia.
  - change (Pos.compare_cont Eq mb ma) with (Pos.compare mb ma).
    change (Pos.compare_cont Eq ma mb) with (Pos.compare ma mb) in Hc.
    rewrite (Z.compare_antisym ea eb), (Pos.compare_antisym ma mb).
    destruct (Z.ltb_spec 0 (X - Y)); destruct (Z.compare_spec X Y) as [H'|H'|H'];
      try lia;
      destruct (ea ?= eb); cbn in Hc |- *; try discriminate;
      destruct (Pos.compare ma mb); cbn in Hc |- *; try discriminate; reflexivity.
Qed.

Lemma SFsub_pos (a b : spec_float) :
  valid_binary a = true -> valid_binary b = true ->
  SFltb (S754_zero false) (SFsub prec emax a b) = SFltb b a.
Proof.
  intros Ha Hb.
  destruct a as [sa|sa| |sa ma ea], b as [sb|sb| |sb mb eb];
    try (now apply SFsub_pos_finite);
    repeat match goal with s : bool |- _ => destruct s end; reflexivity.
Qed.

End SubSign.

(** [x - y > 0] exactly when [y < x]: there is no underflow to zero. *)
Lemma sub_pos_ltb (x y : float) : (0 <? x - y) = (y <? x).
Proof.
  rewrite !ltb_spec, sub_spec. change (Prim2SF 0) with (S754_zero false).
  apply SFsub_pos; apply Prim2SF_valid.
Qed.

(** A number times 100 is NaN only when the number is. *)
Lemma mul_100_not_nan (x : float) : isNaN x = false -> isNaN (x * 100) = false.
Proof.
  unfold isNaN. rewrite !eqb_spec, mul_spec. intros H. apply negb_false_iff in H.
  apply negb_false_iff, SFeqb_refl.
  change (Prim2SF 100) with (S754_finite false 7036874417766400 (-46)).
  destruct (Prim2SF x) as [s|s| |s m e]; try discriminate; cbn [SF64mul SFmul]; try discriminate.
  apply binary_round_aux_not_nan. lia.
Qed.

Lemma num_or_0_not_nan (x : float) : isNaN (num_or x 0) = false.
Proof.
  unfold num_or, truthy. destruct (isNaN x) eqn:E; cbn [negb andb]; [reflexivity|].
  destruct (negb (x =? 0)); [exact E | reflexivity].
Qed.

(** * The comparator *)

Section Comparator.
Import Compare.

(** C2. For all metrics [baseline], [current] and every threshold in
    [0, 100], [compareMetric] computes
    [delta = current.percentage - baseline.percentage]; the status is
    [improved] iff [delta > 0], [regressed] iff [delta < -threshold], and
    [unchanged] in every other case.  A baseline at 80 against a current at
    78 is [regressed] at threshold 1 and [unchanged] at threshold 3. *)
Theorem compareMetric_status :
  (forall metric baseline current threshold,
     (0 <=? threshold) = true -> (threshold <=? 100) = true ->
     let r := compareMetric metric baseline current threshold in
     let delta :=
       CoverageMetric.percentage current - CoverageMetric.percentage baseline in
     MetricComparison.delta r = delta /\
     (MetricComparison.status r = improved <-> (0 <? delta) = true) /\
     (MetricComparison.status r = regressed <-> (delta <? - threshold) = true) /\
     (MetricComparison.status r = unchanged <->
        (0 <? delta) = false /\ (delta <? - threshold) = false)) /\
  (forall metric baseline current,
     CoverageMetric.percentage baseline = 80 ->
     CoverageMetric.percentage current = 78 ->
     MetricComparison.delta (compareMetric metric baseline current 1) = -2 /\
     MetricComparison.status (compareMetric metric baseline current 1) = regressed /\
     MetricComparison.status (compareMetric metric baseline current 3) = unchanged).
Proof.
  split.
  - intros metric baseline current threshold Hlo _. cbn zeta.
    unfold compareMetric. cbn [MetricComparison.delta MetricComparison.status].
    set (delta := CoverageMetric.percentage current - CoverageMetric.percentage baseline).
    split; [reflexivity|].
    destruct (0 <? delta) eqn:Hpos.
    + assert (Hneg : (delta <? - threshold) = false).
      { destruct (delta <? - threshold) eqn:E; [|reflexivity].
        pose proof (ltb_opp_nonneg delta threshold Hlo E). congruence. }
      rewrite Hneg. repeat split; intros; try congruence. destruct H; congruence.
    + destruct (delta <? - threshold) eqn:Hneg; repeat split; intros; try congruence.
      destruct H; congruence.
  - intros metric baseline current Hb Hc. unfold compareMetric.
    cbn [MetricComparison.delta MetricComparison.status]. rewrite Hb, Hc.
    repeat split.
Qed.

Lemma compareMetric_status_witness :
  let r := compareMetric Lines (metric_of 80) (metric_of 78) 1 in
  MetricComparison.delta r = -2 /\ MetricComparison.status r = regressed.
Proof.
  destruct (proj1 compareMetric_status Lines (metric_of 80) (metric_of 78) 1)
    as (Hd & _ & Hr & _); [reflexivity | reflexivity |].
  split; [exact Hd | apply Hr; reflexivity].
Defined.

(** C8. With the two metrics fixed, raising the threshold never turns
    [unchanged] into [regressed], and never turns [regressed] into
    [improved]. *)
Theorem compareMetric_threshold_monotone metric baseline current t1 t2 :
  (t1 <=? t2) = true ->
  (MetricComparison.status (compareMetric metric baseline current t1) = unchanged ->
   MetricComparison.status (compareMetric metric baseline current t2) <> regressed) /\
  (MetricComparison.status (compareMetric metric baseline current t1) = regressed ->
   MetricComparison.status (compareMetric metric baseline current t2) <> improved).
Proof.
  intros Hle. unfold compareMetric. cbn [MetricComparison.status].
  set (delta := CoverageMetric.percentage current - CoverageMetric.percentage baseline).
  destruct (0 <? delta) eqn:Hpos; [split; congruence|].
  destruct (delta <? - t2) eqn:H2.
  - rewrite (ltb_opp_mono delta t1 t2 Hle H2). split; congruence.
  - destruct (delta <? - t1); split; congruence.
Qed.

Lemma compareMetric_threshold_monotone_witness :
  MetricComparison.status (compareMetric Lines (metric_of 80) (metric_of 78) 3) = unchanged /\
  MetricComparison.status (compareMetric Lines (metric_of 80) (metric_of 78) 5) <> regressed.
Proof.
  split; [reflexivity|].
  apply (proj1 (compareMetric_threshold_monotone Lines (metric_of 80) (metric_of 78) 3 5
                  eq_refl)).
  reflexivity.
Defined.

Lemma existsb_status (s : ComparisonStatus) (ms : list MetricComparison.t) :
  existsb (fun m => status_eqb (MetricComparison.status m) s) ms = true <->
  Exists (fun m => MetricComparison.status m = s) ms.
Proof.
  rewrite existsb_exists, Exists_exists. split; intros (m & Hin & H); exists m; split; auto.
  - destruct (MetricComparison.status m), s; simpl in H; congruence.
  - rewrite H. destruct s; reflexivity.
Qed.

(** C3. The overall status of a comparison is [regressed] when one of the
    four metric comparisons is, else [improved] when one of them is, else
    [unchanged]; the overall delta is the sum of the four metric deltas
    (accumulated from 0, in the fixed order) divided by 4. *)
Theorem compareCoverage_overall current baseline threshold :
  let r := compareCoverage current baseline threshold in
  let ms := CoverageComparison.metrics r in
  let delta_of (sel : CoverageSummary.t -> CoverageMetric.t) :=
    CoverageMetric.percentage (sel (NormalizedCoverage.summary current))
    - CoverageMetric.percentage (sel (NormalizedCoverage.summary baseline)) in
  ms = four_metrics current baseline threshold /\
  map MetricComparison.delta ms =
    [ delta_of CoverageSummary.statements; delta_of CoverageSummary.branches;
      delta_of CoverageSummary.functions; delta_of CoverageSummary.lines ] /\
  (Exists (fun m => MetricComparison.status m = regressed) ms ->
   CoverageComparison.overallStatus r = regressed) /\
  (~ Exists (fun m => MetricComparison.status m = regressed) ms ->
   Exists (fun m => MetricComparison.status m = improved) ms ->
   CoverageComparison.overallStatus r = improved) /\
  (~ Exists (fun m => MetricComparison.status m = regressed) ms ->
   ~ Exists (fun m => MetricComparison.status m = improved) ms ->
   CoverageComparison.overallStatus r = unchanged) /\
  CoverageComparison.overallDelta r =
    (0 + delta_of CoverageSummary.statements + delta_of CoverageSummary.branches
       + delta_of CoverageSummary.functions + delta_of CoverageSummary.lines) / 4.
Proof.
  cbn zeta. unfold compareCoverage.
  cbn [CoverageComparison.metrics CoverageComparison.overallStatus
       CoverageComparison.overallDelta].
  fold (four_metrics current baseline threshold).
  set (ms := four_metrics current baseline threshold).
  split; [reflexivity|]. split; [reflexivity|].
  unfold determineOverallStatus.
  pose proof (existsb_status regressed ms) as Hr.
  pose proof (existsb_status improved ms) as Hi.
  destruct (existsb (fun m => status_eqb (MetricComparison.status m) regressed) ms);
    destruct (existsb (fun m => status_eqb (MetricComparison.status m) improved) ms);
    (split; [|split; [|split]]);
    try (intros; first [reflexivity | exfalso; intuition congruence]);
    reflexivity.
Qed.

Lemma compareCoverage_overall_witness :
  let nc p :=
    {| NormalizedCoverage.format := lcov;
       NormalizedCoverage.summary :=
         {| CoverageSummary.statements := metric_of p;
            CoverageSummary.branches := metric_of 50;
            CoverageSummary.functions := metric_of 50;
            CoverageSummary.lines := metric_of 50 |};
       NormalizedCoverage.files := [] |} in
  CoverageComparison.overallStatus (compareCoverage (nc 78) (nc 80) 1) = regressed /\
  CoverageComparison.overallDelta (compareCoverage (nc 78) (nc 80) 1) = -0.5.
Proof.
  cbn zeta.
  match goal with
  | |- CoverageComparison.overallStatus (compareCoverage ?c ?b ?t) = _ /\ _ =>
      destruct (compareCoverage_overall c b t) as (_ & _ & Hr & _ & _ & Hd)
  end.
  split; [apply Hr; apply Exists_cons_hd; reflexivity | rewrite Hd; reflexivity].
Defined.

End Comparator.

(** * Maps, sets and the sort of [compareFiles] *)

Section Containers.
Context {V : Type}.

Lemma Object_get_set (m : Object_ V) (k k' : string) (v : V) :
  Object_get (Object_set m k v) k' =
  if String.eqb k k' then Some v else Object_get m k'.
Proof.
  induction m as [|[k0 v0] m IH]; simpl.
  - reflexivity.
  - destruct (String.eqb k0 k) eqn:E0; simpl.
    + apply String.eqb_eq in E0. subst k0.
      destruct (String.eqb k k'); reflexivity.
    + destruct (String.eqb k0 k') eqn:E1.
      * apply String.eqb_eq in E1. subst k0.
        rewrite String.eqb_sym, E0. reflexivity.
      * exact IH.
Qed.

Lemma Object_get_In (m : Object_ V) (k : string) (v : V) :
  Object_get m k = Some v -> In k (Object_keys m).
Proof.
  induction m as [|[k0 v0] m IH]; simpl; [discriminate|].
  destruct (String.eqb k0 k) eqn:E; [apply String.eqb_eq in E; auto | auto].
Qed.

Lemma find_app {A : Type} (p : A -> bool) (l1 l2 : list A) :
  find p (l1 ++ l2) = match find p l1 with Some x => Some x | None => find p l2 end.
Proof. induction l1 as [|x l1 IH]; simpl; [reflexivity|]. destruct (p x); auto. Qed.

Lemma Map_of_fold (key : V -> string) (l : list V) (m : Object_ V) (k : string) :
  Object_get (fold_left (fun m '(k, v) => Object_set m k v) (map (fun f => (key f, f)) l) m) k =
  match find (fun f => String.eqb (key f) k) (rev l) with
  | Some f => Some f
  | None => Object_get m k
  end.
Proof.
  revert m. induction l as [|x l IH]; intros m; simpl; [reflexivity|].
  rewrite IH, find_app, Object_get_set. simpl.
  destruct (find (fun f => String.eqb (key f) k) (rev l)); [reflexivity|].
  destruct (String.eqb (key x) k); reflexivity.
Qed.

End Containers.

Lemma Set_of_fold (l s : list string) :
  (forall k, In k (fold_left (fun s k => if existsb (String.eqb k) s then s else s ++ [k]) l s)
             <-> In k s \/ In k l) /\
  (NoDup s -> NoDup (fold_left (fun s k => if existsb (String.eqb k) s then s else s ++ [k]) l s)).
Proof.
  revert s. induction l as [|x l IH]; intros s; simpl.
  - split; [intros k; tauto | auto].
  - destruct (existsb (String.eqb x) s) eqn:E.
    + destruct (IH s) as [H1 H2]. split; [|exact H2].
      intros k. rewrite H1. apply existsb_exists in E. destruct E as (y & Hy & Exy).
      apply String.eqb_eq in Exy. subst y. intuition (subst; auto).
    + destruct (IH (s ++ [x])) as [H1 H2]. split.
      * intros k. rewrite H1, in_app_iff. simpl. tauto.
      * intros Hs. apply H2.
        assert (Hx : ~ In x s).
        { intros Hin. assert (existsb (String.eqb x) s = true); [|congruence].
          apply existsb_exists. exists x. split; [exact Hin | apply String.eqb_refl]. }
        clear -Hs Hx. induction s as [|a s IHs]; simpl.
        -- constructor; [simpl; tauto | constructor].
        -- inversion Hs; subst. constructor.
           ++ rewrite in_app_iff. simpl in *. intuition (subst; auto).
           ++ apply IHs; [assumption | simpl in Hx; tauto].
Qed.

Lemma Set_of_In (l : list string) (k : string) : In k (Set_of l) <-> In k l.
Proof. unfold Set_of. rewrite (proj1 (Set_of_fold l [])). simpl. tauto. Qed.

Lemma Set_of_NoDup (l : list string) : NoDup (Set_of l).
Proof. unfold Set_of. apply (proj2 (Set_of_fold l [])). constructor. Qed.

Section Sorting.
Context {A : Type} (key : A -> number).

Let by_key (a b : A) : number := key a - key b.
Let le_key (a b : A) : Prop := (key a <=? key b) = true.

Lemma sort_insert_perm (compareFn : A -> A -> number) (x : A) (l : list A) :
  Permutation (sort_insert compareFn x l) (x :: l).
Proof.
  induction l as [|y l IH]; simpl; [apply Permutation_refl|].
  destruct (PrimFloat.ltb 0 (compareFn y x)); [apply Permutation_refl|].
  eapply Permutation_trans; [apply perm_skip, IH | apply perm_swap].
Qed.

Lemma Array_sort_fold_perm (compareFn : A -> A -> number) (l acc : list A) :
  Permutation (fold_left (fun sorted x => sort_insert compareFn x sorted) l acc) (acc ++ l).
Proof.
  revert acc. induction l as [|x l IH]; intros acc; simpl.
  - rewrite app_nil_r. apply Permutation_refl.
  - eapply Permutation_trans; [apply IH|].
    eapply Permutation_trans; [apply Permutation_app_tail, sort_insert_perm|].
    simpl. apply Permutation_middle.
Qed.

Lemma Array_sort_perm (compareFn : A -> A -> number) (l : list A) :
  Permutation (Array_sort compareFn l) l.
Proof. apply (Array_sort_fold_perm compareFn l []). Qed.

Lemma sort_insert_sorted (x : A) (l : list A) :
  isNaN (key x) = false -> Forall (fun a => isNaN (key a) = false) l ->
  StronglySorted le_key l -> StronglySorted le_key (sort_insert by_key x l).
Proof.
  intros Hx Hl Hs. induction Hs as [|y l Hs IH Hy]; simpl.
  - constructor; [constructor | constructor].
  - inversion Hl as [|? ? Hny Hl']; subst.
    unfold by_key at 1. rewrite sub_pos_ltb.
    destruct (key x <? key y) eqn:E.
    + assert (Hxy : le_key x y) by (apply ltb_leb; exact E).
      constructor; [constructor; assumption|].
      constructor; [exact Hxy|].
      eapply Forall_impl; [|exact Hy]. intros z Hz. unfold le_key in *.
      eapply leb_trans; eassumption.
    + constructor; [apply IH; assumption|].
      eapply Permutation_Forall; [apply Permutation_sym, sort_insert_perm|].
      constructor; [|exact Hy]. apply leb_total; assumption.
Qed.

Lemma Array_sort_fold_sorted (l acc : list A) :
  Forall (fun a => isNaN (key a) = false) l ->
  Forall (fun a => isNaN (key a) = false) acc ->
  StronglySorted le_key acc ->
  StronglySorted le_key (fold_left (fun sorted x => sort_insert by_key x sorted) l acc).
Proof.
  revert acc. induction l as [|x l IH]; intros acc Hl Hacc Hs; simpl; [exact Hs|].
  inversion Hl; subst. apply IH; [assumption| |].
  - eapply Permutation_Forall; [apply Permutation_sym, sort_insert_perm|].
    constructor; assumption.
  - apply sort_insert_sorted; assumption.
Qed.

Lemma Array_sort_sorted (l : list A) :
  Forall (fun a => isNaN (key a) = false) l ->
  StronglySorted le_key (Array_sort by_key l).
Proof.
  intros Hl. apply Array_sort_fold_sorted; [exact Hl | constructor | constructor].
Qed.

End Sorting.

Section CompareFiles.
Import Compare.

Lemma compare_path_acc B C t acc p :
  compare_path B C t acc p = acc ++ compare_path B C t [] p.
Proof.
  unfold compare_path.
  destruct (Object_get B p) as [bf|]; [|now rewrite app_nil_r].
  destruct (Object_get C p) as [cf|]; [|now rewrite app_nil_r].
  destruct (noise_floor <? _); [reflexivity | now rewrite app_nil_r].
Qed.

Lemma compare_fold B C t ps acc :
  fold_left (compare_path B C t) ps acc = acc ++ flat_map (compare_path B C t []) ps.
Proof.
  revert acc. induction ps as [|p ps IH]; intros acc; simpl.
  - now rewrite app_nil_r.
  - rewrite IH, compare_path_acc, <- app_assoc. reflexivity.
Qed.

Lemma compare_paths B C t ps :
  map FileComparison.path (flat_map (compare_path B C t []) ps) = filter (included B C) ps.
Proof.
  induction ps as [|p ps IH]; simpl; [reflexivity|].
  rewrite map_app, IH. unfold compare_path, included, lines_delta.
  change one_tenth with noise_floor.
  destruct (Object_get B p) as [bf|]; [|reflexivity].
  destruct (Object_get C p) as [cf|]; [|reflexivity].
  destruct (noise_floor <? _); reflexivity.
Qed.

Lemma compare_entries B C t ps fc :
  In fc (flat_map (compare_path B C t []) ps) ->
  exists bf cf,
    Object_get B (FileComparison.path fc) = Some bf /\
    Object_get C (FileComparison.path fc) = Some cf /\
    (noise_floor <? abs (lines_delta cf bf)) = true /\
    FileComparison.linesDelta fc = lines_delta cf bf.
Proof.
  rewrite in_flat_map. intros (p & _ & Hin). unfold compare_path in Hin.
  destruct (Object_get B p) as [bf|] eqn:EB; [|contradiction].
  destruct (Object_get C p) as [cf|] eqn:EC; [|contradiction].
  fold (lines_delta cf bf) in Hin.
  destruct (noise_floor <? abs (lines_delta cf bf)) eqn:EN; [|contradiction].
  destruct Hin as [<-|[]]. simpl. exists bf, cf. auto.
Qed.

Lemma Map_of_files (files : list FileCoverage.t) (p : string) :
  Object_get (Map_of (map (fun f => (FileCoverage.path f, f)) files)) p =
  last_with_path p files.
Proof.
  unfold Map_of, last_with_path. rewrite (Map_of_fold FileCoverage.path).
  destruct (find _ (rev files)); reflexivity.
Qed.

(** C4, amended. The file comparisons of [compareFiles] carry exactly the
    paths that both file lists have (each path once, by its last entry in a
    list) and whose computed lines-percentage delta, the binary64 difference
    of the two percentages, is in absolute value strictly above the double
    nearest to 0.1; each entry holds that delta; a computed delta equal to
    that double is left out and one equal to the double nearest to 0.11 is
    kept; and the list is sorted by ascending delta. *)
Theorem compareFiles_spec current baseline threshold :
  let r := compareFiles current baseline threshold in
  let both p bf cf :=
    last_with_path p (NormalizedCoverage.files baseline) = Some bf /\
    last_with_path p (NormalizedCoverage.files current) = Some cf in
  (forall p,
     In p (map FileComparison.path r) <->
     exists bf cf, both p bf cf /\ (one_tenth <? abs (lines_delta cf bf)) = true) /\
  (forall fc, In fc r ->
     exists bf cf, both (FileComparison.path fc) bf cf /\
                   FileComparison.linesDelta fc = lines_delta cf bf) /\
  NoDup (map FileComparison.path r) /\
  (forall p bf cf, both p bf cf ->
     (abs (lines_delta cf bf) = one_tenth -> ~ In p (map FileComparison.path r)) /\
     (abs (lines_delta cf bf) = eleven_hundredths -> In p (map FileComparison.path r))) /\
  sorted_by_delta r.
Proof.
  cbn zeta. unfold compareFiles.
  set (B := Map_of (map (fun f => (FileCoverage.path f, f)) (NormalizedCoverage.files baseline))).
  set (C := Map_of (map (fun f => (FileCoverage.path f, f)) (NormalizedCoverage.files current))).
  set (ps := Set_of (Object_keys B ++ Object_keys C)).
  rewrite compare_fold. cbn [app].
  set (cs := flat_map (compare_path B C threshold []) ps).
  pose proof (Array_sort_perm by_delta cs) as Hperm.
  assert (HB : forall p, Object_get B p = last_with_path p (NormalizedCoverage.files baseline))
    by (intros p; apply Map_of_files).
  assert (HC : forall p, Object_get C p = last_with_path p (NormalizedCoverage.files current))
    by (intros p; apply Map_of_files).
  assert (Hpaths : forall p,
            In p (map FileComparison.path (Array_sort by_delta cs)) <->
            exists bf cf,
              (last_with_path p (NormalizedCoverage.files baseline) = Some bf /\
               last_with_path p (NormalizedCoverage.files current) = Some cf) /\
              (one_tenth <? abs (lines_delta cf bf)) = true).
  { intros p. rewrite <- HB, <- HC.
    transitivity (In p (map FileComparison.path cs)).
    - split; apply Permutation_in, Permutation_map;
        [exact Hperm | apply Permutation_sym, Hperm].
    - unfold cs. rewrite compare_paths, filter_In. unfold included, ps.
      rewrite Set_of_In, in_app_iff. split.
      + intros [_ H]. destruct (Object_get B p) as [bf|]; [|discriminate].
        destruct (Object_get C p) as [cf|]; [|discriminate]. exists bf, cf. auto.
      + intros (bf & cf & [EB EC] & H). rewrite EB, EC. split; [|exact H].
        left. eapply Object_get_In; eassumption. }
  split; [exact Hpaths|]. split; [|split; [|split]].
  - intros fc Hin. apply (Permutation_in _ Hperm) in Hin.
    apply compare_entries in Hin. destruct Hin as (bf & cf & EB & EC & _ & Hd).
    exists bf, cf. rewrite <- HB, <- HC. auto.
  - eapply Permutation_NoDup; [apply Permutation_map, Permutation_sym, Hperm|].
    unfold cs. rewrite compare_paths. apply NoDup_filter, Set_of_NoDup.
  - intros p bf cf [EB EC]. split; intros Hd.
    + rewrite Hpaths. intros (bf' & cf' & [EB' EC'] & H).
      rewrite EB in EB'. rewrite EC in EC'. inversion EB'; inversion EC'; subst bf' cf'.
      rewrite Hd in H. discriminate H.
    + rewrite Hpaths. exists bf, cf. split; [auto|]. rewrite Hd. reflexivity.
  - apply (Array_sort_sorted FileComparison.linesDelta).
    apply Forall_forall. intros fc Hin. apply compare_entries in Hin.
    destruct Hin as (bf & cf & _ & _ & H & Hd). rewrite Hd.
    eapply abs_gt_not_nan; exact H.
Qed.

Lemma compareFiles_spec_witness :
  let r := compareFiles (coverage_of current_files) (coverage_of baseline_files) 1 in
  ~ In "a.ts" (map FileComparison.path r) /\ In "b.ts" (map FileComparison.path r) /\
  sorted_by_delta r.
Proof.
  cbn zeta.
  destruct (compareFiles_spec (coverage_of current_files) (coverage_of baseline_files) 1)
    as (_ & _ & _ & Hfloor & Hsorted).
  split; [|split; [|exact Hsorted]].
  - apply (proj1 (Hfloor "a.ts" (file_at "a.ts" 0) (file_at "a.ts" one_tenth)
                    (conj eq_refl eq_refl))).
    reflexivity.
  - apply (proj2 (Hfloor "b.ts" (file_at "b.ts" 0) (file_at "b.ts" eleven_hundredths)
                    (conj eq_refl eq_refl))).
    reflexivity.
Defined.

(** C4 as stated fails on percentages that are 0.1 apart in decimal: the
    doubles that 50.1 and 50.0 denote differ by 0.10000000000000142, which
    is above the double nearest to 0.1, and the file is listed, not
    excluded. *)
Lemma compareFiles_lists_a_tenth_apart :
  map FileComparison.path
    (compareFiles (coverage_of [file_at "a.ts" (parseFloat "50.1")])
       (coverage_of [file_at "a.ts" (parseFloat "50.0")]) 0) = ["a.ts"].
Proof. vm_compute. reflexivity. Qed.

End CompareFiles.

(** * The parsers *)

Section JaCoCo.
Import JacocoParser.

(** C10. A JaCoCo source file without [counter] children, whose metrics come
    from its [line] elements, always gets the functions metric
    [{ total: 0, covered: 0, percentage: 100 }]. *)
Theorem parseSourceFile_functions_without_counters srcFile filePath :
  JacocoSourceFile.counter srcFile = None ->
  FileCoverage.functions (parseSourceFile srcFile filePath) =
  {| CoverageMetric.total := 0; CoverageMetric.covered := 0;
     CoverageMetric.percentage := 100 |}.
Proof. intros H. unfold parseSourceFile. rewrite H. reflexivity. Qed.

Lemma parseSourceFile_functions_witness :
  parseSourceFile sample_source_file "com/example/Calculator.java" =
  {| FileCoverage.path := "com/example/Calculator.java";
     FileCoverage.statements := calculateMetric 4 6;
     FileCoverage.branches := calculateMetric 1 2;
     FileCoverage.functions := empty_metric;
     FileCoverage.lines := calculateMetric 1 2 |} /\
  FileCoverage.functions (parseSourceFile sample_source_file "com/example/Calculator.java") =
  empty_metric.
Proof.
  split; [vm_compute; reflexivity|].
  apply (parseSourceFile_functions_without_counters sample_source_file). reflexivity.
Defined.

End JaCoCo.

Section EmptyData.

(** C9. An Istanbul input whose top-level JSON object has no entry is
    rejected with the "no data" message (the EmptyCoverageData kind).  An
    LCOV input without a record is rejected too, but not with that kind:
    lcov-parse reports it as an error, [parse] tests the error first and
    wraps it, so the failure is "Failed to parse LCOV: ...", a
    MalformedInput; the "LCOV file contains no coverage data" test that
    follows is reached only when lcov-parse reports no error and no record. *)
Theorem no_record_errors :
  (forall lcovParse_source content e data,
     lcovParse_source content = (Some e, data) -> e <> "" ->
     LcovParser.parse lcovParse_source content = Err ("Failed to parse LCOV: " ++ e) /\
     error_kind ("Failed to parse LCOV: " ++ e) = Some MalformedInput) /\
  (forall lcovParse_source content message,
     LcovParser.parse lcovParse_source content = Err message ->
     error_kind message = Some EmptyCoverageData ->
     exists err data,
       lcovParse_source content = (err, data) /\
       (err = None \/ err = Some "") /\ (data = None \/ data = Some [])) /\
  (forall JSON_parse content,
     JSON_parse content = Ok [] ->
     IstanbulParser.parse JSON_parse content = Err "Istanbul coverage file contains no data" /\
     error_kind "Istanbul coverage file contains no data" = Some EmptyCoverageData).
Proof.
  split; [|split].
  - intros src content e data H He. unfold LcovParser.parse. rewrite H.
    destruct e as [|ch e]; [contradiction|]. split; reflexivity.
  - intros src content message. unfold LcovParser.parse.
    destruct (src content) as [err data]. unfold LcovParser.on_source.
    destruct err as [[|ch e]|].
    + destruct data as [[|file data]|]; try discriminate;
        intros _ _; eexists _, _; (split; [reflexivity|]); split; auto.
    + intros [= <-]. discriminate.
    + destruct data as [[|file data]|]; try discriminate;
        intros _ _; eexists _, _; (split; [reflexivity|]); split; auto.
  - intros parse content H. unfold IstanbulParser.parse. rewrite H. split; reflexivity.
Qed.

Lemma no_record_errors_witness :
  LcovParser.parse (always no_record_found) ""
    = Err "Failed to parse LCOV: Failed to parse string" /\
  error_kind "Failed to parse LCOV: Failed to parse string" = Some MalformedInput /\
  IstanbulParser.parse (always (Ok [])) "{}" = Err "Istanbul coverage file contains no data".
Proof.
  destruct no_record_errors as (Hl & _ & Hi).
  destruct (Hl (always no_record_found) "" "Failed to parse string" None eq_refl) as [H1 H2];
    [discriminate|].
  split; [exact H1|]. split; [exact H2|].
  apply (Hi (always (Ok [])) "{}"). reflexivity.
Defined.

End EmptyData.

Section Istanbul.
Import IstanbulParser.

Lemma filter_length_perm {A : Type} (p : A -> bool) (l l' : list A) :
  Permutation l l' -> List.length (filter p l) = List.length (filter p l').
Proof.
  induction 1 as [|x l l' _ IH|x y l|l l' l'' _ IH1 _ IH2]; simpl.
  - reflexivity.
  - destruct (p x); simpl; congruence.
  - destruct (p x), (p y); reflexivity.
  - congruence.
Qed.

Lemma filter_length_map {A B : Type} (f : A -> B) (p : B -> bool) (l : list A) :
  List.length (filter p (map f l)) = List.length (filter (fun x => p (f x)) l).
Proof.
  induction l as [|x l IH]; simpl; [reflexivity|]. destruct (p (f x)); simpl; congruence.
Qed.

Lemma filter_length_ext {A : Type} (p q : A -> bool) (l : list A) :
  (forall x, In x l -> p x = q x) ->
  List.length (filter p l) = List.length (filter q l).
Proof.
  induction l as [|x l IH]; simpl; intros H; [reflexivity|].
  rewrite (H x) by auto. destruct (q x); simpl; rewrite IH; auto.
Qed.

Lemma Object_get_NoDup {V : Type} (o : Object_ V) (k : string) (v : V) :
  NoDup (Object_keys o) -> In (k, v) o -> Object_get o k = Some v.
Proof.
  unfold Object_keys. induction o as [|[k0 v0] o IH]; simpl; intros Hnd Hin; [contradiction|].
  inversion Hnd as [|? ? Hk0 Hnd']; subst.
  destruct Hin as [E|Hin].
  - inversion E; subst. rewrite String.eqb_refl. reflexivity.
  - destruct (String.eqb k0 k) eqn:E; [|auto].
    apply String.eqb_eq in E. subst k0. exfalso. apply Hk0.
    apply in_map_iff. exists (k, v). auto.
Qed.

(** C7. For every Istanbul file record, the statements metric counts the
    entries of [statementMap] as total and the entries of [s] with a hit
    count above 0 as covered.  The counts do not depend on the order of the
    entries, and when the two maps have the same keys the covered count is
    the number of statements whose own hit count, looked up by key, is above
    0. *)
Theorem calculateStatements_counts file :
  let m := calculateStatements file in
  CoverageMetric.total m = of_nat (List.length (statement_entries file)) /\
  CoverageMetric.covered m =
    of_nat (List.length (filter (fun entry => 0 <? snd entry) (hit_entries file))) /\
  (forall file',
     Permutation (statement_entries file) (statement_entries file') ->
     Permutation (hit_entries file) (hit_entries file') ->
     calculateStatements file' = m) /\
  (NoDup (Object_keys (statement_entries file)) ->
   NoDup (Object_keys (hit_entries file)) ->
   (forall key, In key (Object_keys (statement_entries file))
                <-> In key (Object_keys (hit_entries file))) ->
   CoverageMetric.covered m =
     of_nat (List.length (filter (statement_hit file) (Object_keys (statement_entries file))))).
Proof.
  cbn zeta. unfold calculateStatements, statement_entries, hit_entries, hit_filter,
    Object_keys, Object_values.
  cbn [CoverageMetric.total CoverageMetric.covered].
  rewrite length_map, filter_length_map.
  split; [reflexivity|]. split; [reflexivity|]. split.
  - intros file' Hs Hh. rewrite !length_map, !filter_length_map.
    rewrite <- (Permutation_length Hs).
    rewrite <- (filter_length_perm _ _ _ Hh). reflexivity.
  - intros Hnd1 Hnd2 Hkeys. f_equal.
    rewrite (filter_length_perm _ _ _ (NoDup_Permutation Hnd1 Hnd2 Hkeys)).
    rewrite filter_length_map. apply filter_length_ext.
    intros [k hit] Hin. unfold statement_hit. cbn [fst snd].
    destruct (IstanbulFileCoverage.s file) as [o|]; [|contradiction].
    cbn [obj_or] in Hin, Hnd2.
    rewrite (Object_get_NoDup o k hit Hnd2 Hin). reflexivity.
Qed.

Lemma calculateStatements_counts_witness :
  CoverageMetric.total (calculateStatements sample_file) = 3 /\
  CoverageMetric.covered (calculateStatements sample_file) = 2 /\
  CoverageMetric.covered (calculateStatements sample_file) =
    of_nat (List.length (filter (statement_hit sample_file) ["0"; "1"; "2"])).
Proof.
  destruct (calculateStatements_counts sample_file) as (Ht & Hc & _ & Hk).
  split; [rewrite Ht; reflexivity|]. split; [rewrite Hc; reflexivity|].
  apply Hk.
  - repeat constructor; simpl; intuition discriminate.
  - repeat constructor; simpl; intuition discriminate.
  - intros key. simpl. tauto.
Defined.

End Istanbul.

(** * The Metric invariant *)

Section Cobertura.
Import CoberturaParser.





End Cobertura.

Section Invariant.

(** The shape every [calculateMetric], [aggregate] and [sumMetrics] builds. *)
Lemma percent_inv (covered total : number) :
  metric_inv
    {| CoverageMetric.total := total; CoverageMetric.covered := covered;
       CoverageMetric.percentage := if 0 <? total then covered / total * 100 else 100 |}.
Proof.
  unfold metric_inv. cbn [CoverageMetric.total CoverageMetric.covered CoverageMetric.percentage].
  split.
  - intros H. rewrite H. reflexivity.
  - intros H. rewrite (eqb_zero_not_pos total H). reflexivity.
Qed.

Lemma empty_metric_inv : metric_inv empty_metric.
Proof. apply (percent_inv 0 0). Qed.

Lemma Forall_map_inv {A : Type} (f : A -> FileCoverage.t) (l : list A) :
  (forall x, file_inv (f x)) -> Forall file_inv (map f l).
Proof. intros H. apply Forall_forall. intros y Hy. apply in_map_iff in Hy. destruct Hy as (x & <- & _). apply H. Qed.

Lemma lcov_inv lcovParse_source content c :
  LcovParser.parse lcovParse_source content = Ok c -> coverage_inv c.
Proof.
  unfold LcovParser.parse. destruct (lcovParse_source content) as [err data].
  unfold LcovParser.on_source.
  destruct err as [[|ch e]|]; try discriminate;
    (destruct data as [[|file data]|]; try discriminate; intros H; inversion H; subst c; clear H;
     split; [repeat split; apply percent_inv
            | apply (Forall_map_inv LcovParser.file_coverage (file :: data));
              intros x; repeat split; apply percent_inv]).
Qed.

Lemma calculateLines_inv file : metric_inv (IstanbulParser.calculateLines file).
Proof.
  unfold IstanbulParser.calculateLines.
  destruct (fold_left _ _ _) as [lineSet coveredLines]. apply percent_inv.
Qed.

Lemma istanbul_inv JSON_parse content c :
  IstanbulParser.parse JSON_parse content = Ok c -> coverage_inv c.
Proof.
  unfold IstanbulParser.parse. destruct (JSON_parse content) as [data|]; [|discriminate].
  destruct (Nat.eqb _ 0); [discriminate|]. intros H. inversion H; subst c; clear H.
  split; [repeat split; apply percent_inv|].
  apply Forall_map_inv. intros [filePath file]. repeat split;
    first [apply percent_inv | apply calculateLines_inv].
Qed.

Lemma cobertura_parseClass_inv cls : file_inv (CoberturaParser.parseClass cls).
Proof. repeat split; apply percent_inv. Qed.

Lemma clover_parseFile_inv file : file_inv (CloverParser.parseFile file).
Proof.
  unfold CloverParser.parseFile. destruct (CloverParser.CloverFile.metrics file);
    repeat split; apply percent_inv.
Qed.

Lemma clover_inv XMLParser_parse content c :
  CloverParser.parse XMLParser_parse content = Ok c -> coverage_inv c.
Proof.
  unfold CloverParser.parse. destruct (XMLParser_parse content) as [data|]; [|discriminate].
  unfold CloverParser.parse_data.
  match goal with |- match ?p with _ => _ end = _ -> _ => destruct p as [project|] end;
    [|discriminate].
  intros H. inversion H; subst c; clear H. split.
  - cbn [NormalizedCoverage.summary].
    destruct (CloverParser.CloverProject.metrics project); repeat split; apply percent_inv.
  - cbn [NormalizedCoverage.files]. apply Forall_app. split.
    + apply Forall_map_inv, clover_parseFile_inv.
    + apply Forall_forall. intros f Hf. apply in_flat_map in Hf.
      destruct Hf as (pkg & _ & Hf). apply in_map_iff in Hf.
      destruct Hf as (x & <- & _). apply clover_parseFile_inv.
Qed.

Lemma counters_fold_inv (counters : list JacocoParser.JacocoCounter.t)
    (metrics : Object_ CoverageMetric.t) :
  (forall key m, Object_get metrics key = Some m -> metric_inv m) ->
  forall key m,
    Object_get
      (fold_left (fun metrics counter =>
                    Object_set metrics (JacocoParser.JacocoCounter.type counter)
                      (JacocoParser.counter_metric counter)) counters metrics) key = Some m ->
    metric_inv m.
Proof.
  revert metrics. induction counters as [|counter counters IH]; intros metrics Hm; simpl.
  - exact Hm.
  - apply IH. intros key m. rewrite Object_get_set.
    destruct (String.eqb _ key); [|apply Hm].
    intros H. inversion H. apply percent_inv.
Qed.

Lemma parseCounters_inv counters : summary_inv (JacocoParser.parseCounters counters).
Proof.
  assert (H : forall metrics key,
            (forall k m, Object_get metrics k = Some m -> metric_inv m) ->
            metric_inv (JacocoParser.metric_or_empty metrics key)).
  { intros metrics key Hm. unfold JacocoParser.metric_or_empty.
    destruct (Object_get metrics key) eqn:E; [eapply Hm; eassumption | apply empty_metric_inv]. }
  unfold JacocoParser.parseCounters.
  repeat split; cbn [CoverageSummary.statements CoverageSummary.branches
                     CoverageSummary.functions CoverageSummary.lines];
    apply H; apply counters_fold_inv; intros k m; simpl; discriminate.
Qed.

Lemma jacoco_parseSourceFile_inv srcFile filePath :
  file_inv (JacocoParser.parseSourceFile srcFile filePath).
Proof.
  unfold JacocoParser.parseSourceFile.
  destruct (JacocoParser.JacocoSourceFile.counter srcFile) as [counter|].
  - apply (parseCounters_inv counter).
  - repeat split; first [apply percent_inv | apply empty_metric_inv].
Qed.

Lemma jacoco_inv XMLParser_parse content c :
  JacocoParser.parse XMLParser_parse content = Ok c -> coverage_inv c.
Proof.
  unfold JacocoParser.parse. destruct (XMLParser_parse content) as [data|]; [|discriminate].
  unfold JacocoParser.parse_data.
  destruct (JacocoParser.JacocoXml.report data) as [report|]; [|discriminate].
  intros H. inversion H; subst c; clear H. split.
  - cbn [NormalizedCoverage.summary].
    destruct (JacocoParser.Report.counter report) as [counter|];
      [apply parseCounters_inv | repeat split; apply percent_inv].
  - cbn [NormalizedCoverage.files]. unfold JacocoParser.source_files.
    destruct (JacocoParser.Report.package report) as [packages|]; [|constructor].
    apply Forall_forall. intros f Hf. apply in_flat_map in Hf.
    destruct Hf as (pkg & _ & Hf).
    destruct (JacocoParser.JacocoPackage.sourcefile pkg); [|contradiction].
    apply in_map_iff in Hf. destruct Hf as (x & <- & _). apply jacoco_parseSourceFile_inv.
Qed.

(** C1 as stated fails on the summary of a Cobertura report that is taken
    from the root attributes: with 1 line of 3 covered and the rate printed
    as 0.3333 the lines percentage is not [1 / 3 * 100], and the branches
    metric has total 0 with percentage 0. *)
Lemma cobertura_summary_breaks_invariant :
  exists c,
    CoberturaParser.parse (fun _ => Ok rounded_report) "" = Ok c /\
    ~ metric_inv (CoverageSummary.lines (NormalizedCoverage.summary c)) /\
    ~ metric_inv (CoverageSummary.branches (NormalizedCoverage.summary c)).
Proof.
  exists {| NormalizedCoverage.format := cobertura;
            NormalizedCoverage.summary :=
              CoberturaParser.calculateSummary
                (root_of (Some "3") (Some "1") (Some "0") (Some "0")
                   (Some "0.3333") (Some "0") None) [];
            NormalizedCoverage.files := [] |}.
  split; [reflexivity|]. cbn [NormalizedCoverage.summary]. split; intros [H1 H2].
  - assert (Hpos : (0 <? 3) = true) by reflexivity.
    specialize (H1 Hpos). revert H1. apply float_neq; vm_compute; reflexivity.
  - assert (Hzero : (0 =? 0) = true) by reflexivity.
    specialize (H2 Hzero). revert H2. apply float_neq; vm_compute; reflexivity.
Qed.

(** C1, amended. Every Metric the LCOV, Istanbul, Clover and JaCoCo parsers
    build, per file or in the summary, has its percentage equal to
    [covered / total * 100] when [total > 0] and to 100 when [total = 0]; so
    has every per-file Metric of the Cobertura parser, the functions metric
    of its summary, and its whole summary when the root's [lines-valid] is
    not above 0.  When it is above 0, the statements, lines and branches
    metrics of the Cobertura summary hold the root's counts and the root's
    rate times 100, which is never NaN. *)
Theorem parsers_metric_invariant :
  (forall lcovParse_source content c,
     LcovParser.parse lcovParse_source content = Ok c -> coverage_inv c) /\
  (forall JSON_parse content c,
     IstanbulParser.parse JSON_parse content = Ok c -> coverage_inv c) /\
  (forall XMLParser_parse content c,
     CloverParser.parse XMLParser_parse content = Ok c -> coverage_inv c) /\
  (forall XMLParser_parse content c,
     JacocoParser.parse XMLParser_parse content = Ok c -> coverage_inv c) /\
  (forall XMLParser_parse content c,
     CoberturaParser.parse XMLParser_parse content = Ok c ->
     exists coverage,
       XMLParser_parse content = Ok {| CoberturaParser.CoberturaXml.coverage := Some coverage |} /\
       Forall file_inv (NormalizedCoverage.files c) /\
       metric_inv (CoverageSummary.functions (NormalizedCoverage.summary c)) /\
       ((0 <? root_lines_valid coverage) = false ->
        summary_inv (NormalizedCoverage.summary c)) /\
       ((0 <? root_lines_valid coverage) = true ->
        CoverageSummary.statements (NormalizedCoverage.summary c) = root_lines coverage /\
        CoverageSummary.lines (NormalizedCoverage.summary c) = root_lines coverage /\
        CoverageSummary.branches (NormalizedCoverage.summary c) = root_branches coverage /\
        isNaN (CoverageMetric.percentage (root_lines coverage)) = false /\
        isNaN (CoverageMetric.percentage (root_branches coverage)) = false)).
Proof.
  split; [exact lcov_inv|]. split; [exact istanbul_inv|].
  split; [exact clover_inv|]. split; [exact jacoco_inv|].
  intros parse content c. unfold CoberturaParser.parse.
  destruct (parse content) as [[[coverage|]]|]; try discriminate.
  unfold CoberturaParser.parse_data. cbn [CoberturaParser.CoberturaXml.coverage].
  intros H. inversion H; subst c; clear H. exists coverage.
  cbn [NormalizedCoverage.files NormalizedCoverage.summary].
  split; [reflexivity|]. split; [apply Forall_map_inv, cobertura_parseClass_inv|].
  unfold CoberturaParser.calculateSummary, root_lines_valid.
  destruct (0 <? parseInt _); cbn [CoverageSummary.functions].
  - split; [apply percent_inv|]. split; [discriminate|]. intros _.
    repeat split; apply mul_100_not_nan, num_or_0_not_nan.
  - split; [apply percent_inv|]. split; [|discriminate].
    intros _. repeat split; apply percent_inv.
Qed.

Lemma parsers_metric_invariant_witness :
  coverage_inv
    {| NormalizedCoverage.format := jacoco;
       NormalizedCoverage.summary := JacocoParser.aggregateSummary
         [JacocoParser.parseSourceFile sample_source_file "com/example/Calculator.java"];
       NormalizedCoverage.files :=
         [JacocoParser.parseSourceFile sample_source_file "com/example/Calculator.java"] |}.
Proof.
  destruct parsers_metric_invariant as (_ & _ & _ & Hj & _).
  apply (Hj (fun _ =>
               Ok {| JacocoParser.JacocoXml.report :=
                       Some {| JacocoParser.Report.name := "demo";
                               JacocoParser.Report.package :=
                                 Some (One {| JacocoParser.JacocoPackage.name := "com/example";
                                              JacocoParser.JacocoPackage.sourcefile :=
                                                Some (One sample_source_file);
                                              JacocoParser.JacocoPackage.counter := None |});
                               JacocoParser.Report.counter := None |} |}) "").
  reflexivity.
Defined.

End Invariant.

(** * Format detection *)

Section Detection.
Import Detect.
Variable JSON_parse : string -> result json.

Lemma json_block_shaped (content : string) :
  json_block JSON_parse content = if istanbul_shaped JSON_parse content then Some istanbul else None.
Proof.
  unfold json_block, istanbul_shaped.
  destruct (JSON_parse content) as [[|b|n|s|l|o]|]; try reflexivity;
    [ destruct s; reflexivity
    | destruct l as [|first l]; [reflexivity|]
    | destruct o as [|[k first] o]; [reflexivity|] ];
    (destruct first as [|b|n|s|l'|o']; cbn; unfold has_key;
     rewrite ?andb_false_r; try reflexivity;
     first [ destruct b; reflexivity
           | destruct s; reflexivity
           | destruct (_ || _); reflexivity ]).
Qed.

Lemma is_space_blank (c : ascii) : is_space c = blank c.
Proof. destruct c as [[] [] [] [] [] [] [] []]; reflexivity. Qed.

Lemma trimStart_skip_blanks (s : string) : trimStart s = skip_blanks s.
Proof.
  induction s as [|c s IH]; simpl; [reflexivity|]. now rewrite is_space_blank, IH.
Qed.

Lemma skip_blanks_head (s : string) (c : ascii) (t : string) :
  skip_blanks s = String c t -> blank c = false.
Proof.
  induction s as [|d s IH]; simpl; [discriminate|].
  destruct (blank d) eqn:E; [exact IH|]. intros [= <- _]. exact E.
Qed.

Lemma string_app_assoc (a b c : string) : ((a ++ b) ++ c = a ++ (b ++ c))%string.
Proof. induction a as [|x a IH]; simpl; [reflexivity | now rewrite IH]. Qed.

Lemma rev_string_acc (acc s : string) :
  rev_string acc s = (rev_string "" s ++ acc)%string.
Proof.
  revert acc. induction s as [|c s IH]; intros acc; simpl; [reflexivity|].
  rewrite (IH (String c acc)), (IH (String c "")), string_app_assoc. reflexivity.
Qed.

Lemma rev_string_app (acc a b : string) :
  rev_string acc (a ++ b) = rev_string (rev_string acc a) b.
Proof. revert acc. induction a as [|x a IH]; intros acc; simpl; [reflexivity | apply IH]. Qed.

Lemma skip_blanks_last (x : string) (c : ascii) :
  blank c = false ->
  exists y : string, skip_blanks (x ++ String c "") = (y ++ String c "")%string.
Proof.
  intros Hc. induction x as [|d x IH]; simpl.
  - rewrite Hc. exists "". reflexivity.
  - destruct (blank d); [exact IH|]. exists (String d x). reflexivity.
Qed.

(** Trimming keeps a first character that is not white space. *)
Lemma trimEnd_head (c : ascii) (t : string) :
  blank c = false -> exists t' : string, trimEnd (String c t) = String c t'.
Proof.
  intros Hc. unfold trimEnd. cbn [rev_string].
  rewrite (rev_string_acc (String c "") t), trimStart_skip_blanks.
  destruct (skip_blanks_last (rev_string "" t) c Hc) as [y ->].
  rewrite rev_string_app. cbn [rev_string]. eexists. reflexivity.
Qed.

Lemma trim_opens_a_tag (content : string) :
  startsWith (trim content) "<" = opens_a_tag content.
Proof.
  unfold trim, opens_a_tag. rewrite trimStart_skip_blanks.
  destruct (skip_blanks content) as [|c t] eqn:E; [reflexivity|].
  destruct (trimEnd_head c t (skip_blanks_head _ _ _ E)) as [t' ->].
  unfold startsWith. cbn [String.prefix].
  destruct (ascii_dec "<" c) as [<-|Hne]; [destruct t'; reflexivity|].
  symmetry. apply Ascii.eqb_neq. congruence.
Qed.

Lemma first_match_none (rules : list (bool * CoverageFormat)) :
  first_match rules = None <-> Forall (fun rule => fst rule = false) rules.
Proof.
  induction rules as [|[[|] fmt] rules IH]; simpl.
  - split; [constructor | reflexivity].
  - split; [discriminate | intros H; inversion H; discriminate].
  - rewrite IH. split; [intros H; constructor; [reflexivity | exact H]
                       | intros H; inversion H; assumption].
Qed.

(** C5, amended. [detectFormat] returns the format of the first rule that
    matches, in the order: extension [.info] or [.lcov] (LCOV); extension
    [.json] with JSON whose first value is a mapping with the key
    [statementMap] or [s] (a parse failure or another shape matches nothing
    and raises nothing); content that has [<?xml] somewhere or, after
    trimming, starts with [<], with the Cobertura, then the Clover, then the
    JaCoCo markers; the LCOV markers [SF:] and [LF:] or [DA:].  It fails,
    with the UnrecognizedFormat message, exactly when no rule matches.  The
    rules as the specification states them (rule 3 for content that begins
    with [<?xml]) select the same whenever [<?xml] occurs at the start of the
    content or not at all. *)
Theorem detectFormat_first_match content filename :
  detectFormat JSON_parse content filename =
    match first_match (detection_rules JSON_parse content filename) with
    | Some fmt => Ok fmt
    | None => Err noFormat
    end /\
  (detectFormat JSON_parse content filename = Err noFormat <->
   Forall (fun rule => fst rule = false) (detection_rules JSON_parse content filename)) /\
  (forall message, detectFormat JSON_parse content filename = Err message ->
                   error_kind message = Some UnrecognizedFormat) /\
  (includes content "<?xml" = String.prefix "<?xml" content ->
   detection_rules JSON_parse content filename = stated_rules JSON_parse content filename).
Proof.
  assert (H : detectFormat JSON_parse content filename =
              match first_match (detection_rules JSON_parse content filename) with
              | Some fmt => Ok fmt
              | None => Err noFormat
              end).
  { unfold detectFormat, detection_rules, rules_with, xml_block. cbn zeta.
    rewrite trim_opens_a_tag. fold (xml_looking content). rewrite json_block_shaped.
    destruct (endsWith (toLowerCase filename) ".info" || endsWith (toLowerCase filename) ".lcov");
      [reflexivity|].
    destruct (endsWith (toLowerCase filename) ".json"); cbn [andb first_match];
      [destruct (istanbul_shaped JSON_parse content); [reflexivity|]|];
      (destruct (xml_looking content); cbn [andb first_match];
       [ destruct (includes content "<coverage" && includes content "line-rate");
           [reflexivity|];
         destruct ((includes content "<coverage" && includes content "clover")
                   || includes content "<project"); [reflexivity|];
         destruct (includes content "<report" && includes content "<counter");
           [reflexivity|]
       | ];
       destruct (includes content "SF:" && (includes content "LF:" || includes content "DA:"));
       reflexivity). }
  split; [exact H|]. split; [|split].
  - rewrite H, <- first_match_none.
    destruct (first_match (detection_rules JSON_parse content filename)); split; congruence.
  - rewrite H. destruct (first_match (detection_rules JSON_parse content filename)); [discriminate|].
    intros message E. inversion E. reflexivity.
  - intros E. unfold detection_rules, stated_rules, xml_looking, begins_as_xml.
    now rewrite E.
Qed.

End Detection.

Lemma detectFormat_first_match_witness :
  Detect.detectFormat parse_fails "<?xml version='1.0'?><coverage line-rate='1'>" "LCOV.INFO"
    = Ok lcov /\
  Detect.detectFormat parse_istanbul_json "{...}" "coverage-final.json" = Ok istanbul /\
  Detect.detectFormat parse_fails
    "<?xml version='1.0'?><coverage line-rate='0.75' clover='no'><project/></coverage>"
    "coverage.xml" = Ok cobertura /\
  Detect.detectFormat parse_fails "  <coverage generated='1' clover='3.2.0'></coverage>"
    "clover.xml" = Ok clover /\
  Detect.detectFormat parse_fails
    (String "160" (String "010" "  <report name='x'><counter type='LINE'/></report>"))
    "report.json" = Ok jacoco /\
  Detect.detectFormat parse_fails "TN: SF:src/a.ts DA:1,1 LF:1 LH:1 end_of_record" "coverage.txt"
    = Ok lcov /\
  Detect.detectFormat parse_fails "hello" "notes.txt" = Err Detect.noFormat.
Proof.
  refine (conj _ (conj _ (conj _ (conj _ (conj _ (conj _ _)))))).
  1-6: rewrite (proj1 (detectFormat_first_match _ _ _)); reflexivity.
  apply (proj1 (proj2 (detectFormat_first_match parse_fails "hello" "notes.txt"))).
  repeat constructor.
Defined.

(** C5 with rule 3 as the specification states it fails: this content does
    not begin with [<?xml] and does not start with [<], so no stated rule
    matches it, and [detectFormat] returns JaCoCo for it because [<?xml]
    occurs further in. *)
Lemma detectFormat_xml_declaration_inside :
  Detect.detectFormat parse_fails "report: <?xml?> <report> <counter/>" "out.txt" = Ok jacoco /\
  first_match (stated_rules parse_fails "report: <?xml?> <report> <counter/>" "out.txt") = None.
Proof. split; reflexivity. Qed.

(** * Scenarios of the specification and of the test suite *)

Section Scenarios.

Example detect_lcov_by_extension :
  Detect.detectFormat parse_fails "<?xml version='1.0'?><coverage line-rate='1'>" "LCOV.INFO"
  = Ok lcov.
Proof. reflexivity. Qed.

Example detect_lcov_by_content :
  Detect.detectFormat parse_fails "TN: SF:src/a.ts DA:1,1 LF:1 LH:1 end_of_record" "coverage.txt"
  = Ok lcov.
Proof. reflexivity. Qed.

Example detect_istanbul :
  Detect.detectFormat parse_istanbul_json "{...}" "coverage-final.json" = Ok istanbul.
Proof. reflexivity. Qed.

Example detect_json_falls_through :
  Detect.detectFormat parse_fails "<report name='x'><counter type='LINE'/></report>" "report.json"
  = Ok jacoco.
Proof. reflexivity. Qed.

Example detect_cobertura_before_clover :
  Detect.detectFormat parse_fails
    "<?xml version='1.0'?><coverage line-rate='0.75' clover='no'><project/></coverage>"
    "coverage.xml" = Ok cobertura.
Proof. reflexivity. Qed.

Example detect_clover :
  Detect.detectFormat parse_fails "  <coverage generated='1' clover='3.2.0'></coverage>"
    "clover.xml" = Ok clover.
Proof. reflexivity. Qed.

Example detect_xml_declaration_anywhere :
  Detect.detectFormat parse_fails "report: <?xml?> <report> <counter/>" "out.txt" = Ok jacoco.
Proof. reflexivity. Qed.

Example detect_nothing :
  Detect.detectFormat parse_fails "hello" "notes.txt" = Err Detect.noFormat.
Proof. reflexivity. Qed.

Example lcov_two_records :
  exists c,
    LcovParser.on_source None (Some [lcov_record "src/a.ts" 3 3; lcov_record "src/b.ts" 2 1])
    = Ok c /\
    CoverageSummary.lines (NormalizedCoverage.summary c) =
      {| CoverageMetric.total := 5; CoverageMetric.covered := 4;
         CoverageMetric.percentage := 80 |} /\
    List.length (NormalizedCoverage.files c) = 2%nat.
Proof. eexists. split; [reflexivity|]. split; reflexivity. Qed.

Example istanbul_three_statements :
  IstanbulParser.calculateStatements sample_file =
  {| CoverageMetric.total := 3; CoverageMetric.covered := 2;
     CoverageMetric.percentage := 2 / 3 * 100 |} /\
  IstanbulParser.calculateLines sample_file =
  {| CoverageMetric.total := 5; CoverageMetric.covered := 2;
     CoverageMetric.percentage := 40 |}.
Proof. split; vm_compute; reflexivity. Qed.

(** [calculateStatements] counts the entries of [s] without looking their
    keys up in [statementMap]: a hit under a stray key is counted. *)
Example istanbul_stray_hit :
  IstanbulParser.calculateStatements stray_hit_file =
  {| CoverageMetric.total := 1; CoverageMetric.covered := 2;
     CoverageMetric.percentage := 200 |}.
Proof. vm_compute. reflexivity. Qed.

(** The delta is the rounded difference of two doubles: the doubles nearest
    to 50.1 and to 50 differ by more than the double nearest to 0.1, those
    nearest to 80.1 and to 80 by less. *)
Example compareFiles_rounded_delta :
  map FileComparison.path
    (Compare.compareFiles
       (coverage_of [file_at "a.ts" (parseFloat "50.1"); file_at "b.ts" (parseFloat "80.1")])
       (coverage_of [file_at "a.ts" 50; file_at "b.ts" 80]) 1) = ["a.ts"].
Proof. vm_compute. reflexivity. Qed.

Example compareFiles_noise_floor :
  Compare.compareFiles (coverage_of current_files) (coverage_of baseline_files) 1 =
  [ {| FileComparison.path := "c.ts"; FileComparison.linesDelta := -40;
       FileComparison.status := regressed |};
    {| FileComparison.path := "b.ts"; FileComparison.linesDelta := eleven_hundredths;
       FileComparison.status := improved |} ].
Proof. vm_compute. reflexivity. Qed.

End Scenarios.

(** * Further facts about binary64 arithmetic *)

Section MoreFloatFacts.

Lemma SFsub_diag (a : spec_float) :
  SFsub prec emax a a = S754_zero false \/ SFsub prec emax a a = S754_nan.
Proof.
  destruct a as [[|]|[|]| |s m e]; cbn [SFsub]; auto.
  left. rewrite Z.sub_diag. reflexivity.
Qed.

Lemma binary_normalize_neg (D e : Z) :
  (emin <= e)%Z ->
  SFltb (binary_normalize prec emax D e false) (S754_zero false) = (D <? 0)%Z.
Proof.
  intros He. destruct D as [|p|p]; cbn [binary_normalize].
  - reflexivity.
  - pose proof (binary_round_signed false p e He) as H.
    destruct (binary_round prec emax false p e) as [?|?| |? ? ?]; cbn in H;
      try contradiction; subst; reflexivity.
  - pose proof (binary_round_signed true p e He) as H.
    destruct (binary_round prec emax true p e) as [?|?| |? ? ?]; cbn in H;
      try contradiction; subst; reflexivity.
Qed.

Lemma SFsub_neg_finite (sa sb : bool) (ma mb : positive) (ea eb : Z) :
  bounded prec emax ma ea = true -> bounded prec emax mb eb = true ->
  SFltb (SFsub prec emax (S754_finite sa ma ea) (S754_finite sb mb eb)) (S754_zero false) =
  SFltb (S754_finite sa ma ea) (S754_finite sb mb eb).
Proof.
  intros Ha Hb. unfold bounded in Ha, Hb.
  apply andb_true_iff in Ha, Hb. destruct Ha as [Ha _], Hb as [Hb _].
  pose proof (canonical_bounds _ _ Ha) as (Hea & _).
  pose proof (canonical_bounds _ _ Hb) as (Heb & _).
  cbn [SFsub]. rewrite binary_normalize_neg by lia.
  pose proof (aligned_compare ma mb ea eb Ha Hb) as Hc.
  set (X := Z.pos (fst (shl_align ma ea (Z.min ea eb)))) in *.
  set (Y := Z.pos (fst (shl_align mb eb (Z.min ea eb)))) in *.
  assert (HX : (0 < X)%Z) by (unfold X; lia).
  assert (HY : (0 < Y)%Z) by (unfold Y; lia).
  unfold SFltb. cbn [SFcompare].
  change (Pos.compare_cont Eq ma mb) with (Pos.compare ma mb) in *.
  destruct sa, sb; cbn [cond_Zopp].
  - destruct (Z.ltb_spec (- X - - Y) 0); destruct (Z.compare_spec X Y) as [H'|H'|H'];
      try lia;
      destruct (ea ?= eb)%Z; cbn in Hc |- *; try discriminate;
      destruct (Pos.compare ma mb); cbn in Hc |- *; try discriminate; reflexivity.
  - apply Z.ltb_lt. lia.
  - apply Z.ltb_ge. lia.
  - destruct (Z.ltb_spec (X - Y) 0); destruct (Z.compare_spec X Y) as [H'|H'|H'];
      try lia;
      destruct (ea ?= eb)%Z; cbn in Hc |- *; try discriminate;
      destruct (Pos.compare ma mb); cbn in Hc |- *; try discriminate; reflexivity.
Qed.

Lemma SFsub_neg (a b : spec_float) :
  valid_binary a = true -> valid_binary b = true ->
  SFltb (SFsub prec emax a b) (S754_zero false) = SFltb a b.
Proof.
  intros Ha Hb.
  destruct a as [sa|sa| |sa ma ea], b as [sb|sb| |sb mb eb];
    try (now apply SFsub_neg_finite);
    repeat match goal with s : bool |- _ => destruct s end; reflexivity.
Qed.


Lemma SFltb_asym (x y : spec_float) : SFltb x y = true -> SFltb y x = false.
Proof. unfold SFltb. sf_cases; intros; sf_cmp. Qed.

End MoreFloatFacts.

(** [x - y < 0] exactly when [x < y]. *)
Lemma sub_neg_ltb (x y : float) : (x - y <? 0) = (x <? y).
Proof.
  rewrite !ltb_spec, sub_spec. change (Prim2SF 0) with (S754_zero false).
  apply SFsub_neg; apply Prim2SF_valid.
Qed.

(** [x - x] is 0 or NaN: it is not positive, not below [-t] for [0 <= t], and
    not farther from 0 than a [c] that is not negative. *)
Lemma sub_diag_unchanged (x t : float) :
  (0 <=? t) = true ->
  (0 <? x - x) = false /\ (x - x <? - t) = false /\ (t <? abs (x - x)) = false.
Proof.
  rewrite leb_spec, !ltb_spec, abs_spec, opp_spec, sub_spec. unfold SF64sub.
  change (Prim2SF 0) with (S754_zero false).
  destruct (SFsub_diag (Prim2SF x)) as [-> | ->];
    destruct (Prim2SF t) as [[|]|[|]| |[|] ? ?]; cbn; intros; try discriminate; auto.
Qed.

Lemma sub_diag_zero_or_nan (x : float) : (x - x =? 0) = true \/ isNaN (x - x) = true.
Proof.
  unfold isNaN. rewrite !eqb_spec, sub_spec. unfold SF64sub.
  change (Prim2SF 0) with (S754_zero false).
  destruct (SFsub_diag (Prim2SF x)) as [-> | ->]; [left | right]; reflexivity.
Qed.


Lemma ltb_asym (x y : float) : (x <? y) = true -> (y <? x) = false.
Proof. rewrite !ltb_spec. apply SFltb_asym. Qed.


Lemma ltb_zero_opp_zero (d : float) : (d <? - 0) = (d <? 0).
Proof.
  rewrite !ltb_spec. change (Prim2SF (- 0)) with (S754_zero true).
  change (Prim2SF 0) with (S754_zero false).
  unfold SFltb. destruct (Prim2SF d) as [[|]|[|]| |[|] ? ?]; reflexivity.
Qed.

Lemma ltb_opp_neg (d t : float) :
  (0 <=? t) = true -> (d <? - t) = true -> (d <? 0) = true.
Proof.
  rewrite leb_spec, !ltb_spec, opp_spec. change (Prim2SF 0) with (S754_zero false).
  unfold SFltb, SFleb.
  destruct (Prim2SF d) as [[|]|[|]| |[|] ? ?], (Prim2SF t) as [[|]|[|]| |[|] ? ?];
    simpl; congruence.
Qed.

(** * More on the comparator *)

Section ComparatorExtras.
Import Compare.

Lemma flat_map_nil {A B : Type} (f : A -> list B) (l : list A) :
  (forall x, f x = []) -> flat_map f l = [].
Proof. intros H. induction l as [|x l IH]; simpl; [reflexivity|]. now rewrite H, IH. Qed.

Lemma compareFiles_unfold current baseline threshold :
  compareFiles current baseline threshold =
  Array_sort by_delta
    (flat_map
       (compare_path
          (Map_of (map (fun f => (FileCoverage.path f, f)) (NormalizedCoverage.files baseline)))
          (Map_of (map (fun f => (FileCoverage.path f, f)) (NormalizedCoverage.files current)))
          threshold [])
       (Set_of
          (Object_keys
             (Map_of (map (fun f => (FileCoverage.path f, f))
                        (NormalizedCoverage.files baseline))) ++
           Object_keys
             (Map_of (map (fun f => (FileCoverage.path f, f))
                        (NormalizedCoverage.files current)))))).
Proof. unfold compareFiles. rewrite compare_fold. reflexivity. Qed.

Lemma compareMetric_self metric m threshold :
  (0 <=? threshold) = true ->
  MetricComparison.status (compareMetric metric m m threshold) = unchanged /\
  ((MetricComparison.delta (compareMetric metric m m threshold) =? 0) = true \/
   isNaN (MetricComparison.delta (compareMetric metric m m threshold)) = true).
Proof.
  intros Ht. unfold compareMetric. cbn [MetricComparison.status MetricComparison.delta].
  destruct (sub_diag_unchanged (CoverageMetric.percentage m) threshold Ht) as (H1 & H2 & _).
  rewrite H1, H2. split; [reflexivity | apply sub_diag_zero_or_nan].
Qed.

(** X1. Comparing a snapshot with itself, at a threshold that is not
    negative: every metric comparison is [unchanged] with a delta that is 0
    (or NaN, when the percentage itself is NaN or infinite), the overall
    status is [unchanged], and no file is listed. *)
Theorem compareCoverage_self coverage threshold :
  (0 <=? threshold) = true ->
  let r := compareCoverage coverage coverage threshold in
  Forall (fun m =>
            MetricComparison.status m = unchanged /\
            ((MetricComparison.delta m =? 0) = true \/ isNaN (MetricComparison.delta m) = true))
    (CoverageComparison.metrics r) /\
  CoverageComparison.overallStatus r = unchanged /\
  CoverageComparison.files r = [].
Proof.
  intros Ht. cbn zeta. unfold compareCoverage.
  cbn [CoverageComparison.metrics CoverageComparison.overallStatus CoverageComparison.files].
  split; [|split].
  - repeat (apply Forall_cons; [apply compareMetric_self; exact Ht|]). apply Forall_nil.
  - unfold determineOverallStatus. cbn [existsb].
    rewrite !(proj1 (compareMetric_self _ _ _ Ht)). reflexivity.
  - rewrite compareFiles_unfold. rewrite flat_map_nil; [reflexivity|].
    intros p. unfold compare_path.
    destruct (Object_get _ p) as [f|]; [|reflexivity].
    assert (Hn : (0 <=? noise_floor) = true) by reflexivity.
    destruct (sub_diag_unchanged
                (CoverageMetric.percentage (FileCoverage.lines f)) noise_floor Hn)
      as (_ & _ & H).
    rewrite H. reflexivity.
Qed.

Lemma compareCoverage_self_witness :
  CoverageComparison.overallStatus
    (compareCoverage (coverage_of current_files) (coverage_of current_files) 1) = unchanged /\
  CoverageComparison.files
    (compareCoverage (coverage_of current_files) (coverage_of current_files) 1) = [].
Proof.
  destruct (compareCoverage_self (coverage_of current_files) 1 eq_refl) as (_ & H1 & H2).
  split; assumption.
Defined.

(** X2. A change that counts as regressed in one direction counts as
    improved in the other, at any threshold that is not negative; at
    threshold 0 the two are equivalent. *)
Theorem compareMetric_reverse metric a b threshold :
  (0 <=? threshold) = true ->
  (MetricComparison.status (compareMetric metric b a threshold) = regressed ->
   MetricComparison.status (compareMetric metric a b threshold) = improved) /\
  (MetricComparison.status (compareMetric metric a b 0) = improved <->
   MetricComparison.status (compareMetric metric b a 0) = regressed).
Proof.
  intros Ht. unfold compareMetric. cbn [MetricComparison.status].
  set (pa := CoverageMetric.percentage a). set (pb := CoverageMetric.percentage b).
  rewrite !sub_pos_ltb, !ltb_zero_opp_zero, !sub_neg_ltb. split.
  - destruct (pb <? pa) eqn:E1; [discriminate|].
    destruct (pa - pb <? - threshold) eqn:E2; [|discriminate]. intros _.
    pose proof (ltb_opp_neg _ _ Ht E2) as E3. rewrite sub_neg_ltb in E3.
    rewrite E3. reflexivity.
  - destruct (pa <? pb) eqn:E1.
    + rewrite (ltb_asym _ _ E1). split; reflexivity.
    + destruct (pb <? pa); split; discriminate.
Qed.

Lemma compareMetric_reverse_witness :
  MetricComparison.status (compareMetric Lines (metric_of 78) (metric_of 80) 1) = improved.
Proof.
  apply (proj1 (compareMetric_reverse Lines (metric_of 78) (metric_of 80) 1 eq_refl)).
  reflexivity.
Defined.





End ComparatorExtras.

Section OutcomeOfARun.
Import Compare.

Lemma exit_code_cases comparison inputs steps :
  Report.exit_code comparison inputs steps =
  if steps_return inputs steps
  then (if shouldFail comparison inputs then 1%Z else 0%Z)
  else 1%Z.
Proof.
  unfold Report.exit_code, steps_return, Report.when, returns.
  destruct (Report.Steps.writeReport steps); [|reflexivity].
  destruct (ActionInputs.uploadResults inputs);
    [destruct (Report.Steps.uploadResults steps); [|reflexivity]|];
    (destruct (Report.Steps.setOutput steps); [|reflexivity];
     destruct (ActionInputs.summary inputs);
       [destruct (Report.Steps.generateSummary steps); [|reflexivity]|];
       (destruct (ActionInputs.comment inputs);
          [destruct (Report.Steps.postPRComment steps); reflexivity | reflexivity])).
Qed.

(** X4. What [run] reports once it has compared two snapshots: the result
    is [fail] exactly when one of the four summary metrics regressed;
    [shouldFail] holds exactly when, in addition, [failOnRegression] is
    set; the exit code is 0 exactly when every enabled step after the
    comparison (writing the report, uploading, setting the outputs, the
    summary, the comment) returns and [shouldFail] is false, and 1 otherwise,
    so also without a regression when one of those steps throws; each delta
    output is the current percentage of its metric minus the baseline one
    (the default 0 of the lookup is never used). *)
Theorem run_outcome current baseline threshold inputs steps :
  let r := compareCoverage current baseline threshold in
  (Report.result_of r = Report.fail <->
   Exists (fun m => MetricComparison.status m = regressed) (CoverageComparison.metrics r)) /\
  (shouldFail r inputs = true <->
   ActionInputs.failOnRegression inputs = true /\ Report.result_of r = Report.fail) /\
  (Report.exit_code r inputs steps = 0%Z <->
   steps_return inputs steps = true /\ shouldFail r inputs = false) /\
  (Report.exit_code r inputs steps = 1%Z <->
   steps_return inputs steps = false \/ shouldFail r inputs = true) /\
  (forall name,
     Report.delta_output r name =
     CoverageMetric.percentage (summary_metric name (NormalizedCoverage.summary current))
     - CoverageMetric.percentage (summary_metric name (NormalizedCoverage.summary baseline))).
Proof.
  cbn zeta. split; [|split; [|split; [|split]]].
  - unfold Report.result_of, compareCoverage.
    cbn [CoverageComparison.overallStatus CoverageComparison.metrics].
    rewrite <- existsb_status. unfold determineOverallStatus.
    destruct (existsb (fun m => status_eqb (MetricComparison.status m) regressed) _).
    + split; reflexivity.
    + destruct (existsb _ _); split; discriminate.
  - unfold shouldFail, Report.result_of.
    destruct (ActionInputs.failOnRegression inputs); cbn [negb].
    + destruct (CoverageComparison.overallStatus _); cbn [status_eqb];
        split; try discriminate; try (intros [_ H]; discriminate H); auto.
    + split; [discriminate | intros [H _]; discriminate H].
  - rewrite exit_code_cases.
    destruct (steps_return inputs steps), (shouldFail _ inputs); split;
      try discriminate; auto; intros [H1 H2]; discriminate.
  - rewrite exit_code_cases.
    destruct (steps_return inputs steps), (shouldFail _ inputs); split;
      try discriminate; auto; intros [H | H]; discriminate.
  - intros name. unfold Report.delta_output, compareCoverage.
    cbn [CoverageComparison.metrics]. destruct name; reflexivity.
Qed.

Lemma sort_insert_map {A B : Type} (f : A -> B) (cmp : A -> A -> number)
    (cmp' : B -> B -> number) (x : A) (l : list A) :
  (forall a b, cmp a b = cmp' (f a) (f b)) ->
  map f (sort_insert cmp x l) = sort_insert cmp' (f x) (map f l).
Proof.
  intros H. induction l as [|y l IH]; simpl; [reflexivity|].
  rewrite <- H. destruct (PrimFloat.ltb 0 (cmp y x)); simpl; [reflexivity|].
  now rewrite IH.
Qed.

Lemma Array_sort_map {A B : Type} (f : A -> B) (cmp : A -> A -> number)
    (cmp' : B -> B -> number) (l : list A) :
  (forall a b, cmp a b = cmp' (f a) (f b)) ->
  map f (Array_sort cmp l) = Array_sort cmp' (map f l).
Proof.
  intros H. unfold Array_sort. change (@nil B) with (map f []).
  generalize (@nil A) as acc. induction l as [|x l IH]; intros acc; simpl; [reflexivity|].
  rewrite IH, (sort_insert_map f cmp cmp' x acc H). reflexivity.
Qed.

Lemma compare_path_threshold B C t1 t2 ps :
  map path_and_delta (flat_map (compare_path B C t1 []) ps) =
  map path_and_delta (flat_map (compare_path B C t2 []) ps).
Proof.
  induction ps as [|p ps IH]; simpl; [reflexivity|].
  rewrite !map_app, IH. f_equal. unfold compare_path.
  destruct (Object_get B p); [|reflexivity].
  destruct (Object_get C p); [|reflexivity].
  destruct (noise_floor <? _); reflexivity.
Qed.

(** X5. The threshold decides the status of a listed file and nothing else:
    which files are listed, their deltas and their order are the same at
    every threshold. *)
Theorem compareFiles_threshold_only_status current baseline t1 t2 :
  map path_and_delta (compareFiles current baseline t1) =
  map path_and_delta (compareFiles current baseline t2).
Proof.
  rewrite !compareFiles_unfold.
  rewrite !(Array_sort_map path_and_delta by_delta (fun a b => snd a - snd b))
    by reflexivity.
  now rewrite (compare_path_threshold _ _ t1 t2).
Qed.

End OutcomeOfARun.

(** * More on the parsers *)

Lemma sum_by_map {A B : Type} (f : A -> B) (g : B -> number) (l : list A) :
  sum_by g (map f l) = sum_by (fun x => g (f x)) l.
Proof.
  unfold sum_by. generalize 0%float as acc.
  induction l as [|x l IH]; intros acc; simpl; [reflexivity | apply IH].
Qed.

Lemma sum_by_ext {A : Type} (g g' : A -> number) (l : list A) :
  Forall (fun x => g x = g' x) l -> sum_by g l = sum_by g' l.
Proof.
  intros H. unfold sum_by. generalize 0%float as acc.
  induction H as [|x l Hx _ IH]; intros acc; simpl; [reflexivity|].
  rewrite Hx. apply IH.
Qed.

Lemma on_source_ok err data c :
  LcovParser.on_source err data = Ok c ->
  exists records,
    data = Some records /\ records <> [] /\
    c = {| NormalizedCoverage.format := lcov;
           NormalizedCoverage.summary := LcovParser.calculateSummary records;
           NormalizedCoverage.files := map LcovParser.file_coverage records |}.
Proof.
  unfold LcovParser.on_source.
  destruct err as [[|ch e]|]; try discriminate;
    (destruct data as [[|file data]|]; try discriminate;
     intros [= <-]; exists (file :: data); repeat split; discriminate).
Qed.

Section ParserExtras.
Variable lcovParse_source : string -> option string * option (list LcovParser.LcovFile.t).
Variable JSON_parse : string -> result json.
Variable JSON_parse_istanbul : string -> result IstanbulParser.IstanbulCoverage.
Variable XMLParser_parse_cobertura : string -> result CoberturaParser.CoberturaXml.t.
Variable XMLParser_parse_clover : string -> result CloverParser.CloverXml.t.
Variable XMLParser_parse_jacoco : string -> result JacocoParser.JacocoXml.t.

Local Abbreviation parsers :=
  (Registry.parsers lcovParse_source JSON_parse JSON_parse_istanbul
     XMLParser_parse_cobertura XMLParser_parse_clover XMLParser_parse_jacoco).
Local Abbreviation parseCoverage :=
  (Registry.parseCoverage lcovParse_source JSON_parse JSON_parse_istanbul
     XMLParser_parse_cobertura XMLParser_parse_clover XMLParser_parse_jacoco).

(** X6. In a snapshot parsed from LCOV or from Istanbul JSON the summary is
    consistent with the files: for each of the four metrics its total and
    its covered count are the sums of those of the listed files. *)
Theorem summary_sums_files format content c :
  format = lcov \/ format = istanbul ->
  Registry.parse (parsers format) content = Ok c ->
  summed_from_files c.
Proof.
  intros [-> | ->]; cbn [Registry.parsers Registry.parse Registry.lcovParser
                           Registry.istanbulParser].
  - unfold LcovParser.parse. destruct (lcovParse_source content) as [err data].
    intros H. apply on_source_ok in H. destruct H as (records & _ & _ & ->). intros m.
    cbn [NormalizedCoverage.summary NormalizedCoverage.files].
    unfold LcovParser.calculateSummary. rewrite !sum_by_map.
    destruct m; split; reflexivity.
  - unfold IstanbulParser.parse. destruct (JSON_parse_istanbul content) as [data|]; [|discriminate].
    destruct (Nat.eqb _ 0); [discriminate|].
    intros [= <-]; intros m. destruct m; split; reflexivity.
Qed.

Lemma clover_parseFile_lines file :
  FileCoverage.statements (CloverParser.parseFile file) =
  FileCoverage.lines (CloverParser.parseFile file).
Proof. unfold CloverParser.parseFile. destruct (CloverParser.CloverFile.metrics file); reflexivity. Qed.

Lemma aggregate_lines_as_statements (files : list FileCoverage.t) :
  Forall (fun f => FileCoverage.statements f = FileCoverage.lines f) files ->
  sum_by (fun f => CoverageMetric.total (file_metric Statements f)) files =
    sum_by (fun f => CoverageMetric.total (file_metric Lines f)) files /\
  sum_by (fun f => CoverageMetric.covered (file_metric Statements f)) files =
    sum_by (fun f => CoverageMetric.covered (file_metric Lines f)) files.
Proof.
  intros H. split; apply sum_by_ext; (eapply Forall_impl; [|exact H]);
    intros f Hf; cbn [file_metric]; now rewrite Hf.
Qed.

(** X7. LCOV, Cobertura and Clover reports have no statement counts of their
    own: in a snapshot parsed from one of them the statements metric is the
    lines metric, in the summary and in every file, so a comparison of two
    such snapshots gives statements and lines the same delta and status. *)
Theorem statements_are_lines format content c :
  format = lcov \/ format = cobertura \/ format = clover ->
  Registry.parse (parsers format) content = Ok c ->
  lines_as_statements c /\
  forall content' c' threshold,
    Registry.parse (parsers format) content' = Ok c' ->
    let r := Compare.compareCoverage c c' threshold in
    Report.delta_output r Statements = Report.delta_output r Lines /\
    map MetricComparison.status
      (filter (fun m => Report.metric_name_eqb (MetricComparison.metric m) Statements)
         (CoverageComparison.metrics r)) =
    map MetricComparison.status
      (filter (fun m => Report.metric_name_eqb (MetricComparison.metric m) Lines)
         (CoverageComparison.metrics r)).
Proof.
  intros Hf.
  assert (Hall : forall content c,
             Registry.parse (parsers format) content = Ok c -> lines_as_statements c).
  { clear content c. intros content c.
    destruct Hf as [-> | [-> | ->]];
      cbn [Registry.parsers Registry.parse Registry.lcovParser Registry.coberturaParser
             Registry.cloverParser].
    - unfold LcovParser.parse. destruct (lcovParse_source content) as [err data].
      intros H. apply on_source_ok in H. destruct H as (records & _ & _ & ->).
      split; [reflexivity|].
      cbn [NormalizedCoverage.files]. apply Forall_forall. intros f Hin.
      apply in_map_iff in Hin. destruct Hin as (x & <- & _). reflexivity.
    - unfold CoberturaParser.parse.
      destruct (XMLParser_parse_cobertura content) as [data|]; [|discriminate].
      unfold CoberturaParser.parse_data.
      destruct (CoberturaParser.CoberturaXml.coverage data) as [coverage|]; [|discriminate].
      intros [= <-].
      assert (Hfiles : Forall (fun f => FileCoverage.statements f = FileCoverage.lines f)
                         (map CoberturaParser.parseClass (CoberturaParser.classes_of coverage))).
      { apply Forall_forall. intros f Hin. apply in_map_iff in Hin.
        destruct Hin as (x & <- & _). reflexivity. }
      split; [|exact Hfiles]. cbn [NormalizedCoverage.summary].
      unfold CoberturaParser.calculateSummary.
      destruct (0 <? _); cbn [CoverageSummary.statements CoverageSummary.lines];
        [reflexivity|].
      unfold CoberturaParser.aggregateMetric.
      destruct (aggregate_lines_as_statements _ Hfiles) as [-> ->]. reflexivity.
    - unfold CloverParser.parse.
      destruct (XMLParser_parse_clover content) as [data|]; [|discriminate].
      unfold CloverParser.parse_data.
      destruct (match CloverParser.CloverXml.coverage data with
                | Some _ => _ | None => _ end) as [project|]; [|discriminate].
      intros [= <-].
      match goal with
      | |- lines_as_statements {| NormalizedCoverage.files := ?fs |} =>
          assert (Hfiles : Forall (fun f => FileCoverage.statements f = FileCoverage.lines f) fs)
      end.
      { apply Forall_forall. intros f Hin. apply in_app_or in Hin.
        destruct Hin as [Hin | Hin].
        - apply in_map_iff in Hin. destruct Hin as (x & <- & _).
          apply clover_parseFile_lines.
        - apply in_flat_map in Hin. destruct Hin as (pkg & _ & Hin).
          apply in_map_iff in Hin. destruct Hin as (x & <- & _).
          apply clover_parseFile_lines. }
      split; [|exact Hfiles]. cbn [NormalizedCoverage.summary].
      destruct (CloverParser.CloverProject.metrics project); [reflexivity|].
      unfold CloverParser.aggregateSummary, CloverParser.aggregate.
      cbn [CoverageSummary.statements CoverageSummary.lines].
      destruct (aggregate_lines_as_statements _ Hfiles) as [-> ->]. reflexivity. }
  intros Hc. split; [exact (Hall _ _ Hc)|].
  intros content' c' threshold Hc'. cbn zeta.
  destruct (Hall _ _ Hc) as [Hs _]. destruct (Hall _ _ Hc') as [Hs' _].
  unfold Report.delta_output, Compare.compareCoverage, Compare.compareMetric.
  cbn [CoverageComparison.metrics find filter map Report.metric_name_eqb
         MetricComparison.metric MetricComparison.delta MetricComparison.status].
  rewrite Hs, Hs'. split; reflexivity.
Qed.

End ParserExtras.

Lemma summary_sums_files_witness :
  summed_from_files
    {| NormalizedCoverage.format := lcov;
       NormalizedCoverage.summary :=
         LcovParser.calculateSummary [lcov_record "a.ts" 2 1; lcov_record "b.ts" 4 4];
       NormalizedCoverage.files :=
         map LcovParser.file_coverage [lcov_record "a.ts" 2 1; lcov_record "b.ts" 4 4] |}.
Proof.
  apply (summary_sums_files
           (always (None, Some [lcov_record "a.ts" 2 1; lcov_record "b.ts" 4 4]))
           (always (Err "")) (always (Err "")) (always (Err "")) (always (Err ""))
           (always (Err "")) lcov "SF:a.ts").
  - left. reflexivity.
  - reflexivity.
Defined.

Lemma statements_are_lines_witness :
  lines_as_statements
    {| NormalizedCoverage.format := cobertura;
       NormalizedCoverage.summary :=
         CoberturaParser.calculateSummary lines_only_report
           (map CoberturaParser.parseClass (CoberturaParser.classes_of lines_only_report));
       NormalizedCoverage.files :=
         map CoberturaParser.parseClass (CoberturaParser.classes_of lines_only_report) |}.
Proof.
  apply (statements_are_lines
           (always no_record_found) (always (Err "")) (always (Err ""))
           (always (Ok {| CoberturaParser.CoberturaXml.coverage := Some lines_only_report |}))
           (always (Err "")) (always (Err "")) cobertura "<coverage/>").
  - right. left. reflexivity.
  - reflexivity.
Defined.

Section IstanbulLines.
Import IstanbulParser.

Lemma Set_add_In (x : Z) (s : list Z) (n : Z) : In n (Set_add x s) <-> n = x \/ In n s.
Proof.
  unfold Set_add. destruct (existsb (Z.eqb x) s) eqn:E.
  - apply existsb_exists in E. destruct E as (y & Hy & E). apply Z.eqb_eq in E. subst y.
    split; [auto | intros [-> | H]; assumption].
  - rewrite in_app_iff. simpl. split; [intros [H | [H | []]]; auto | intros [H | H]; auto].
Qed.

Lemma Set_add_NoDup (x : Z) (s : list Z) : NoDup s -> NoDup (Set_add x s).
Proof.
  intros Hs. unfold Set_add. destruct (existsb (Z.eqb x) s) eqn:E; [exact Hs|].
  apply (Permutation_NoDup (Permutation_cons_append s x)). constructor; [|exact Hs].
  intros Hin. assert (existsb (Z.eqb x) s = true); [|congruence].
  apply existsb_exists. exists x. split; [exact Hin | apply Z.eqb_refl].
Qed.

Lemma line_range_In (loc : IstanbulLocation.t) (n : Z) :
  In n (line_range loc) <-> in_span loc n.
Proof.
  unfold line_range, in_span. rewrite in_map_iff. split.
  - intros (i & <- & Hi). apply in_seq in Hi. lia.
  - intros H.
    exists (Z.to_nat (n - Position.line (IstanbulLocation.start loc))).
    split; [lia | apply in_seq; lia].
Qed.

Lemma lines_of_statement (hit : bool) (range : list Z) (ls cs : list Z) :
  exists ls' cs',
    fold_left
      (fun '(lineSet, coveredLines) line =>
         (Set_add line lineSet, if hit then Set_add line coveredLines else coveredLines))
      range (ls, cs) = (ls', cs') /\
    (NoDup ls -> NoDup ls') /\ (NoDup cs -> NoDup cs') /\
    (forall n, In n ls' <-> In n ls \/ In n range) /\
    (forall n, In n cs' <-> In n cs \/ (hit = true /\ In n range)).
Proof.
  revert ls cs. induction range as [|line range IH]; intros ls cs; simpl.
  - exists ls, cs. repeat split; auto; intros H; try tauto.
  - destruct (IH (Set_add line ls) (if hit then Set_add line cs else cs))
      as (ls' & cs' & E & Hl & Hc & Hil & Hic).
    exists ls', cs'. split; [exact E|]. split; [|split; [|split]].
    + intros H. apply Hl, Set_add_NoDup, H.
    + intros H. apply Hc. destruct hit; [apply Set_add_NoDup|]; exact H.
    + intros n. rewrite Hil, Set_add_In. intuition.
    + intros n. rewrite Hic. destruct hit; [rewrite Set_add_In|]; intuition congruence.
Qed.

Lemma lines_of_statements (file : IstanbulFileCoverage.t)
    (entries : Object_ IstanbulLocation.t) (ls cs : list Z) :
  exists ls' cs',
    fold_left
      (fun sets '(key, loc) =>
         fold_left
           (fun '(lineSet, coveredLines) line =>
              (Set_add line lineSet,
               if statement_hit file key then Set_add line coveredLines else coveredLines))
           (line_range loc) sets)
      entries (ls, cs) = (ls', cs') /\
    (NoDup ls -> NoDup ls') /\ (NoDup cs -> NoDup cs') /\
    (forall n, In n ls' <->
       In n ls \/ exists key loc, In (key, loc) entries /\ in_span loc n) /\
    (forall n, In n cs' <->
       In n cs \/
       exists key loc,
         In (key, loc) entries /\ statement_hit file key = true /\ in_span loc n).
Proof.
  revert ls cs. induction entries as [|[key loc] entries IH]; intros ls cs; simpl.
  - exists ls, cs. repeat split; auto; intros H; try tauto.
    + destruct H as [H | (k & l & [] & _)]; exact H.
    + destruct H as [H | (k & l & [] & _)]; exact H.
  - destruct (lines_of_statement (statement_hit file key) (line_range loc) ls cs)
      as (ls1 & cs1 & E1 & Hl1 & Hc1 & Hil1 & Hic1).
    rewrite E1.
    destruct (IH ls1 cs1) as (ls' & cs' & E & Hl & Hc & Hil & Hic).
    exists ls', cs'. split; [exact E|]. split; [auto|]. split; [auto|]. split.
    + intros n. rewrite Hil, Hil1, line_range_In. split.
      * intros [[H | H] | (k & l & Hin & H)]; auto.
        -- right. exists key, loc. auto.
        -- right. exists k, l. auto.
      * intros [H | (k & l & [Heq | Hin] & H)]; auto.
        -- inversion Heq; subst. auto.
        -- right. exists k, l. auto.
    + intros n. rewrite Hic, Hic1, line_range_In. split.
      * intros [[H | [Hh H]] | (k & l & Hin & H)]; auto.
        -- right. exists key, loc. auto.
        -- right. exists k, l. destruct H. auto.
      * intros [H | (k & l & [Heq | Hin] & Hh & H)]; auto.
        -- inversion Heq; subst. auto.
        -- right. exists k, l. auto.
Qed.

(** X8. The lines metric of an Istanbul file counts lines, not statements:
    its total is the number of distinct line numbers spanned by some
    statement of [statementMap], its covered count the number of distinct
    line numbers spanned by some statement whose hit count in [s] is
    positive; so the covered lines are among the total ones. *)
Theorem calculateLines_counts (file : IstanbulFileCoverage.t) :
  exists lineSet coveredLines,
    NoDup lineSet /\ NoDup coveredLines /\
    (forall n, In n lineSet <-> statement_line file n) /\
    (forall n, In n coveredLines <-> hit_line file n) /\
    incl coveredLines lineSet /\
    (List.length coveredLines <= List.length lineSet)%nat /\
    CoverageMetric.total (calculateLines file) = of_nat (List.length lineSet) /\
    CoverageMetric.covered (calculateLines file) = of_nat (List.length coveredLines).
Proof.
  destruct (lines_of_statements file (obj_or (IstanbulFileCoverage.statementMap file)) [] [])
    as (ls & cs & E & Hl & Hc & Hil & Hic).
  exists ls, cs.
  assert (Hincl : incl cs ls).
  { intros n Hn. apply Hil. apply Hic in Hn. destruct Hn as [[] | (k & l & Hin & _ & H)].
    right. exists k, l. auto. }
  assert (Hnd : NoDup cs) by (apply Hc; constructor).
  split; [apply Hl; constructor|]. split; [exact Hnd|]. split; [|split; [|split; [|split; [|split]]]].
  - intros n. rewrite Hil. unfold statement_line, statement_entries. simpl. tauto.
  - intros n. rewrite Hic. unfold hit_line, statement_entries. simpl. tauto.
  - exact Hincl.
  - apply NoDup_incl_length; assumption.
  - unfold calculateLines. rewrite E. reflexivity.
  - unfold calculateLines. rewrite E. reflexivity.
Qed.

End IstanbulLines.

Section JaCoCoCounters.
Import JacocoParser.

Lemma counters_fold_get (counters : list JacocoCounter.t) (metrics : Object_ CoverageMetric.t)
    (key : string) :
  Object_get
    (fold_left (fun metrics counter =>
                  Object_set metrics (JacocoCounter.type counter) (counter_metric counter))
       counters metrics) key =
  match last_of_type key counters with
  | Some c => Some (counter_metric c)
  | None => Object_get metrics key
  end.
Proof.
  unfold last_of_type. revert metrics.
  induction counters as [|c counters IH]; intros metrics; simpl; [reflexivity|].
  rewrite IH, find_app, Object_get_set. simpl.
  destruct (find _ (rev counters)); [reflexivity|].
  destruct (String.eqb (JacocoCounter.type c) key); reflexivity.
Qed.

Lemma last_of_type_other (key : string) (before after : list JacocoCounter.t)
    (other : JacocoCounter.t) :
  String.eqb (JacocoCounter.type other) key = false ->
  last_of_type key (before ++ other :: after) = last_of_type key (before ++ after).
Proof.
  intros H. unfold last_of_type. rewrite !rev_app_distr. simpl.
  rewrite <- app_assoc, !find_app. simpl. rewrite H. reflexivity.
Qed.

(** X9. [parseCounters] reads statements, branches, functions and lines off
    the counters of type INSTRUCTION, BRANCH, METHOD and LINE: of several
    counters of one type the last one counts, a type without a counter
    gives the empty metric, and a counter of any other type (CLASS,
    COMPLEXITY) changes nothing. *)
Theorem parseCounters_by_type (counters : one_or_many JacocoCounter.t) :
  parseCounters counters =
    {| CoverageSummary.statements := metric_of_type "INSTRUCTION" (to_array counters);
       CoverageSummary.branches := metric_of_type "BRANCH" (to_array counters);
       CoverageSummary.functions := metric_of_type "METHOD" (to_array counters);
       CoverageSummary.lines := metric_of_type "LINE" (to_array counters) |} /\
  forall before after other,
    counters = Many (before ++ other :: after) ->
    existsb (String.eqb (JacocoCounter.type other)) ["INSTRUCTION"; "BRANCH"; "METHOD"; "LINE"]
      = false ->
    parseCounters counters = parseCounters (Many (before ++ after)).
Proof.
  assert (H : forall cs,
             parseCounters cs =
             {| CoverageSummary.statements := metric_of_type "INSTRUCTION" (to_array cs);
                CoverageSummary.branches := metric_of_type "BRANCH" (to_array cs);
                CoverageSummary.functions := metric_of_type "METHOD" (to_array cs);
                CoverageSummary.lines := metric_of_type "LINE" (to_array cs) |}).
  { intros cs. unfold parseCounters, metric_or_empty, metric_of_type.
    rewrite !counters_fold_get.
    f_equal; destruct (last_of_type _ _); reflexivity. }
  split; [apply H|].
  intros before after other -> Hother. rewrite !H. cbn [to_array].
  cbn [existsb] in Hother. rewrite !orb_false_r in Hother.
  apply orb_false_iff in Hother. destruct Hother as [H1 Hother].
  apply orb_false_iff in Hother. destruct Hother as [H2 Hother].
  apply orb_false_iff in Hother. destruct Hother as [H3 H4].
  unfold metric_of_type.
  rewrite !last_of_type_other by assumption. reflexivity.
Qed.

End JaCoCoCounters.

Section EmptyReports.
Variable XMLParser_parse_cobertura : string -> result CoberturaParser.CoberturaXml.t.
Variable XMLParser_parse_clover : string -> result CloverParser.CloverXml.t.
Variable XMLParser_parse_jacoco : string -> result JacocoParser.JacocoXml.t.

Lemma sum_by_nil {A : Type} (g : A -> number) : sum_by g [] = 0.
Proof. reflexivity. Qed.

(** X10. Unlike LCOV and Istanbul input, an XML report whose root element is
    there (with an attribute or a child, so that the XML parser delivers an
    object for it) but lists no file and states no totals is accepted:
    Cobertura, Clover and JaCoCo each give a snapshot without files whose
    four metrics are 0 of 0 at 100 percent.  A document whose root element
    is missing, or empty without any attribute, is rejected as invalid. *)
Theorem empty_xml_report_is_accepted content :
  (forall data coverage,
     XMLParser_parse_cobertura content = Ok data ->
     CoberturaParser.CoberturaXml.coverage data = Some coverage ->
     CoberturaParser.classes_of coverage = [] ->
     (0 <? root_lines_valid coverage) = false ->
     CoberturaParser.parse XMLParser_parse_cobertura content = Ok (empty_snapshot cobertura)) /\
  (forall data project,
     XMLParser_parse_clover content = Ok data ->
     clover_root data = Some project ->
     clover_files project = [] ->
     CloverParser.CloverProject.metrics project = None ->
     CloverParser.parse XMLParser_parse_clover content = Ok (empty_snapshot clover)) /\
  (forall data report,
     XMLParser_parse_jacoco content = Ok data ->
     JacocoParser.JacocoXml.report data = Some report ->
     JacocoParser.source_files report = [] ->
     JacocoParser.Report.counter report = None ->
     JacocoParser.parse XMLParser_parse_jacoco content = Ok (empty_snapshot jacoco)) /\
  (forall data,
     XMLParser_parse_cobertura content = Ok data ->
     CoberturaParser.CoberturaXml.coverage data = None ->
     CoberturaParser.parse XMLParser_parse_cobertura content
       = Err "Invalid Cobertura format: missing coverage element") /\
  (forall data,
     XMLParser_parse_clover content = Ok data ->
     clover_root data = None ->
     CloverParser.parse XMLParser_parse_clover content
       = Err "Invalid Clover format: missing project element") /\
  (forall data,
     XMLParser_parse_jacoco content = Ok data ->
     JacocoParser.JacocoXml.report data = None ->
     JacocoParser.parse XMLParser_parse_jacoco content
       = Err "Invalid JaCoCo format: missing report element").
Proof.
  repeat split.
  - intros data coverage Hd Hc Hfiles Hvalid.
    unfold CoberturaParser.parse, CoberturaParser.parse_data. rewrite Hd, Hc, Hfiles.
    cbn [map]. unfold CoberturaParser.calculateSummary.
    unfold root_lines_valid in Hvalid. rewrite Hvalid. reflexivity.
  - intros data project Hd Hp Hfiles Hm.
    unfold CloverParser.parse, CloverParser.parse_data. rewrite Hd.
    fold (clover_root data). rewrite Hp, Hm.
    assert (E : map CloverParser.parseFile
                  (CloverParser.opt_array (CloverParser.CloverProject.file project)) ++
                flat_map (fun pkg => map CloverParser.parseFile
                                       (CloverParser.opt_array (CloverParser.CloverPackage.file pkg)))
                  (CloverParser.opt_array (CloverParser.CloverProject.package project)) = []).
    { unfold clover_files in Hfiles. apply app_eq_nil in Hfiles. destruct Hfiles as [H1 H2].
      rewrite H1. cbn [map app].
      induction (CloverParser.opt_array (CloverParser.CloverProject.package project))
        as [|pkg pkgs IH]; [reflexivity|].
      cbn [flat_map] in *. apply app_eq_nil in H2. destruct H2 as [H2 H3].
      rewrite H2, (IH H3). reflexivity. }
    rewrite E. reflexivity.
  - intros data report Hd Hr Hfiles Hc.
    unfold JacocoParser.parse, JacocoParser.parse_data. rewrite Hd, Hr, Hfiles, Hc.
    reflexivity.
  - intros data Hd Hc. unfold CoberturaParser.parse, CoberturaParser.parse_data.
    rewrite Hd, Hc. reflexivity.
  - intros data Hd Hp. unfold CloverParser.parse, CloverParser.parse_data. rewrite Hd.
    fold (clover_root data). rewrite Hp. reflexivity.
  - intros data Hd Hr. unfold JacocoParser.parse, JacocoParser.parse_data.
    rewrite Hd, Hr. reflexivity.
Qed.

End EmptyReports.

Lemma empty_xml_report_witness :
  CoberturaParser.parse (always (Ok bare_cobertura)) "<coverage version='7'/>"
    = Ok (empty_snapshot cobertura) /\
  CloverParser.parse
    (always (Ok {| CloverParser.CloverXml.coverage :=
                     Some {| CloverParser.CloverCoverage.project := Some bare_clover_project |};
                   CloverParser.CloverXml.project := None |}))
    "<coverage><project timestamp='1'/></coverage>" = Ok (empty_snapshot clover) /\
  JacocoParser.parse
    (always (Ok {| JacocoParser.JacocoXml.report := Some bare_jacoco_report |}))
    "<report name='empty'/>" = Ok (empty_snapshot jacoco) /\
  CoberturaParser.parse
    (always (Ok {| CoberturaParser.CoberturaXml.coverage := None |})) "<coverage/>"
    = Err "Invalid Cobertura format: missing coverage element".
Proof.
  split; [|split; [|split]].
  - eapply (proj1 (empty_xml_report_is_accepted _ (always (Err "")) (always (Err "")) _));
      reflexivity.
  - eapply (proj1 (proj2 (empty_xml_report_is_accepted (always (Err "")) _ (always (Err "")) _)));
      reflexivity.
  - eapply (proj1 (proj2 (proj2
              (empty_xml_report_is_accepted (always (Err "")) (always (Err "")) _ _))));
      reflexivity.
  - eapply (proj1 (proj2 (proj2 (proj2
              (empty_xml_report_is_accepted _ (always (Err "")) (always (Err "")) _)))));
      reflexivity.
Defined.

(** * The registry, the inputs and the report *)

Section RegistryFacts.
Variable lcovParse_source : string -> option string * option (list LcovParser.LcovFile.t).
Variable JSON_parse : string -> result json.
Variable JSON_parse_istanbul : string -> result IstanbulParser.IstanbulCoverage.
Variable XMLParser_parse_cobertura : string -> result CoberturaParser.CoberturaXml.t.
Variable XMLParser_parse_clover : string -> result CloverParser.CloverXml.t.
Variable XMLParser_parse_jacoco : string -> result JacocoParser.JacocoXml.t.

Local Abbreviation parsers :=
  (Registry.parsers lcovParse_source JSON_parse JSON_parse_istanbul
     XMLParser_parse_cobertura XMLParser_parse_clover XMLParser_parse_jacoco).
Local Abbreviation parseCoverage :=
  (Registry.parseCoverage lcovParse_source JSON_parse JSON_parse_istanbul
     XMLParser_parse_cobertura XMLParser_parse_clover XMLParser_parse_jacoco).

Lemma json_block_some content fmt :
  Detect.json_block JSON_parse content = Some fmt ->
  fmt = istanbul /\
  Registry.detect
    (Registry.istanbulParser JSON_parse JSON_parse_istanbul) content "x.json" = true.
Proof.
  unfold Detect.json_block. cbn.
  destruct (JSON_parse content) as [parsed|]; [|discriminate].
  destruct (Detect.first_value parsed) as [v|]; [|discriminate].
  destruct (_ && _ && _); [|discriminate]. intros [= <-]. split; reflexivity.
Qed.

(** X11. What [detectFormat] selects is accepted by the [detect] method of
    the parser it selects; the converse fails, the [detect] methods accept
    more: a file named [.xml] whose content does not look like XML but has
    the Cobertura markers is taken by the Cobertura parser's [detect] and
    refused by [detectFormat]. *)
Theorem detectFormat_within_detect :
  (forall content filename format,
     Detect.detectFormat JSON_parse content filename = Ok format ->
     Registry.detect (parsers format) content filename = true) /\
  (exists content filename,
     Registry.detect (parsers cobertura) content filename = true /\
     Detect.detectFormat JSON_parse content filename = Err Detect.noFormat).
Proof.
  split.
  - intros content filename format. unfold Detect.detectFormat. cbn zeta.
    destruct (endsWith (toLowerCase filename) ".info" || endsWith (toLowerCase filename) ".lcov")
      eqn:Eext.
    { intros [= <-]. cbn. rewrite Eext. reflexivity. }
    assert (Hxml : forall fmt,
               (includes content "<?xml" || startsWith (trim content) "<") = true ->
               Detect.xml_block content = Some fmt ->
               Registry.detect (parsers fmt) content filename = true).
    { intros fmt Hlook. unfold Detect.xml_block.
      assert (Hnot : Registry.not_xml content filename = false).
      { unfold Registry.not_xml. rewrite <- negb_orb, Hlook. apply andb_false_r. }
      destruct (includes content "<coverage" && includes content "line-rate") eqn:E1.
      { intros [= <-]. cbn. rewrite Hnot. exact E1. }
      destruct ((includes content "<coverage" && includes content "clover")
                || includes content "<project") eqn:E2.
      { intros [= <-]. cbn. rewrite Hnot. exact E2. }
      destruct (includes content "<report" && includes content "<counter") eqn:E3;
        [|discriminate].
      intros [= <-]. cbn. rewrite Hnot. exact E3. }
    assert (Hrest :
              match (if includes content "<?xml" || startsWith (trim content) "<"
                     then Detect.xml_block content else None) with
              | Some fmt => Ok fmt
              | None =>
                  if includes content "SF:" && (includes content "LF:" || includes content "DA:")
                  then Ok lcov else Err Detect.noFormat
              end = Ok format ->
              Registry.detect (parsers format) content filename = true).
    { destruct (includes content "<?xml" || startsWith (trim content) "<") eqn:Elook.
      - destruct (Detect.xml_block content) as [fmt|] eqn:Ex.
        + intros [= <-]. apply Hxml; reflexivity.
        + destruct (includes content "SF:" && _) eqn:Em; [|discriminate].
          intros [= <-]. cbn. rewrite Eext. exact Em.
      - destruct (includes content "SF:" && _) eqn:Em; [|discriminate].
        intros [= <-]. cbn. rewrite Eext. exact Em. }
    destruct (endsWith (toLowerCase filename) ".json") eqn:Ejson; [|exact Hrest].
    destruct (Detect.json_block JSON_parse content) as [fmt|] eqn:Ej; [|exact Hrest].
    intros [= <-]. destruct (json_block_some _ _ Ej) as [-> Hd].
    cbn in Hd |- *. rewrite Ejson. exact Hd.
  - exists "coverage line-rate <coverage", "report.xml". split; reflexivity.
Qed.

Lemma parse_format format content c :
  Registry.parse (parsers format) content = Ok c -> NormalizedCoverage.format c = format.
Proof.
  destruct format; cbn [Registry.parsers Registry.parse Registry.lcovParser
                          Registry.istanbulParser Registry.coberturaParser
                          Registry.cloverParser Registry.jacocoParser].
  - unfold LcovParser.parse. destruct (lcovParse_source content) as [err data].
    intros H. apply on_source_ok in H. destruct H as (records & _ & _ & ->). reflexivity.
  - unfold IstanbulParser.parse. destruct (JSON_parse_istanbul content); [|discriminate].
    destruct (Nat.eqb _ 0); [discriminate|]. intros [= <-]. reflexivity.
  - unfold CoberturaParser.parse, CoberturaParser.parse_data.
    destruct (XMLParser_parse_cobertura content) as [data|]; [|discriminate].
    destruct (CoberturaParser.CoberturaXml.coverage data); [|discriminate].
    intros [= <-]. reflexivity.
  - unfold CloverParser.parse, CloverParser.parse_data.
    destruct (XMLParser_parse_clover content) as [data|]; [|discriminate].
    destruct (match CloverParser.CloverXml.coverage data with
              | Some _ => _ | None => _ end); [|discriminate].
    intros [= <-]. reflexivity.
  - unfold JacocoParser.parse, JacocoParser.parse_data.
    destruct (XMLParser_parse_jacoco content) as [data|]; [|discriminate].
    destruct (JacocoParser.JacocoXml.report data); [|discriminate].
    intros [= <-]. reflexivity.
Qed.

(** X12. A snapshot that [parseCoverage] returns carries the format it was
    parsed as: the requested one, or with [auto] the one [detectFormat]
    gives for the content and the file name (so the second [detectFormat]
    call of [parseLocalCoverage] succeeds with that same format). *)
Theorem parseCoverage_format content filename format c :
  parseCoverage content filename format = Ok c ->
  match format with
  | Explicit f => NormalizedCoverage.format c = f
  | Auto =>
      Detect.detectFormat JSON_parse content filename = Ok (NormalizedCoverage.format c)
  end.
Proof.
  unfold Registry.parseCoverage. destruct format as [|f].
  - destruct (Detect.detectFormat JSON_parse content filename) as [f|]; [|discriminate].
    intros H. now rewrite (parse_format _ _ _ H).
  - apply parse_format.
Qed.

End RegistryFacts.

Lemma parseCoverage_format_witness :
  Detect.detectFormat (always (Err "")) "<coverage/>" "coverage.info" = Ok lcov.
Proof.
  apply (parseCoverage_format
           (always (None, Some [lcov_record "a.ts" 2 1])) (always (Err "")) (always (Err ""))
           (always (Err "")) (always (Err "")) (always (Err ""))
           "<coverage/>" "coverage.info" Auto
           {| NormalizedCoverage.format := lcov;
              NormalizedCoverage.summary := LcovParser.calculateSummary [lcov_record "a.ts" 2 1];
              NormalizedCoverage.files :=
                map LcovParser.file_coverage [lcov_record "a.ts" 2 1] |}).
  reflexivity.
Defined.

Section InputsFacts.
Variable getInput : string -> string.
Variable context_repository : string.
Variable getInput_required : string -> result string.

Lemma valid_format_name (formatInput : string) :
  existsb (String.eqb formatInput) Inputs.validFormats = true ->
  format_name (Inputs.as_format formatInput) = formatInput.
Proof.
  intros H. apply existsb_exists in H. destruct H as (name & Hin & E).
  apply String.eqb_eq in E. subst name.
  cbn in Hin. repeat (destruct Hin as [<- | Hin]; [reflexivity|]). contradiction.
Qed.

(** X14. Inputs that [getInputs] returns are valid: the threshold is a
    number from 0 to 100 (0 when the input is not given), so never negative
    and never NaN; the format is the one the input names (auto when the
    input is not given); and failing on a regression is on unless the input
    spells "false" in some letter case. *)
Theorem getInputs_valid inputs :
  Inputs.getInputs getInput context_repository getInput_required = Ok inputs ->
  isNaN (ActionInputs.threshold inputs) = false /\
  (0 <=? ActionInputs.threshold inputs) = true /\
  (ActionInputs.threshold inputs <=? 100) = true /\
  (getInput "threshold" = "" -> ActionInputs.threshold inputs = 0) /\
  format_name (ActionInputs.format inputs) = Inputs.getInput_or getInput "format" "auto" /\
  (getInput "format" = "" -> ActionInputs.format inputs = Auto) /\
  (ActionInputs.failOnRegression inputs = false <->
   toLowerCase (getInput "fail-on-regression") = "false").
Proof.
  unfold Inputs.getInputs.
  destruct (getInput_required "path"); [|discriminate].
  destruct (getInput_required "baseline-alias"); [|discriminate].
  destruct (getInput_required "api-url"); [|discriminate].
  destruct (getInput_required "api-key"); [|discriminate].
  cbn zeta.
  destruct (existsb _ Inputs.validFormats) eqn:Ef; [|discriminate]. cbn [negb].
  destruct (isNaN _ || _ || _) eqn:Et; [discriminate|].
  apply orb_false_iff in Et. destruct Et as [Et Hhi].
  apply orb_false_iff in Et. destruct Et as [Hnan Hlo].
  intros [= <-].
  cbn [ActionInputs.threshold ActionInputs.format ActionInputs.failOnRegression].
  split; [exact Hnan|].
  split; [apply leb_total; [reflexivity | exact Hnan | exact Hlo]|].
  split; [apply leb_total; [exact Hnan | reflexivity | exact Hhi]|].
  split; [intros E; unfold Inputs.getInput_or; rewrite E; reflexivity|].
  split; [apply valid_format_name, Ef|].
  split; [intros E; unfold Inputs.getInput_or; rewrite E; reflexivity|].
  unfold Inputs.not_false, Inputs.getInput_or, str_or.
  destruct (getInput "fail-on-regression") as [|ch rest].
  - split; discriminate.
  - rewrite negb_false_iff. apply String.eqb_eq.
Qed.

End InputsFacts.

Lemma getInputs_valid_witness :
  (0 <=? 2.5) = true /\ (2.5 <=? 100) = true /\ format_name (Explicit clover) = "clover".
Proof.
  destruct (getInputs_valid sample_getInput "owner/repo" sample_required
              {| ActionInputs.path := "path";
                 ActionInputs.baselineAlias := "baseline-alias";
                 ActionInputs.apiUrl := "api-url";
                 ActionInputs.apiKey := "api-key";
                 ActionInputs.format := Explicit clover;
                 ActionInputs.threshold := 2.5;
                 ActionInputs.uploadResults := true;
                 ActionInputs.alias := "preview";
                 ActionInputs.repository := "owner/repo";
                 ActionInputs.failOnRegression := true;
                 ActionInputs.summary := true;
                 ActionInputs.comment := true;
                 ActionInputs.commentHeader := "## Coverage Report" |} eq_refl)
    as (_ & H1 & H2 & _ & H3 & _).
  split; [exact H1 | split; [exact H2 | exact H3]].
Defined.

Section ShortenPath.

Lemma string_app_length (a b : string) :
  String.length (a ++ b) = (String.length a + String.length b)%nat.
Proof. induction a as [|c a IH]; simpl; [reflexivity | now rewrite IH]. Qed.

Lemma substring_to_end (s : string) : String.substring 0 (String.length s) s = s.
Proof. induction s as [|c s IH]; simpl; [reflexivity | now rewrite IH]. Qed.

Lemma substring_suffix (n : nat) (s : string) :
  (n <= String.length s)%nat ->
  exists head : string,
    s = (head ++ String.substring n (String.length s - n) s)%string /\
    String.length head = n.
Proof.
  revert s. induction n as [|n IH]; intros s Hn.
  - exists "". rewrite Nat.sub_0_r, substring_to_end. split; reflexivity.
  - destruct s as [|c s]; simpl in Hn; [lia|].
    destruct (IH s) as (head & E & Hlen); [lia|].
    exists (String c head). cbn [String.length Nat.sub String.substring append].
    split; [f_equal; exact E | now rewrite Hlen].
Qed.

(** X15. A path of up to 50 characters is shown as it is; a longer one is
    shown as three dots and its last 47 characters, 50 characters in all. *)
Theorem shortenPath_keeps_the_end (filePath : string) :
  (String.length (Report.shortenPath filePath) <= 50)%nat /\
  ((String.length filePath <= 50)%nat -> Report.shortenPath filePath = filePath) /\
  ((50 < String.length filePath)%nat ->
   exists head tail : string,
     filePath = (head ++ tail)%string /\ String.length tail = 47%nat /\
     Report.shortenPath filePath = ("..." ++ tail)%string).
Proof.
  unfold Report.shortenPath.
  destruct (Nat.leb (String.length filePath) 50) eqn:E.
  - apply Nat.leb_le in E. split; [exact E|]. split; [reflexivity | lia].
  - apply Nat.leb_gt in E.
    destruct (substring_suffix (String.length filePath - 47) filePath) as (head & Hs & Hh);
      [lia|].
    replace (String.length filePath - (String.length filePath - 47))%nat with 47%nat in Hs
      by lia.
    fold (Report.slice_last 47 filePath) in Hs.
    assert (Hlen : String.length (Report.slice_last 47 filePath) = 47%nat).
    { apply (f_equal String.length) in Hs. rewrite string_app_length, Hh in Hs. lia. }
    split; [|split; [lia|]].
    + cbn [append String.length]. rewrite Hlen. lia.
    + intros _. exists head, (Report.slice_last 47 filePath). auto.
Qed.

End ShortenPath.

Section ResolvePath.
Variable existsSync : string -> bool.
Variable isFile : string -> bool.
Variable isDirectory : string -> bool.
Variable path_join : string -> string -> string.
Variable path_resolve : string -> string.

Lemma find_in_some dirPath filenames p :
  Parse.find_in existsSync isFile path_join dirPath filenames = Some p ->
  exists before filename after,
    filenames = before ++ filename :: after /\
    p = path_join dirPath filename /\
    is_coverage_file existsSync isFile path_join dirPath filename = true /\
    Forall (fun f => is_coverage_file existsSync isFile path_join dirPath f = false) before.
Proof.
  induction filenames as [|filename rest IH]; simpl; [discriminate|].
  fold (is_coverage_file existsSync isFile path_join dirPath filename).
  destruct (is_coverage_file existsSync isFile path_join dirPath filename) eqn:E.
  - intros [= <-]. exists [], filename, rest. repeat split; [exact E | constructor].
  - intros H. destruct (IH H) as (before & f & after & -> & -> & Hf & Hb).
    exists (filename :: before), f, after. repeat split; [exact Hf | constructor; assumption].
Qed.

(** X16. A path that [resolveCoveragePath] returns exists and is a file:
    the resolved input itself, or, when that is a directory, the first name
    of the list of common report names, in the order of the list, that is a
    file of the directory. *)
Theorem resolveCoveragePath_ok inputPath p :
  Parse.resolveCoveragePath existsSync isFile isDirectory path_join path_resolve inputPath
    = Ok p ->
  existsSync p = true /\ isFile p = true /\
  (p = path_resolve inputPath \/
   (isFile (path_resolve inputPath) = false /\
    isDirectory (path_resolve inputPath) = true /\
    exists before filename after,
      Parse.COMMON_COVERAGE_FILES = before ++ filename :: after /\
      p = path_join (path_resolve inputPath) filename /\
      Forall (fun f => is_coverage_file existsSync isFile path_join
                         (path_resolve inputPath) f = false) before)).
Proof.
  unfold Parse.resolveCoveragePath. cbn zeta.
  destruct (existsSync (path_resolve inputPath)) eqn:Ee; [|discriminate]. cbn [negb].
  destruct (isFile (path_resolve inputPath)) eqn:Ef.
  - intros [= <-]. auto.
  - destruct (isDirectory (path_resolve inputPath)) eqn:Ed; [|discriminate].
    unfold Parse.findCoverageFile.
    destruct (Parse.find_in _ _ _ _ _) as [coverageFile|] eqn:Efind; [|discriminate].
    intros [= <-].
    destruct (find_in_some _ _ _ Efind) as (before & filename & after & E & -> & Hf & Hb).
    unfold is_coverage_file in Hf. apply andb_true_iff in Hf. destruct Hf as [H1 H2].
    split; [exact H1|]. split; [exact H2|]. right. split; [reflexivity|]. split; [reflexivity|].
    exists before, filename, after. auto.
Qed.

End ResolvePath.

Lemma resolveCoveragePath_witness :
  sample_existsSync "/w/coverage/coverage.xml" = true /\
  sample_isFile "/w/coverage/coverage.xml" = true.
Proof.
  destruct (resolveCoveragePath_ok sample_existsSync sample_isFile sample_isDirectory
              sample_join sample_resolve "coverage" "/w/coverage/coverage.xml" eq_refl)
    as (H1 & H2 & _).
  split; assumption.
Defined.

Section BaselinePath.
Variable existsSync : string -> bool.
Variable isFile : string -> bool.
Variable isDirectory : string -> bool.
Variable path_join : string -> string -> string.
Variable path_resolve : string -> string.

(** X17. The baseline's report and the current report are located by the
    same rule: on a path that resolves to itself, [resolveCoveragePath] of
    src/download.ts returns a file exactly when [resolveCoveragePath] of
    src/parse.ts returns that file, and returns null exactly when the other
    one throws. *)
Theorem resolveCoveragePath_agree inputPath :
  path_resolve inputPath = inputPath ->
  (forall p,
     Download.resolveCoveragePath existsSync isFile isDirectory path_join inputPath = Some p <->
     Parse.resolveCoveragePath existsSync isFile isDirectory path_join path_resolve inputPath
       = Ok p) /\
  (Download.resolveCoveragePath existsSync isFile isDirectory path_join inputPath = None <->
   exists message,
     Parse.resolveCoveragePath existsSync isFile isDirectory path_join path_resolve inputPath
       = Err message).
Proof.
  intros Hr. unfold Download.resolveCoveragePath, Parse.resolveCoveragePath. cbn zeta.
  rewrite Hr. unfold Download.findCoverageFile, Parse.findCoverageFile.
  change Download.COMMON_COVERAGE_FILES with Parse.COMMON_COVERAGE_FILES.
  destruct (existsSync inputPath); cbn [negb].
  2: { split; [intros p; split; discriminate | split; [eauto | reflexivity]]. }
  destruct (isFile inputPath).
  { split; [intros p; split; intros [= <-]; reflexivity
           | split; [discriminate | intros [m H]; discriminate H]]. }
  destruct (isDirectory inputPath).
  2: { split; [intros p; split; discriminate | split; [eauto | reflexivity]]. }
  destruct (Parse.find_in _ _ _ _ _) as [q|].
  - split; [intros p; split; intros [= <-]; reflexivity
           | split; [discriminate | intros [m H]; discriminate H]].
  - split; [intros p; split; discriminate | split; [eauto | reflexivity]].
Qed.

End BaselinePath.

Lemma resolveCoveragePath_agree_witness :
  Download.resolveCoveragePath sample_existsSync sample_isFile sample_isDirectory sample_join
    "/w/coverage" = Some "/w/coverage/coverage.xml".
Proof.
  apply (proj1 (resolveCoveragePath_agree sample_existsSync sample_isFile sample_isDirectory
                  sample_join (fun p => p) "/w/coverage" eq_refl)).
  reflexivity.
Defined.

Section ConditionCoverage.
Import CoberturaParser.







End ConditionCoverage.

Section RaisingTheThreshold.
Import Compare.

Lemma compareMetric_raise metric b c t1 t2 :
  (t1 <=? t2) = true ->
  MetricComparison.status (compareMetric metric b c t1) <> regressed ->
  MetricComparison.status (compareMetric metric b c t2) =
  MetricComparison.status (compareMetric metric b c t1).
Proof.
  intros Ht. unfold compareMetric. cbn [MetricComparison.status].
  destruct (0 <? _); [reflexivity|].
  destruct (_ <? - t1) eqn:E1; [intros H; contradiction|]. intros _.
  destruct (_ <? - t2) eqn:E2; [|reflexivity].
  rewrite (ltb_opp_mono _ _ _ Ht E2) in E1. discriminate.
Qed.

(** X19. Raising the threshold never turns a run that passes into one that
    fails: when the overall status at a threshold is not [regressed], it is
    the same at every higher threshold, and [shouldFail] stays false. *)
Theorem raising_threshold_keeps_status current baseline t1 t2 :
  (t1 <=? t2) = true ->
  CoverageComparison.overallStatus (compareCoverage current baseline t1) <> regressed ->
  CoverageComparison.overallStatus (compareCoverage current baseline t2) =
    CoverageComparison.overallStatus (compareCoverage current baseline t1) /\
  forall inputs, shouldFail (compareCoverage current baseline t2) inputs = false.
Proof.
  intros Ht Hnr.
  assert (E : CoverageComparison.overallStatus (compareCoverage current baseline t2) =
              CoverageComparison.overallStatus (compareCoverage current baseline t1)).
  { revert Hnr. unfold compareCoverage, determineOverallStatus.
    cbn [CoverageComparison.overallStatus existsb].
    pose proof (fun m b c => compareMetric_raise m b c t1 t2 Ht) as Hm.
    pose proof (Hm Statements (CoverageSummary.statements (NormalizedCoverage.summary baseline))
                  (CoverageSummary.statements (NormalizedCoverage.summary current))) as H1.
    pose proof (Hm Branches (CoverageSummary.branches (NormalizedCoverage.summary baseline))
                  (CoverageSummary.branches (NormalizedCoverage.summary current))) as H2.
    pose proof (Hm Functions (CoverageSummary.functions (NormalizedCoverage.summary baseline))
                  (CoverageSummary.functions (NormalizedCoverage.summary current))) as H3.
    pose proof (Hm Lines (CoverageSummary.lines (NormalizedCoverage.summary baseline))
                  (CoverageSummary.lines (NormalizedCoverage.summary current))) as H4.
    clear Hm. revert H1 H2 H3 H4.
    generalize (MetricComparison.status
                  (compareMetric Statements
                     (CoverageSummary.statements (NormalizedCoverage.summary baseline))
                     (CoverageSummary.statements (NormalizedCoverage.summary current)) t2)),
               (MetricComparison.status
                  (compareMetric Branches
                     (CoverageSummary.branches (NormalizedCoverage.summary baseline))
                     (CoverageSummary.branches (NormalizedCoverage.summary current)) t2)),
               (MetricComparison.status
                  (compareMetric Functions
                     (CoverageSummary.functions (NormalizedCoverage.summary baseline))
                     (CoverageSummary.functions (NormalizedCoverage.summary current)) t2)),
               (MetricComparison.status
                  (compareMetric Lines
                     (CoverageSummary.lines (NormalizedCoverage.summary baseline))
                     (CoverageSummary.lines (NormalizedCoverage.summary current)) t2)).
    intros s1' s2' s3' s4'.
    destruct (MetricComparison.status (compareMetric Statements _ _ t1)),
             (MetricComparison.status (compareMetric Branches _ _ t1)),
             (MetricComparison.status (compareMetric Functions _ _ t1)),
             (MetricComparison.status (compareMetric Lines _ _ t1));
      cbn; intros H1 H2 H3 H4 Hnr; try (exfalso; apply Hnr; reflexivity);
      rewrite H1, H2, H3, H4 by discriminate; reflexivity. }
  split; [exact E|].
  intros inputs. unfold shouldFail. rewrite E.
  destruct (ActionInputs.failOnRegression inputs); cbn [negb]; [|reflexivity].
  destruct (CoverageComparison.overallStatus (compareCoverage current baseline t1));
    [reflexivity | contradiction | reflexivity].
Qed.

Lemma raising_threshold_witness :
  CoverageComparison.overallStatus
    (compareCoverage (coverage_of current_files) (coverage_of baseline_files) 5) =
  CoverageComparison.overallStatus
    (compareCoverage (coverage_of current_files) (coverage_of baseline_files) 0).
Proof.
  apply (raising_threshold_keeps_status (coverage_of current_files)
           (coverage_of baseline_files) 0 5 eq_refl).
  vm_compute. discriminate.
Defined.

End RaisingTheThreshold.
